(** * Sentiment / return alignment pipeline

    A shallow embedding of [src/sentiment_analysis.py]
    ([SentimentReturnAnalyzer]) and of the loader of [src/eda_analysis.py]
    ([EdaAnalysis.load_data]).

    The Python code is a chain of methods that mutate the fields of one object
    and print diagnostics; every method body sits in a [try] block.  The
    embedding therefore keeps

    - the object's fields as an explicit state record ([Analyzer]);
    - printing, raising and state in one small monad ([M]);
    - the calls into pandas, datetime and TextBlob as definitions that follow
      the documented behaviour of those libraries where it is determined
      (strptime, groupby/mean, pct_change, merge, dt.normalize,
      dt.tz_localize) and as parameters bundled in [Externals] where it is not
      (the general-purpose date parser, the CSV reader, the polarity scorer and
      the default, unstable sort of [sort_values]). *)

From Stdlib Require Import ZArith List String Ascii Bool Lia.
From Stdlib Require Import Permutation Sorted.
From Stdlib Require Import QArith Qabs Qcanon.
From Stdlib Require Import DecimalString.
From Stdlib Require Import Floats.SpecFloat.
Import ListNotations.

Local Open Scope string_scope.
Local Open Scope Z_scope.

(* ================================================================== *)
(** * Python values and exceptions *)
(* ================================================================== *)

(** The exception classes the modelled code can meet.  All of them derive from
    [Exception]; asynchronous [BaseException]s (KeyboardInterrupt, SystemExit)
    are outside the model. *)
Inductive exn_class :=
| TypeError | ValueError | KeyError | AttributeError
| FileNotFoundError | ParserError | OtherException.

Record exn := Exn { exn_cls : exn_class; exn_str : string }.

(** [datetime.datetime]: the fields [strptime] fills, and [tzinfo] as a fixed
    UTC offset ([None] for a naive value). *)
Record datetime := mkdatetime {
  year : Z; month : Z; day : Z;
  hour : Z; minute : Z; second : Z;
  tzinfo : option Z
}.

(** What a cell read with [.at[i, "date"]] or passed to a parser can be. *)
Inductive pyobj :=
| PStr (s : string)
| PNaT
| PTimestamp (ns : Z) (tz : option Z)
| PDatetime (dt : datetime)
| PFloat
| PNone.

Definition type_name (o : pyobj) : string :=
  match o with
  | PStr _ => "str"
  | PNaT => "NaTType"
  | PTimestamp _ _ => "Timestamp"
  | PDatetime _ => "datetime.datetime"
  | PFloat => "float"
  | PNone => "NoneType"
  end.

(* ================================================================== *)
(** * Characters and strings

    Text is a string of ASCII characters; what Python does with other
    characters (Unicode digits and blanks) is outside the model. *)
(* ================================================================== *)

Definition code (c : ascii) : N := N_of_ascii c.

Definition is_digit (c : ascii) : bool :=
  ((48 <=? code c) && (code c <=? 57))%N.

Definition in_range (lo hi c : ascii) : bool :=
  ((code lo <=? code c) && (code c <=? code hi))%N.

(** [str.isascii]: the text is made of ASCII characters only, each of them
    one byte. *)
Fixpoint is_ascii (s : string) : bool :=
  match s with
  | EmptyString => true
  | String c s' => (code c <? 128)%N && is_ascii s'
  end.

(** [str.isspace] on one ASCII character, which is also the class [\s] of
    [re] on [str] patterns: TAB, LF, VT, FF, CR, FS, GS, RS, US and SPACE. *)
Definition is_space (c : ascii) : bool :=
  ((9 <=? code c) && (code c <=? 13) || (28 <=? code c) && (code c <=? 32))%N.

Definition lower_char (c : ascii) : ascii :=
  if ((65 <=? code c) && (code c <=? 90))%N
  then ascii_of_N (code c + 32) else c.

Fixpoint lower (s : string) : string :=
  match s with
  | EmptyString => EmptyString
  | String c s' => String (lower_char c) (lower s')
  end.

Definition digit_val (c : ascii) : Z := Z.of_N (code c) - 48.

(** [int(s)] on a matched group: decimal digits, blanks skipped (the only
    non-digit a group of the patterns below can hold is the leading blank of
    [%d]). *)
Fixpoint int_acc (acc : Z) (s : string) : Z :=
  match s with
  | EmptyString => acc
  | String c s' =>
      if is_digit c then int_acc (10 * acc + digit_val c) s' else int_acc acc s'
  end.

Definition int_of (s : string) : Z := int_acc 0 s.

(** Numbers written with a fixed number of decimal digits. *)
Definition digit_char (n : Z) : ascii := ascii_of_N (Z.to_N (48 + n)).

Definition two_digits (n : Z) : string :=
  String (digit_char (n / 10)) (String (digit_char (n mod 10)) EmptyString).

Definition four_digits (n : Z) : string :=
  String (digit_char (n / 1000))
    (String (digit_char (n / 100 mod 10)) (two_digits (n mod 100))).

Fixpoint lstrip (s : string) : string :=
  match s with
  | String c s' => if is_space c then lstrip s' else s
  | EmptyString => EmptyString
  end.

Fixpoint all_space (s : string) : bool :=
  match s with
  | EmptyString => true
  | String c s' => is_space c && all_space s'
  end.

Fixpoint rstrip (s : string) : string :=
  match s with
  | EmptyString => EmptyString
  | String c s' => if all_space s then EmptyString else String c (rstrip s')
  end.

(** [str.strip()]. *)
Definition strip (s : string) : string := rstrip (lstrip s).

(** [re.sub(r"\s{2,}", " ", s)]: a run of two or more blanks becomes one
    space, a single blank stays what it is.  [pending] is the first blank of
    the run being read, if any, and [long] says the run has a second one. *)
Fixpoint collapse_from (pending : option ascii) (long : bool) (s : string) : string :=
  let flush (k : string) : string :=
    match pending with
    | None => k
    | Some c => String (if long then " "%char else c) k
    end in
  match s with
  | EmptyString => flush EmptyString
  | String c s' =>
      if is_space c then
        match pending with
        | None => collapse_from (Some c) false s'
        | Some _ => collapse_from pending true s'
        end
      else flush (String c (collapse_from None false s'))
  end.

Definition collapse_blanks (s : string) : string := collapse_from None false s.

(* ================================================================== *)
(** * [datetime.strptime]

    After CPython's [Lib/_strptime.py] (3.8 to 3.12), for the C / English
    locale and for the directives the analyzer's format uses.  The format is
    compiled to a regular expression ([TimeRE.pattern]), matched with
    [re.match] under [IGNORECASE] (a backtracking matcher: alternatives in
    order, [+] greedy), and the named groups are converted to fields. *)
(* ================================================================== *)

Inductive regex :=
| Eps
| Class (p : ascii -> bool)
| Cat (r1 r2 : regex)
| Alt (r1 r2 : regex)
| Plus (p : ascii -> bool)
| Group (name : ascii) (r : regex).

Definition captures := list (ascii * string).

(** One way of matching: the groups, the text matched and the text left. *)
Definition matching := (captures * string * string)%type.

(** The matches of [p+] at the head of [s], longest first. *)
Fixpoint many1 (p : ascii -> bool) (s : string) : list matching :=
  match s with
  | EmptyString => []
  | String c s' =>
      if p c then
        (map (fun m : matching =>
                let '(g, t, rest) := m in (g, String c t, rest)) (many1 p s')
         ++ [([], String c EmptyString, s')])%list
      else []
  end.

(** All the ways [r] matches a prefix of [s], in the order a backtracking
    matcher tries them. *)
Fixpoint rmatch (r : regex) (s : string) : list matching :=
  match r with
  | Eps => [([], EmptyString, s)]
  | Class p =>
      match s with
      | String c s' => if p c then [([], String c EmptyString, s')] else []
      | EmptyString => []
      end
  | Cat r1 r2 =>
      flat_map (fun m1 : matching =>
                  let '(g1, t1, s1) := m1 in
                  map (fun m2 : matching =>
                         let '(g2, t2, s2) := m2 in ((g1 ++ g2)%list, t1 ++ t2, s2))
                      (rmatch r2 s1))
               (rmatch r1 s)
  | Alt r1 r2 => (rmatch r1 s ++ rmatch r2 s)%list
  | Plus p => many1 p s
  | Group name r1 =>
      map (fun m : matching =>
             let '(g, t, rest) := m in ((name, t) :: g, t, rest)) (rmatch r1 s)
  end.

(** [re.match]: the first match, if any. *)
Definition re_match (r : regex) (s : string) : option matching :=
  match rmatch r s with
  | m :: _ => Some m
  | [] => None
  end.

(** A literal character under [IGNORECASE]. *)
Definition lit (c : ascii) : regex :=
  Class (fun x => Ascii.eqb (lower_char x) (lower_char c)).

Definition digit : regex := Class is_digit.
Definition range (lo hi : ascii) : regex := Class (in_range lo hi).

Fixpoint alts (rs : list regex) : regex :=
  match rs with
  | [] => Class (fun _ => false)
  | [r] => r
  | r :: rs' => Alt r (alts rs')
  end.

Fixpoint word (s : string) : regex :=
  match s with
  | EmptyString => Eps
  | String c EmptyString => lit c
  | String c s' => Cat (lit c) (word s')
  end.

(** The table of [TimeRE.__init__], for the directives in use. *)
Definition directive (c : ascii) : option regex :=
  let one_12 := alts [Cat (lit "1") (range "0" "2");
                      Cat (lit "0") (range "1" "9");
                      range "1" "9"] in
  if Ascii.eqb c "d" then
    Some (Group "d" (alts [Cat (lit "3") (range "0" "1");
                           Cat (range "1" "2") digit;
                           Cat (lit "0") (range "1" "9");
                           range "1" "9";
                           Cat (lit " ") (range "1" "9")]))
  else if Ascii.eqb c "H" then
    Some (Group "H" (alts [Cat (lit "2") (range "0" "3");
                           Cat (range "0" "1") digit;
                           digit]))
  else if Ascii.eqb c "I" then Some (Group "I" one_12)
  else if Ascii.eqb c "m" then Some (Group "m" one_12)
  else if Ascii.eqb c "M" then
    Some (Group "M" (alts [Cat (range "0" "5") digit; digit]))
  else if Ascii.eqb c "S" then
    Some (Group "S" (alts [Cat (lit "6") (range "0" "1");
                           Cat (range "0" "5") digit;
                           digit]))
  else if Ascii.eqb c "Y" then
    Some (Group "Y" (Cat digit (Cat digit (Cat digit digit))))
  else if Ascii.eqb c "p" then
    Some (Group "p" (alts [word "am"; word "pm"]))
  else None.

(** [TimeRE.pattern]: a run of blanks in the format is [\s+], [%x] is the
    regular expression of directive [x], any other character is itself. *)
Fixpoint pattern (in_blanks : bool) (format : string) : option regex :=
  match format with
  | EmptyString => Some Eps
  | String c rest =>
      if is_space c then
        if in_blanks then pattern true rest
        else option_map (Cat (Plus is_space)) (pattern true rest)
      else if Ascii.eqb c "%" then
        match rest with
        | String d rest' =>
            match directive d, pattern false rest' with
            | Some r, Some k => Some (Cat r k)
            | _, _ => None
            end
        | EmptyString => None
        end
      else option_map (Cat (lit c)) (pattern false rest)
  end.

Fixpoint found (g : captures) (name : ascii) : option string :=
  match g with
  | [] => None
  | (n, t) :: g' => if Ascii.eqb n name then Some t else found g' name
  end.

Definition is_leap (y : Z) : bool :=
  (y mod 4 =? 0) && (negb (y mod 100 =? 0) || (y mod 400 =? 0)).

Definition days_in_month (y m : Z) : Z :=
  if m =? 2 then (if is_leap y then 29 else 28)
  else if (m =? 4) || (m =? 6) || (m =? 9) || (m =? 11) then 30
  else 31.

(** The checks of [datetime.date(year, month, day)] and of the [datetime]
    constructor. *)
Definition valid_date (y m d : Z) : bool :=
  (1 <=? y) && (y <=? 9999) && (1 <=? m) && (m <=? 12)
  && (1 <=? d) && (d <=? days_in_month y m).

Definition valid_time (h mi s : Z) : bool :=
  (0 <=? h) && (h <=? 23) && (0 <=? mi) && (mi <=? 59)
  && (0 <=? s) && (s <=? 59).

Definition group_int (g : captures) (name : ascii) (default : Z) : Z :=
  match found g name with
  | Some t => int_of t
  | None => default
  end.

(** [%H] is the hour; [%I] with [%p]: 12 AM is hour 0, PM adds 12 except at
    noon. *)
Definition hour_of (g : captures) : Z :=
  match found g "H", found g "I" with
  | Some t, _ => int_of t
  | None, None => 0
  | None, Some t =>
      let h := int_of t in
      let ampm := match found g "p" with Some p => lower p | None => "" end in
      if String.eqb ampm "" || String.eqb ampm "am" then
        (if h =? 12 then 0 else h)
      else if String.eqb ampm "pm" then
        (if h =? 12 then h else h + 12)
      else h
  end.

Definition strptime (data_string : pyobj) (format : string) : exn + datetime :=
  match data_string with
  | PStr s =>
      match pattern false format with
      | None => inl (Exn ValueError ("bad directive in format '" ++ format ++ "'"))
      | Some r =>
          match re_match r s with
          | None =>
              inl (Exn ValueError
                     ("time data '" ++ s ++ "' does not match format '"
                      ++ format ++ "'"))
          | Some (g, _, rest) =>
              if negb (String.eqb rest "") then
                inl (Exn ValueError ("unconverted data remains: " ++ rest))
              else
                let y := group_int g "Y" 1900 in
                let m := group_int g "m" 1 in
                let d := group_int g "d" 1 in
                let h := hour_of g in
                let mi := group_int g "M" 0 in
                let sec := group_int g "S" 0 in
                if negb (valid_date y m d) then
                  inl (Exn ValueError "day is out of range for month")
                else if negb (valid_time h mi sec) then
                  inl (Exn ValueError "second must be in 0..59")
                else inr (mkdatetime y m d h mi sec None)
          end
      end
  | o => inl (Exn TypeError
                ("strptime() argument 1 must be str, not " ++ type_name o))
  end.

(** Line 81: the one format the fallback parser knows. *)
Definition custom_format : string := "%m/%d/%Y %I:%M:%S %p".

(** [SentimentReturnAnalyzer.try_parse_custom_date] (lines 77-84). *)
Definition try_parse_custom_date (date_str : pyobj) : pyobj :=
  match strptime date_str custom_format with
  | inr dt => PDatetime dt
  | inl _ => PNaT
  end.

(** ** Reading the regular expressions *)

(** [m] is the match a backtracking matcher finds first. *)
Definition first_match (r : regex) (s : string) (m : matching) : Prop :=
  exists l, rmatch r s = m :: l.

Definition dir (c : ascii) : regex :=
  match directive c with Some r => r | None => Eps end.

(** The regular expression of [custom_format], as [pattern] builds it. *)
Definition custom_regex : regex :=
  Cat (dir "m") (Cat (lit "/") (Cat (dir "d") (Cat (lit "/") (Cat (dir "Y")
  (Cat (Plus is_space)
  (Cat (dir "I") (Cat (lit ":") (Cat (dir "M") (Cat (lit ":") (Cat (dir "S")
  (Cat (Plus is_space) (Cat (dir "p") Eps)))))))))))).

(* ================================================================== *)
(** * Numbers

    The numeric columns ([close], [sentiment], [daily_return]) are float64.
    The operations on them are written once, over the interface [Number], and
    read at two instances: [float64], IEEE 754 binary64 as specified by
    [SpecFloat] (what the program computes), and [exact], rational arithmetic
    with one missing value (what a formula such as "the arithmetic mean" means
    up to rounding). *)
(* ================================================================== *)

Class Number (F : Type) := {
  nan : F;
  is_nan : F -> bool;
  of_count : nat -> F;
  add : F -> F -> F;
  sub : F -> F -> F;
  div : F -> F -> F
}.

Definition prec : Z := 53.
Definition emax : Z := 1024.

Definition float64 : Type := spec_float.

Definition f64_of_Z (z : Z) : float64 := binary_normalize prec emax z 0 false.

(** The float64 nearest to [n / d], which is how a decimal literal such as
    [0.4] reads when [n] and [d] are below [2^53]. *)
Definition f64_ratio (n d : Z) : float64 :=
  SFdiv prec emax (f64_of_Z n) (f64_of_Z d).

Definition f64_is_nan (x : float64) : bool :=
  match x with S754_nan => true | _ => false end.

#[export] Instance float64_Number : Number float64 := {
  nan := S754_nan;
  is_nan := f64_is_nan;
  of_count n := f64_of_Z (Z.of_nat n);
  add := SFadd prec emax;
  sub := SFsub prec emax;
  div := SFdiv prec emax
}.

(** The rational a finite float64 stands for. *)
Definition f64_value (x : float64) : option Q :=
  match x with
  | S754_zero _ => Some (0 # 1)
  | S754_finite s m e =>
      let mag := (inject_Z (Z.pos m) * Qpower (2 # 1) e)%Q in
      Some (if s then Qopp mag else mag)
  | _ => None
  end.

(** [|x - target| <= tol], decided on the exact values. *)
Definition f64_close_to (x : float64) (target tol : Q) : bool :=
  match f64_value x with
  | Some v => Qle_bool (Qabs (v - target)) tol
  | None => false
  end.

Definition exact : Type := option Qc.

Definition exact_lift (f : Qc -> Qc -> Qc) (a b : exact) : exact :=
  match a, b with
  | Some x, Some y => Some (f x y)
  | _, _ => None
  end.

Definition exact_div (a b : exact) : exact :=
  match a, b with
  | Some x, Some y => if Qc_eq_dec y (Q2Qc 0) then None else Some (x / y)%Qc
  | _, _ => None
  end.

#[export] Instance exact_Number : Number exact := {
  nan := None;
  is_nan x := match x with None => true | Some _ => false end;
  of_count n := Some (Q2Qc (inject_Z (Z.of_nat n)));
  add := exact_lift Qcplus;
  sub := exact_lift Qcminus;
  div := exact_div
}.

(* ================================================================== *)
(** * Dates

    A datetime64[ns] column holds, per cell, NaT or a count of nanoseconds:
    since the epoch in UTC when the column has a time zone, of the wall clock
    when it is naive.  The time zone belongs to the column (its dtype), here a
    fixed offset in nanoseconds. *)
(* ================================================================== *)

Definition timestamp : Type := option Z.
Definition NaT : timestamp := None.
Definition tz : Type := option Z.

Definition NS_PER_SECOND : Z := 1000000000.
Definition NS_PER_DAY : Z := 86400 * NS_PER_SECOND.

(** Days from 1970-01-01 to a date of the proleptic Gregorian calendar. *)
Definition days_from_civil (y m d : Z) : Z :=
  let y' := if m <=? 2 then y - 1 else y in
  let era := y' / 400 in
  let yoe := y' - era * 400 in
  let mp := (m + 9) mod 12 in
  let doy := (153 * mp + 2) / 5 + d - 1 in
  let doe := yoe * 365 + yoe / 4 - yoe / 100 + doy in
  era * 146097 + doe - 719468.

(** The nanoseconds of the wall clock of a [datetime]. *)
Definition wall_ns (dt : datetime) : Z :=
  (days_from_civil (year dt) (month dt) (day dt) * 86400
   + hour dt * 3600 + minute dt * 60 + second dt) * NS_PER_SECOND.

(** Midnight of a calendar date, as a naive cell. *)
Definition date_ (y m d : Z) : timestamp :=
  Some (days_from_civil y m d * NS_PER_DAY).

Definition at_time (y m d h mi s : Z) : timestamp :=
  Some (wall_ns (mkdatetime y m d h mi s None)).

Definition isna (t : timestamp) : bool :=
  match t with None => true | Some _ => false end.

Definition offset (z : tz) : Z := match z with Some o => o | None => 0 end.

(** [Series.dt.normalize()]: every cell to the midnight of its day, on the
    column's own clock; NaT stays NaT. *)
Definition normalize (z : tz) (t : timestamp) : timestamp :=
  option_map (fun ns => ns + offset z - (ns + offset z) mod NS_PER_DAY - offset z) t.

(** [Series.dt.tz_localize(None)]: the wall clock of every cell, the zone
    dropped. *)
Definition tz_localize_None (z : tz) (t : timestamp) : timestamp :=
  option_map (fun ns => ns + offset z) t.

(** The names pandas 2 prints for a fixed offset and for the dtype of a
    datetime column. *)
Definition zone_name (o : Z) : string :=
  let minutes := Z.abs o / (60 * NS_PER_SECOND) in
  if o =? 0 then "UTC"
  else "UTC" ++ (if o <? 0 then "-" else "+")
       ++ two_digits (minutes / 60) ++ ":" ++ two_digits (minutes mod 60).

Definition dtype_name (z : tz) : string :=
  match z with
  | None => "datetime64[ns]"
  | Some o => "datetime64[ns, " ++ zone_name o ++ "]"
  end.


Definition timestamp_eqb (a b : timestamp) : bool :=
  match a, b with
  | Some x, Some y => x =? y
  | None, None => true
  | _, _ => false
  end.

(** What [.at[i, "date"]] hands back for a cell of a datetime column. *)
Definition cell_object (z : tz) (t : timestamp) : pyobj :=
  match t with
  | None => PNaT
  | Some ns => PTimestamp ns z
  end.

(** A value stored into a datetime column whose zone is [z].  NaT fits every
    column; a datetime fits when it is naive exactly when the column is.
    [load_data] stores naive values and NaT into a naive column only; the
    other combinations, which it never meets, are refused here. *)
Definition to_cell (z : tz) (o : pyobj) : exn + timestamp :=
  let mixed := Exn TypeError
    "Cannot compare tz-naive and tz-aware datetime-like objects" in
  match o, z with
  | PNaT, _ => inr NaT
  | PDatetime dt, None =>
      match tzinfo dt with
      | None => inr (Some (wall_ns dt))
      | Some _ => inl mixed
      end
  | PDatetime dt, Some _ =>
      match tzinfo dt with
      | None => inl mixed
      | Some o' => inr (Some (wall_ns dt - o'))
      end
  | PTimestamp ns None, None => inr (Some ns)
  | PTimestamp ns (Some _), Some _ => inr (Some ns)
  | PTimestamp _ _, _ => inl mixed
  | o', _ => inl (Exn TypeError
                    ("value should be a 'Timestamp' or 'NaT'. Got '"
                     ++ type_name o' ++ "' instead."))
  end.

(** [column.loc[mask] = values]: the cells picked by [mask] take the values, in
    order; the first value that does not fit the column raises. *)
Fixpoint loc_assign (z : tz) (col : list timestamp) (mask : list bool)
                    (values : list pyobj) : exn + list timestamp :=
  match col, mask with
  | t :: col', true :: mask' =>
      match values with
      | v :: values' =>
          match to_cell z v, loc_assign z col' mask' values' with
          | inl e, _ => inl e
          | _, inl e => inl e
          | inr t', inr rest => inr (t' :: rest)
          end
      | [] => inr col
      end
  | t :: col', false :: mask' =>
      match loc_assign z col' mask' values with
      | inl e => inl e
      | inr rest => inr (t :: rest)
      end
  | _, _ => inr col
  end.

(* ================================================================== *)
(** * Frames and the analyzer's state *)
(* ================================================================== *)

(** A cell of a column as [read_csv] delivers it: text, or missing. *)
Inductive csv_cell := CText (s : string) | CMissing.

(** [Series.astype(str)]: a missing cell reads "nan". *)
Definition astype_str (c : csv_cell) : string :=
  match c with
  | CText s => s
  | CMissing => "nan"
  end.

Definition has_column (columns : list string) (name : string) : bool :=
  existsb (String.eqb name) columns.

(** [df[name]]: a [KeyError] when the frame has no such column. *)
Definition getitem (columns : list string) (name : string) : exn + unit :=
  if has_column columns name then inr tt
  else inl (Exn KeyError ("'" ++ name ++ "'")).

(** [df.groupby(key)[name]], whose [KeyError] carries a sentence: the
    message is the [repr] of that sentence. *)
Definition getitem_grouped (columns : list string) (name : string) : exn + unit :=
  if has_column columns name then inr tt
  else inl (Exn KeyError ("'Column not found: " ++ name ++ "'")).

Definition double_quote : string := String (ascii_of_N 34) EmptyString.

(** [df[[present, name]]], a list of labels of which [name] may be missing:
    the sentence holds single quotes, so its [repr] is written in double
    quotes. *)
Definition getitem_listed (columns : list string) (name : string) : exn + unit :=
  if has_column columns name then inr tt
  else inl (Exn KeyError
              (double_quote ++ "['" ++ name ++ "'] not in index" ++ double_quote)).

(** [Series.apply(f)]: the first cell on which [f] raises ends it. *)
Fixpoint apply_each {A B} (f : A -> exn + B) (cells : list A) : exn + list B :=
  match cells with
  | [] => inr []
  | c :: cells' =>
      match f c with
      | inl e => inl e
      | inr b =>
          match apply_each f cells' with
          | inl e => inl e
          | inr bs => inr (b :: bs)
          end
      end
  end.

Definition add_column (columns : list string) (name : string) : list string :=
  if has_column columns name then columns else (columns ++ [name])%list.

Definition string_of_nat (n : nat) : string :=
  DecimalString.NilEmpty.string_of_uint (Nat.to_uint n).

Record RawNewsRow := mkRawNewsRow {
  r_stock : string;
  r_date : csv_cell;
  r_headline : csv_cell
}.

(** The news file as read: the header as written, and the rows.  A field of a
    row is meaningful when the header has its column. *)
Record RawNews := mkRawNews {
  rn_columns : list string;
  rn_rows : list RawNewsRow
}.

Section Frames.

Context {F : Type}.

Record RawStockRow := mkRawStockRow {
  rs_date : csv_cell;
  rs_close : F
}.

Record RawStock := mkRawStock {
  rs_columns : list string;
  rs_rows : list RawStockRow
}.

Record NewsRow := mkNewsRow {
  n_date : timestamp;
  n_headline : csv_cell;
  n_sentiment : F
}.

(** [news_df] once its dates are parsed: the labels of its columns, the dtype
    of the "date" column and the rows.  The column is datetime64[ns] with the
    zone [n_tz], unless [n_object] says it is an object column: the cells then
    are [datetime] objects that carry each their own UTC offset (kept here as
    the instant they name), [.dt] does not apply and [n_tz] says nothing. *)
Record NewsFrame := mkNewsFrame {
  n_columns : list string;
  n_tz : tz;
  n_object : bool;
  n_rows : list NewsRow
}.

Record StockRow := mkStockRow {
  s_date : timestamp;
  s_close : F;
  s_daily_return : F
}.

Record StockFrame := mkStockFrame {
  s_columns : list string;
  s_tz : tz;
  s_object : bool;
  s_rows : list StockRow
}.

(** A row of the frame [aggregate_sentiment] returns. *)
Record DailyRow := mkDailyRow {
  d_date : timestamp;
  d_sentiment : F
}.

Record DailyFrame := mkDailyFrame {
  d_tz : tz;
  d_rows : list DailyRow
}.

Record MergedRow := mkMergedRow {
  m_date : timestamp;
  m_sentiment : F;
  m_daily_return : F
}.

(** The fields [__init__] sets (lines 16-22). *)
Record Analyzer := mkAnalyzer {
  news_path : string;
  stock_path : string;
  stock_symbol : string;
  news_df : option NewsFrame;
  stock_df : option StockFrame;
  merged_df : option (list MergedRow)
}.

Definition init (news_path stock_path stock_symbol : string) : Analyzer :=
  mkAnalyzer news_path stock_path stock_symbol None None None.

Definition set_news_df (self : Analyzer) (df : NewsFrame) : Analyzer :=
  mkAnalyzer (news_path self) (stock_path self) (stock_symbol self)
             (Some df) (stock_df self) (merged_df self).

Definition set_stock_df (self : Analyzer) (df : StockFrame) : Analyzer :=
  mkAnalyzer (news_path self) (stock_path self) (stock_symbol self)
             (news_df self) (Some df) (merged_df self).

Definition set_merged_df (self : Analyzer) (rows : list MergedRow) : Analyzer :=
  mkAnalyzer (news_path self) (stock_path self) (stock_symbol self)
             (news_df self) (stock_df self) (Some rows).

(** What the libraries decide: the CSV reader over the file system, the
    general-purpose date parser, TextBlob's polarity, numpy's default
    (quicksort, not stable) [argsort], Pearson's coefficient with its
    formatting, and the two plots. *)
Record Externals := mkExternals {
  read_news_csv : string -> exn + RawNews;
  read_stock_csv : string -> exn + RawStock;
  (** [pd.to_datetime(column, errors="coerce")]: the zone of the resulting
      column, decided on the column as a whole, and the parse of each cell in
      it, NaT when it fails. *)
  to_datetime : list csv_cell -> tz * (csv_cell -> timestamp);
  (** Whether that call finds cells of different UTC offsets: pandas 1 and 2
      then return no datetime64 column but an object column of [datetime]
      objects, and the zone above says nothing. *)
  mixed_offsets : list csv_cell -> bool;
  (** [TextBlob(text).sentiment.polarity] on a string. *)
  polarity : string -> F;
  np_argsort : list Z -> list nat;
  corr : list F -> list F -> F;
  format_4f : F -> string;
  regplot : option (list MergedRow) -> exn + unit;
  heatmap : list MergedRow -> exn + unit
}.

End Frames.

Arguments RawStockRow : clear implicits.
Arguments RawStock : clear implicits.
Arguments NewsRow : clear implicits.
Arguments NewsFrame : clear implicits.
Arguments StockRow : clear implicits.
Arguments StockFrame : clear implicits.
Arguments DailyRow : clear implicits.
Arguments DailyFrame : clear implicits.
Arguments MergedRow : clear implicits.
Arguments Analyzer : clear implicits.
Arguments Externals : clear implicits.

(* ================================================================== *)
(** * Printing, raising and state *)
(* ================================================================== *)

(** A method run from state [s] ends in a state, with the lines it printed,
    either raising or returning.  The state reached is kept when it raises, as
    the fields of a Python object are. *)
Definition M (S A : Type) : Type := S -> S * list string * (exn + A).

Definition ret {S A} (a : A) : M S A := fun s => (s, [], inr a).

Definition bind {S A B} (m : M S A) (k : A -> M S B) : M S B :=
  fun s =>
    match m s with
    | (s', out, inl e) => (s', out, inl e)
    | (s', out, inr a) =>
        let '(s'', out', r) := k a s' in (s'', (out ++ out')%list, r)
    end.

Definition raise {S A} (e : exn) : M S A := fun s => (s, [], inl e).

Definition print {S} (line : string) : M S unit := fun s => (s, [line], inr tt).

Definition get {S} : M S S := fun s => (s, [], inr s).

Definition put {S} (s : S) : M S unit := fun _ => (s, [], inr tt).

Definition lift {S A} (r : exn + A) : M S A := fun s => (s, [], r).

(** [try: body except Exception as e: handler]. *)
Definition try_except {S A} (body : M S A) (handler : exn -> M S A) : M S A :=
  fun s =>
    match body s with
    | (s', out, inl e) =>
        let '(s'', out', r) := handler e s' in (s'', (out ++ out')%list, r)
    | done => done
    end.

Declare Scope py_scope.
Delimit Scope py_scope with py.
Notation "x <- m ;; k" := (bind m (fun x => k))
  (at level 61, m at next level, right associativity) : py_scope.
Notation "m ;; k" := (bind m (fun _ => k))
  (at level 61, right associativity) : py_scope.

(** The handler every method of [SentimentReturnAnalyzer] ends with:
    [except Exception as e: print(f"<prefix>{e}"); raise]. *)
Definition print_and_reraise {S A} (prefix : string) (e : exn) : M S A :=
  (print (prefix ++ exn_str e) ;; raise e)%py.

(** A method body under that handler. *)
Definition guarded {S A} (prefix : string) (body : M S A) : M S A :=
  try_except body (print_and_reraise prefix).

(** [obj.attr] and [obj[key]] on a field that may still be [None]. *)
Definition attr_of {A} (field : option A) (attr : string) : exn + A :=
  match field with
  | Some df => inr df
  | None => inl (Exn AttributeError
                   ("'NoneType' object has no attribute '" ++ attr ++ "'"))
  end.

Definition subscript {A} (field : option A) : exn + A :=
  match field with
  | Some df => inr df
  | None => inl (Exn TypeError "'NoneType' object is not subscriptable")
  end.

(* ================================================================== *)
(** * The pandas operations the methods call *)
(* ================================================================== *)

(** NaT sorts last. *)
Definition date_leb (a b : timestamp) : bool :=
  match a, b with
  | Some x, Some y => x <=? y
  | _, None => true
  | None, Some _ => false
  end.

(** Dates in increasing order, the missing ones last. *)
Definition dates_sorted (dates : list timestamp) : Prop :=
  StronglySorted (fun a b => date_leb a b = true) dates.

(** The cells of a date column that hold a date. *)
Definition non_nans (keys : list timestamp) : list Z :=
  flat_map (fun t : timestamp => match t with Some ns => [ns] | None => [] end)
           keys.

Section Pandas.

Context {F : Type} {num : Number F}.

(** ** [groupby("date")["sentiment"].mean()]

    Defaults: [sort=True] (groups in increasing key order), [dropna=True]
    (rows whose key is NaT belong to no group), [skipna] in the mean (missing
    values are left out of the sum and of the count; a group with none left
    has a missing mean). *)

Fixpoint insert_key (k : Z) (keys : list Z) : list Z :=
  match keys with
  | [] => [k]
  | k' :: keys' =>
      if k <? k' then k :: keys
      else if k =? k' then keys
      else k' :: insert_key k keys'
  end.

Fixpoint group_keys (dates : list timestamp) : list Z :=
  match dates with
  | [] => []
  | Some k :: dates' => insert_key k (group_keys dates')
  | None :: dates' => group_keys dates'
  end.

(** The sum [group_mean] keeps per group is a compensated (Kahan) sum: next to
    the running sum it carries the rounding error of the last addition and
    takes it off the next value; an error that is not a number (an infinity
    came in) is put back to zero. *)
Definition kahan_step (acc : F * F) (val : F) : F * F :=
  let '(sumx, compensation) := acc in
  let y := sub val compensation in
  let t := add sumx y in
  let c := sub (sub t sumx) y in
  (t, if is_nan c then of_count 0 else c).

Definition total (xs : list F) : F :=
  fst (fold_left kahan_step xs (of_count 0, of_count 0)).

Definition mean (xs : list F) : F :=
  match filter (fun x => negb (is_nan x)) xs with
  | [] => nan
  | present => div (total present) (of_count (List.length present))
  end.

Definition group_of (k : Z) (rows : list (NewsRow F)) : list (NewsRow F) :=
  filter (fun r => timestamp_eqb (n_date r) (Some k)) rows.

Definition groupby_date_mean (rows : list (NewsRow F)) : list (DailyRow F) :=
  map (fun k => mkDailyRow (Some k) (mean (map n_sentiment (group_of k rows))))
      (group_keys (map n_date rows)).

(** ** [Series.pct_change()]

    [data / data.shift(1) - 1] on [data], the series with its missing values
    filled forward (the default [fill_method] of pandas 1 and 2). *)

Fixpoint ffill (last : F) (xs : list F) : list F :=
  match xs with
  | [] => []
  | x :: xs' =>
      let v := if is_nan x then last else x in
      v :: ffill v xs'
  end.

Definition shift1 (xs : list F) : list F := nan :: removelast xs.

Definition pct_change (xs : list F) : list F :=
  let data := ffill nan xs in
  map (fun p : F * F => sub (div (fst p) (snd p)) (of_count 1))
      (combine data (shift1 data)).

(** ** [DataFrame.sort_values("date")]

    [nargsort]: the cells that are not NaT are ordered by numpy's [argsort],
    the rows without a date follow in their order ([na_position="last"]); the
    frame is then taken along that indexer. *)

Definition nargsort (argsort : list Z -> list nat) (keys : list timestamp)
  : list nat :=
  let idx := seq 0 (List.length keys) in
  let non_nan_idx := filter (fun i => negb (isna (nth i keys NaT))) idx in
  let nan_idx := filter (fun i => isna (nth i keys NaT)) idx in
  (map (fun j => nth j non_nan_idx 0%nat) (argsort (non_nans keys))
   ++ nan_idx)%list.

Definition take {A} (rows : list A) (indexer : list nat) : list A :=
  flat_map (fun i => match nth_error rows i with
                     | Some r => [r]
                     | None => []
                     end) indexer.

Definition sort_values_date (argsort : list Z -> list nat)
                            (rows : list (StockRow F)) : list (StockRow F) :=
  take rows (nargsort argsort (map s_date rows)).

(** ** [pd.merge(left, right, on="date", how="inner")]

    One row per pair of a left and a right row with equal keys, in the order
    of the left rows; two missing keys count as equal.  Two zoned columns are
    joined on the instants they hold.  A naive and a zoned column are not
    joined: [_maybe_coerce_merge_keys] raises, unless exactly one of the two
    frames has no row, in which case it does not look at the dtypes and the
    join is empty. *)

Definition inner_join (left : list (DailyRow F)) (right : list (StockRow F))
  : list (MergedRow F) :=
  flat_map (fun l =>
              map (fun r => mkMergedRow (d_date l) (d_sentiment l)
                                        (s_daily_return r))
                  (filter (fun r => timestamp_eqb (s_date r) (d_date l)) right))
           left.

Definition same_kind (a b : tz) : bool :=
  match a, b with
  | None, None | Some _, Some _ => true
  | _, _ => false
  end.

Definition is_empty {A} (rows : list A) : bool :=
  match rows with [] => true | _ => false end.

Definition merge_on_date (left : DailyFrame F) (right : StockFrame F)
  : exn + list (MergedRow F) :=
  if xorb (is_empty (d_rows left)) (is_empty (s_rows right))
     || same_kind (d_tz left) (s_tz right)
  then inr (inner_join (d_rows left) (s_rows right))
  else inl (Exn ValueError
              ("You are trying to merge on " ++ dtype_name (d_tz left) ++ " and "
               ++ dtype_name (s_tz right)
               ++ " columns for key 'date'. If you wish to proceed you should use pd.concat")).

End Pandas.

(* ================================================================== *)
(** * [SentimentReturnAnalyzer] *)
(* ================================================================== *)

Section SentimentReturnAnalyzer.

Context {F : Type} {num : Number F} (X : Externals F).

Local Open Scope py_scope.

(** Lines 41-47: the "date" column as text, cleaned, then replaced by its
    general-purpose parse. *)
Definition clean_date (c : csv_cell) : string :=
  collapse_blanks (strip (astype_str c)).

Definition parse_column (cells : list csv_cell) : tz * list timestamp :=
  let '(z, parse) := to_datetime X cells in (z, map parse cells).

(** [Series.dt] on a "date" column: an object column has no such accessor. *)
Definition dt_accessor (object : bool) : exn + unit :=
  if object
  then inl (Exn AttributeError "Can only use .dt accessor with datetimelike values")
  else inr tt.

(** Lines 49-64.  The column read at line 54 is the one line 47 wrote: the
    fallback parser receives the cells of the parsed column.  Line 61 strips
    the zone with [.dt], which a datetime64 column has and an object column
    has not. *)
Definition reparse_invalid (object : bool) (z : tz) (dates : list timestamp)
  : exn + (tz * list timestamp) :=
  let invalid_mask := map isna dates in
  if existsb (fun b : bool => b) invalid_mask then
    let reparsed_values :=
      map (fun t => try_parse_custom_date (cell_object z t))
          (filter isna dates) in
    match dt_accessor object with
    | inl e => inl e
    | inr _ =>
        let naive := map (tz_localize_None z) dates in
        match loc_assign None naive invalid_mask reparsed_values with
        | inl e => inl e
        | inr col => inr (None, col)
        end
    end
  else inr (z, dates).

(** Lines 41-64 on the raw "date" cells of the news rows. *)
Definition news_dates (cells : list csv_cell) : exn + (tz * list timestamp) :=
  let cleaned := map (fun c => CText (clean_date c)) cells in
  let '(z, dates) := parse_column cleaned in
  reparse_invalid (mixed_offsets X cleaned) z dates.

Definition count_unparsed (dates : list timestamp) : nat :=
  List.length (filter isna dates).

(** The [try] block of [load_data] (lines 30-71).  The two frames are bound
    to the fields once their dates are parsed; Python binds them as soon as
    they are read and rebinds them at each step, which shows only in the
    fields a load that raised after line 30 leaves behind: the model leaves
    there what the fields held before, Python the frames as far as they
    got. *)
Definition load_data_body : M (Analyzer F) unit :=
  self <- get ;;
  news <- lift (read_news_csv X (news_path self)) ;;
  stock <- lift (read_stock_csv X (stock_path self)) ;;
  let news_columns := map lower (rn_columns news) in
  let stock_columns := map lower (rs_columns stock) in
  _ <- lift (getitem news_columns "stock") ;;
  let rows :=
    filter (fun r => String.eqb (r_stock r) (stock_symbol self))
           (rn_rows news) in
  _ <- lift (getitem news_columns "date") ;;
  parsed <- lift (news_dates (map r_date rows)) ;;
  let news_frame :=
    mkNewsFrame news_columns (fst parsed)
      (mixed_offsets X (map (fun c => CText (clean_date c)) (map r_date rows)))
      (map (fun p : RawNewsRow * timestamp =>
              mkNewsRow (snd p) (r_headline (fst p)) nan)
           (combine rows (snd parsed))) in
  _ <- lift (getitem stock_columns "date") ;;
  let stock_dates := parse_column (map rs_date (rs_rows stock)) in
  let stock_frame :=
    mkStockFrame stock_columns (fst stock_dates)
      (mixed_offsets X (map rs_date (rs_rows stock)))
      (map (fun p : RawStockRow F * timestamp =>
              mkStockRow (snd p) (rs_close (fst p)) nan)
           (combine (rs_rows stock) (snd stock_dates))) in
  put (set_stock_df (set_news_df self news_frame) stock_frame) ;;
  print ("[Debug] Unparsed news dates after fallback parsing: "
         ++ string_of_nat (count_unparsed (snd parsed))).

(** [load_data] (lines 27-75). *)
Definition load_data : M (Analyzer F) unit :=
  guarded "[Error] Failed to load and process data: " load_data_body.

(** Lines 89-90: [TextBlob] wants a string, and a headline the file left
    empty is the float NaN. *)
Definition get_sentiment (text : csv_cell) : exn + F :=
  match text with
  | CText s => inr (polarity X s)
  | CMissing =>
      inl (Exn TypeError
             "The `text` argument passed to `__init__(text)` must be a string, not <class 'float'>")
  end.

Definition set_sentiment (rows : list (NewsRow F)) (scores : list F)
  : list (NewsRow F) :=
  map (fun p : NewsRow F * F => mkNewsRow (n_date (fst p)) (n_headline (fst p)) (snd p))
      (combine rows scores).

(** The [try] block of [analyze_sentiment] (lines 89-92). *)
Definition analyze_sentiment_body : M (Analyzer F) unit :=
  self <- get ;;
  df <- lift (subscript (news_df self)) ;;
  _ <- lift (getitem (n_columns df) "headline") ;;
  scores <- lift (apply_each get_sentiment (map n_headline (n_rows df))) ;;
  put (set_news_df self
         (mkNewsFrame (add_column (n_columns df) "sentiment") (n_tz df)
            (n_object df) (set_sentiment (n_rows df) scores))).

(** [analyze_sentiment] (lines 86-96). *)
Definition analyze_sentiment : M (Analyzer F) unit :=
  guarded "[Error] Sentiment analysis failed: " analyze_sentiment_body.

(** The [try] block of [aggregate_sentiment] (line 101). *)
Definition aggregate_sentiment_body : M (Analyzer F) (DailyFrame F) :=
  self <- get ;;
  df <- lift (attr_of (news_df self) "groupby") ;;
  _ <- lift (getitem (n_columns df) "date") ;;
  _ <- lift (getitem_grouped (n_columns df) "sentiment") ;;
  ret (mkDailyFrame (n_tz df) (groupby_date_mean (n_rows df))).

(** [aggregate_sentiment] (lines 98-104). *)
Definition aggregate_sentiment : M (Analyzer F) (DailyFrame F) :=
  guarded "[Error] Failed to aggregate sentiment: " aggregate_sentiment_body.

Definition set_returns (rows : list (StockRow F)) (returns : list F)
  : list (StockRow F) :=
  map (fun p : StockRow F * F => mkStockRow (s_date (fst p)) (s_close (fst p)) (snd p))
      (combine rows returns).

(** The [try] block of [calculate_returns] (lines 109-110). *)
Definition calculate_returns_body : M (Analyzer F) unit :=
  self <- get ;;
  df <- lift (attr_of (stock_df self) "sort_values") ;;
  _ <- lift (getitem (s_columns df) "date") ;;
  let sorted := sort_values_date (np_argsort X) (s_rows df) in
  put (set_stock_df self
         (mkStockFrame (s_columns df) (s_tz df) (s_object df) sorted)) ;;
  _ <- lift (getitem (s_columns df) "close") ;;
  put (set_stock_df self
         (mkStockFrame (add_column (s_columns df) "daily_return") (s_tz df)
            (s_object df)
            (set_returns sorted (pct_change (map s_close sorted))))).

(** [calculate_returns] (lines 106-113). *)
Definition calculate_returns : M (Analyzer F) unit :=
  guarded "[Error] Failed to compute daily returns: " calculate_returns_body.

Definition normalize_stock (df : StockFrame F) : StockFrame F :=
  mkStockFrame (s_columns df) (s_tz df) (s_object df)
    (map (fun r => mkStockRow (normalize (s_tz df) (s_date r)) (s_close r)
                              (s_daily_return r))
         (s_rows df)).

Definition normalize_daily (df : DailyFrame F) : DailyFrame F :=
  mkDailyFrame (d_tz df)
    (map (fun r => mkDailyRow (normalize (d_tz df) (d_date r)) (d_sentiment r))
         (d_rows df)).

Definition merge_warning : string :=
  "[Warning] Merged DataFrame is empty. Check date alignment and input data.".

Definition merge_info (records : nat) : string :=
  "[Info] Successfully merged data. Records: " ++ string_of_nat records.

(** The "date" column of the frame [aggregate_sentiment] returns has the
    dtype of the "date" column of [news_df]. *)
Definition news_object (self : Analyzer F) : bool :=
  match news_df self with
  | Some news => n_object news
  | None => false
  end.

(** [pd.to_datetime] at line 121, on the "date" column of [daily_sentiment]:
    a datetime64 column is returned as it is; an object column holds
    [datetime] objects of several offsets, which it refuses to convert.  The
    message names the first cell whose offset is not that of the first cell;
    the model, which keeps one zone for a column, names the second cell. *)
Definition to_datetime_dates (object : bool) : exn + unit :=
  if object
  then inl (Exn ValueError
              "Tz-aware datetime.datetime cannot be converted to datetime64 unless utc=True, at position 1")
  else inr tt.

(** The [try] block of [merge_data] (lines 118-133). *)
Definition merge_data_body : M (Analyzer F) unit :=
  daily_sentiment <- aggregate_sentiment ;;
  self <- get ;;
  stock <- lift (subscript (stock_df self)) ;;
  _ <- lift (getitem (s_columns stock) "date") ;;
  _ <- lift (dt_accessor (s_object stock)) ;;
  let stock := normalize_stock stock in
  put (set_stock_df self stock) ;;
  _ <- lift (to_datetime_dates (news_object self)) ;;
  let daily_sentiment := normalize_daily daily_sentiment in
  _ <- lift (getitem_listed (s_columns stock) "daily_return") ;;
  merged <- lift (merge_on_date daily_sentiment stock) ;;
  put (set_merged_df (set_stock_df self stock) merged) ;;
  match merged with
  | [] => print merge_warning
  | _ => print (merge_info (List.length merged))
  end.

(** [merge_data] (lines 115-137). *)
Definition merge_data : M (Analyzer F) unit :=
  guarded "[Error] Failed to merge sentiment and stock return data: "
          merge_data_body.

(** The [try] block of [compute_correlation] (lines 142-144). *)
Definition compute_correlation_body : M (Analyzer F) F :=
  self <- get ;;
  merged <- lift (subscript (merged_df self)) ;;
  let c := corr X (map m_sentiment merged) (map m_daily_return merged) in
  print ("[Info] Pearson correlation: " ++ format_4f X c) ;;
  ret c.

(** [compute_correlation] (lines 139-147). *)
Definition compute_correlation : M (Analyzer F) F :=
  guarded "[Error] Failed to compute correlation: " compute_correlation_body.

(** The [try] blocks of the two plots (lines 152-159 and 166-171). *)
Definition plot_relationship_body : M (Analyzer F) unit :=
  self <- get ;;
  lift (regplot X (merged_df self)).

Definition plot_correlation_heatmap_body : M (Analyzer F) unit :=
  self <- get ;;
  merged <- lift (subscript (merged_df self)) ;;
  lift (heatmap X merged).

(** [plot_relationship] (lines 149-162). *)
Definition plot_relationship : M (Analyzer F) unit :=
  guarded "[Error] Failed to generate plot: " plot_relationship_body.

(** [plot_correlation_heatmap] (lines 163-174). *)
Definition plot_correlation_heatmap : M (Analyzer F) unit :=
  guarded "[Error] Failed to plot correlation heatmap: "
          plot_correlation_heatmap_body.

End SentimentReturnAnalyzer.

(* ================================================================== *)
(** * [EdaAnalysis.load_data] ([src/eda_analysis.py], lines 15-27) *)
(* ================================================================== *)

Module EdaAnalysis.

Local Open Scope py_scope.

Record Eda := mkEda {
  input_path : string;
  selected_stocks : option (list string);
  df : RawNews
}.

(** [__init__]: [self.df = pd.DataFrame()]. *)
Definition init (input_path : string) (selected_stocks : option (list string)) : Eda :=
  mkEda input_path selected_stocks (mkRawNews [] []).

Definition set_df (self : Eda) (frame : RawNews) : Eda :=
  mkEda (input_path self) (selected_stocks self) frame.

Definition shape (frame : RawNews) : string :=
  "(" ++ string_of_nat (List.length (rn_rows frame)) ++ ", "
      ++ string_of_nat (List.length (rn_columns frame)) ++ ")".

(** [repr] of a [str]: in single quotes, unless the text holds a single quote
    and no double quote; the quote in use and the backslash are escaped with a
    backslash, TAB, LF and CR are written [\t], [\n] and [\r], the other
    control characters [\xhh].  Characters beyond ASCII are taken to be
    printable and stand as they are. *)
Fixpoint contains (c : ascii) (s : string) : bool :=
  match s with
  | EmptyString => false
  | String x s' => Ascii.eqb x c || contains c s'
  end.

Definition hex_digit (n : N) : ascii :=
  if (n <? 10)%N then ascii_of_N (48 + n) else ascii_of_N (87 + n).

Definition repr_char (quote c : ascii) : string :=
  let backslash := ascii_of_N 92 in
  if Ascii.eqb c quote || Ascii.eqb c backslash then
    String backslash (String c EmptyString)
  else if (code c =? 9)%N then String backslash "t"
  else if (code c =? 10)%N then String backslash "n"
  else if (code c =? 13)%N then String backslash "r"
  else if (code c <? 32)%N || (code c =? 127)%N then
    String backslash
      (String "x" (String (hex_digit (code c / 16))
                          (String (hex_digit (code c mod 16)) EmptyString)))
  else String c EmptyString.

Fixpoint repr_chars (quote : ascii) (s : string) : string :=
  match s with
  | EmptyString => EmptyString
  | String c s' => repr_char quote c ++ repr_chars quote s'
  end.

Definition repr_str (s : string) : string :=
  let quote := if contains "'"%char s && negb (contains (ascii_of_N 34) s)
               then ascii_of_N 34 else "'"%char in
  String quote (repr_chars quote s ++ String quote EmptyString).

Fixpoint repr_items (items : list string) : string :=
  match items with
  | [] => ""
  | [x] => repr_str x
  | x :: rest => repr_str x ++ ", " ++ repr_items rest
  end.

(** [str] of a list of strings, as an f-string prints it. *)
Definition repr_list (items : list string) : string := "[" ++ repr_items items ++ "]".

(** [Series.isin(values)] wants a list. *)
Definition list_like (values : option (list string)) : exn + list string :=
  match values with
  | Some l => inr l
  | None => inl (Exn TypeError
                   "only list-like objects are allowed to be passed to isin(), you passed a `NoneType`")
  end.

Definition load_data (read_csv : string -> exn + RawNews) : M Eda unit :=
  try_except
    (self <- get ;;
     frame <- lift (read_csv (input_path self)) ;;
     put (set_df self frame) ;;
     print ("File loaded successfully. Shape: " ++ shape frame) ;;
     _ <- lift (getitem (rn_columns frame) "stock") ;;
     selected <- lift (list_like (selected_stocks self)) ;;
     let kept :=
       mkRawNews (rn_columns frame)
         (filter (fun r => existsb (String.eqb (r_stock r)) selected)
                 (rn_rows frame)) in
     put (set_df self kept) ;;
     print ("Filtered DataFrame shape of " ++ repr_list selected ++ ": "
            ++ shape kept))
    (fun e =>
       match exn_cls e with
       | FileNotFoundError => print "File not found. Check the relative path."
       | ParserError => print "File found but not a valid CSV."
       | _ => print ("An unexpected error occurred: " ++ exn_str e)
       end).

End EdaAnalysis.

(* ================================================================== *)
(** * Vocabulary of the statements *)
(* ================================================================== *)

(** [indexer] sorts [keys]: it holds every position once and the keys read
    along it do not decrease. *)
Fixpoint nondecreasing (xs : list Z) : bool :=
  match xs with
  | x :: (y :: _) as rest => (x <=? y) && nondecreasing rest
  | _ => true
  end.

Definition is_argsort (keys : list Z) (indexer : list nat) : bool :=
  (List.length indexer =? List.length keys)%nat
  && forallb (fun i => existsb (Nat.eqb i) indexer) (seq 0 (List.length keys))
  && nondecreasing (map (fun i => nth i keys 0) indexer).

Definition news_dates_of {F} (self : Analyzer F) : list timestamp :=
  match news_df self with
  | Some news => map n_date (n_rows news)
  | None => []
  end.

(** [x] is positive or negative infinity. *)
Definition f64_is_inf (x : float64) : bool :=
  match x with S754_infinity _ => true | _ => false end.

Definition f64_is_zero (x : float64) : bool :=
  match x with S754_zero _ => true | _ => false end.

(** The last line printed is the message of [e] under [prefix]. *)
Definition logged (prefix : string) (e : exn) (out : list string) : Prop :=
  exists out0, out = (out0 ++ [(prefix ++ exn_str e)%string])%list.

(** How many cells [mask] picks before position [i]: the place, among the
    values assigned with [.loc[mask]], of the one that goes to cell [i]. *)
Definition picked_before (mask : list bool) (i : nat) : nat :=
  List.length (filter (fun b : bool => b) (firstn i mask)).

(** A value is a naive [datetime] or NaT. *)
Definition naive_or_NaT (o : pyobj) : Prop :=
  o = PNaT \/ exists dt, o = PDatetime dt /\ tzinfo dt = None.

(** No two blanks stand side by side in [s]; [s] ends in a character that is
    not a blank. *)
Fixpoint no_double_blank (s : string) : bool :=
  match s with
  | String a (String b _ as rest) =>
      negb (is_space a && is_space b) && no_double_blank rest
  | _ => true
  end.

Fixpoint ends_visible (s : string) : bool :=
  match s with
  | EmptyString => false
  | String c EmptyString => negb (is_space c)
  | String _ rest => ends_visible rest
  end.

(** The text "MM/DD/YYYY hh:mm:ss AM/PM" of a time of day on a date. *)
Definition hour12 (h : Z) : Z :=
  if h mod 12 =? 0 then 12 else h mod 12.

Definition meridiem (h : Z) : string := if h <? 12 then "AM" else "PM".

Definition custom_text (dt : datetime) : string :=
  two_digits (month dt) ++ "/" ++ two_digits (day dt) ++ "/"
  ++ four_digits (year dt) ++ " "
  ++ two_digits (hour12 (hour dt)) ++ ":" ++ two_digits (minute dt) ++ ":"
  ++ two_digits (second dt) ++ " " ++ meridiem (hour dt).

Section Vocabulary.

Context {F : Type} {num : Number F}.

(** A price bar: the date and the close of a row. *)
Definition bar (r : StockRow F) : timestamp * F := (s_date r, s_close r).

(** Insertion sort of the rows by date, equal dates in their order: the
    stable sort a reader of "stable on ties" has in mind. *)
Fixpoint insert_stable (r : StockRow F) (sorted : list (StockRow F))
  : list (StockRow F) :=
  match sorted with
  | [] => [r]
  | r' :: rest =>
      if date_leb (s_date r') (s_date r) then r' :: insert_stable r rest
      else r :: sorted
  end.

Definition stable_sort_by_date (rows : list (StockRow F)) : list (StockRow F) :=
  fold_left (fun acc r => insert_stable r acc) rows [].

(** Both frames are loaded, with the columns [merge_data] reads and "date"
    columns that are datetime columns. *)
Definition tables (self : Analyzer F) : bool :=
  match news_df self, stock_df self with
  | Some news, Some stock =>
      has_column (n_columns news) "date"
      && has_column (n_columns news) "sentiment"
      && has_column (s_columns stock) "date"
      && has_column (s_columns stock) "daily_return"
      && negb (n_object news) && negb (s_object stock)
  | _, _ => false
  end.

(** The two "date" columns are of one kind: both naive or both zoned. *)
Definition one_kind (self : Analyzer F) : bool :=
  match news_df self, stock_df self with
  | Some news, Some stock => same_kind (n_tz news) (s_tz stock)
  | _, _ => false
  end.

(** The state [merge_data] needs: both frames loaded, with the columns it
    reads, and "date" columns of one kind. *)
Definition ready (self : Analyzer F) : bool := tables self && one_kind self.

(** The DailySentiment table of a state, and its calendar dates. *)
Definition daily_sentiment (self : Analyzer F) : list (DailyRow F) :=
  match news_df self with
  | Some news => groupby_date_mean (n_rows news)
  | None => []
  end.

Definition sentiment_dates (self : Analyzer F) : list timestamp :=
  match news_df self with
  | Some news =>
      map (fun r => normalize (n_tz news) (d_date r))
          (groupby_date_mean (n_rows news))
  | None => []
  end.

(** The DailyReturn table of a state, and its calendar dates. *)
Definition daily_return (self : Analyzer F) : list (StockRow F) :=
  match stock_df self with
  | Some stock => s_rows stock
  | None => []
  end.

Definition return_dates (self : Analyzer F) : list timestamp :=
  match stock_df self with
  | Some stock => map (fun r => normalize (s_tz stock) (s_date r)) (s_rows stock)
  | None => []
  end.

(** What the inner join of [merge_data] is computed from. *)
Definition merged_of (news : NewsFrame F) (stock : StockFrame F)
  : list (MergedRow F) :=
  inner_join
    (d_rows (normalize_daily (mkDailyFrame (n_tz news)
                                (groupby_date_mean (n_rows news)))))
    (s_rows (normalize_stock stock)).

Definition merged_rows (self : Analyzer F) : list (MergedRow F) :=
  match merged_df self with
  | Some rows => rows
  | None => []
  end.

End Vocabulary.

(* ================================================================== *)
(** * Sample libraries and files

    Concrete library behaviours and small files, to run the methods on. *)
(* ================================================================== *)

(** The general-purpose parser as pandas 2 runs it on a column of text whose
    first cell is an ISO date, "YYYY-MM-DD hh:mm:ss" with or without a UTC
    offset "+hh:mm" or "-hh:mm": the layout of the first cell is the layout of
    the column, and with [errors="coerce"] every cell that does not follow it
    is NaT, as is a date that does not fit 64 bits of nanoseconds.  Without an
    offset the column is naive.  With one, the column has the zone of its
    cells when they agree, and is an object column when they do not. *)
Definition iso_format : string := "%Y-%m-%d %H:%M:%S".

Definition in_bounds (ns : Z) : bool :=
  (- 9223372036854775807 <=? ns) && (ns <=? 9223372036854775807).

Definition iso_text (s : string) : timestamp :=
  match strptime (PStr s) iso_format with
  | inr dt => if in_bounds (wall_ns dt) then Some (wall_ns dt) else NaT
  | inl _ => NaT
  end.

Definition iso_cell (c : csv_cell) : timestamp :=
  match c with
  | CText s => iso_text s
  | CMissing => NaT
  end.

Definition iso_to_datetime (cells : list csv_cell) : tz * (csv_cell -> timestamp) :=
  (None, iso_cell).

(** The offset a text ends with, in nanoseconds, and the text before it. *)
Definition split_offset (s : string) : option (string * Z) :=
  let n := String.length s in
  match substring (n - 6) 6 s with
  | String sign (String h1 (String h2 (String colon (String m1 (String m2 EmptyString))))) =>
      if (Ascii.eqb sign "+" || Ascii.eqb sign "-") && Ascii.eqb colon ":"
         && is_digit h1 && is_digit h2 && is_digit m1 && is_digit m2
         && (6 <=? n)%nat
      then
        let minutes := (10 * digit_val h1 + digit_val h2) * 60
                       + 10 * digit_val m1 + digit_val m2 in
        let o := minutes * 60 * NS_PER_SECOND in
        Some (substring 0 (n - 6) s, if Ascii.eqb sign "-" then - o else o)
      else None
  | _ => None
  end.

(** A cell in the layout with an offset: the instant it names and its
    offset. *)
Definition offset_cell (c : csv_cell) : option (Z * Z) :=
  match c with
  | CText s =>
      match split_offset s with
      | Some (body, o) =>
          match iso_text body with
          | Some wall => if in_bounds (wall - o) then Some (wall - o, o) else None
          | None => None
          end
      | None => None
      end
  | CMissing => None
  end.

Definition with_offset (cells : list csv_cell) : bool :=
  match cells with
  | c :: _ => match offset_cell c with Some _ => true | None => false end
  | [] => false
  end.

Definition offsets (cells : list csv_cell) : list Z :=
  flat_map (fun c => match offset_cell c with Some (_, o) => [o] | None => [] end)
           cells.

Definition pandas_to_datetime (cells : list csv_cell) : tz * (csv_cell -> timestamp) :=
  if with_offset cells then
    (match offsets cells with o :: _ => Some o | [] => None end,
     fun c => option_map fst (offset_cell c))
  else (None, iso_cell).

Definition pandas_mixed_offsets (cells : list csv_cell) : bool :=
  with_offset cells
  && match offsets cells with
     | o :: rest => existsb (fun o' => negb (o' =? o)) rest
     | [] => false
     end.

(** New York time: four hours behind UTC in summer, five in winter. *)
Definition edt : Z := - (4 * 3600 * NS_PER_SECOND).
Definition est : Z := - (5 * 3600 * NS_PER_SECOND).

(** ** numpy's default sort

    [DataFrame.sort_values] sorts with [kind="quicksort"], for a datetime
    column [aquicksort_] of numpy's [npysort/quicksort.cpp] on the array of
    positions [0 .. n-1]: ranges of more than 17 positions are partitioned
    around the median of their first, middle and last key, the larger part
    being put on a stack; ranges of at most 17 are sorted by insertion.  A
    range taken from the stack past the depth limit is sorted by
    [aheapsort_] of [npysort/heapsort.cpp]. *)

Fixpoint set_nth {A} (i : nat) (x : A) (l : list A) : list A :=
  match l, i with
  | [], _ => []
  | _ :: l', O => x :: l'
  | a :: l', S i' => a :: set_nth i' x l'
  end.

Section Quicksort.

Local Open Scope nat_scope.

Variable v : list Z.

(** [v[tosort[i]]]. *)
Definition key_at (tosort : list nat) (i : nat) : Z := nth (nth i tosort 0) v 0%Z.

(** [INTP_SWAP(tosort[i], tosort[j])]. *)
Definition swap (i j : nat) (tosort : list nat) : list nat :=
  set_nth j (nth i tosort 0) (set_nth i (nth j tosort 0) tosort).

Definition swap_if_less (i j : nat) (tosort : list nat) : list nat :=
  if (key_at tosort i <? key_at tosort j)%Z then swap i j tosort else tosort.

(** [do ++pi; while (v[*pi] < vp)] and [do --pj; while (vp < v[*pj])], from
    the position after the step. *)
Fixpoint scan_up (fuel : nat) (tosort : list nat) (vp : Z) (pi : nat) : nat :=
  match fuel with
  | O => pi
  | S fuel' =>
      if (key_at tosort pi <? vp)%Z then scan_up fuel' tosort vp (S pi) else pi
  end.

Fixpoint scan_down (fuel : nat) (tosort : list nat) (vp : Z) (pj : nat) : nat :=
  match fuel with
  | O => pj
  | S fuel' =>
      if (vp <? key_at tosort pj)%Z then scan_down fuel' tosort vp (pj - 1) else pj
  end.

(** The [for (;;)] of the partition: the indexer and [pi] when it breaks. *)
Fixpoint exchange (fuel : nat) (tosort : list nat) (vp : Z) (pi pj : nat)
  : list nat * nat :=
  match fuel with
  | O => (tosort, pi)
  | S fuel' =>
      let n := List.length tosort in
      let pi := scan_up n tosort vp (S pi) in
      let pj := scan_down n tosort vp (pj - 1) in
      if pj <=? pi then (tosort, pi)
      else exchange fuel' (swap pi pj tosort) vp pi pj
  end.

(** One partition of the range [pl .. pr]: the indexer and the place of the
    pivot. *)
Definition partition (tosort : list nat) (pl pr : nat) : list nat * nat :=
  let pm := pl + (pr - pl) / 2 in
  let tosort := swap_if_less pm pl tosort in
  let tosort := swap_if_less pr pm tosort in
  let tosort := swap_if_less pm pl tosort in
  let vp := key_at tosort pm in
  let tosort := swap pm (pr - 1) tosort in
  let '(tosort, pi) := exchange (List.length tosort) tosort vp pl (pr - 1) in
  (swap pi (pr - 1) tosort, pi).

(** The [while] of the insertion sort: [vi], whose key is [vp], goes down
    from [pj] past the greater keys, not below [pl]. *)
Fixpoint sift (fuel : nat) (tosort : list nat) (vi : nat) (vp : Z) (pl pj : nat)
  : list nat :=
  match fuel with
  | O => set_nth pj vi tosort
  | S fuel' =>
      if (pl <? pj) && (vp <? key_at tosort (pj - 1))%Z then
        sift fuel' (set_nth pj (nth (pj - 1) tosort 0) tosort) vi vp pl (pj - 1)
      else set_nth pj vi tosort
  end.

Definition insertion_sort (tosort : list nat) (pl pr : nat) : list nat :=
  fold_left (fun a pi => sift (List.length a) a (nth pi a 0) (key_at a pi) pl pi)
            (seq (S pl) (pr - pl)) tosort.

Definition SMALL_QUICKSORT : nat := 16.

(** The [while ((pr - pl) > SMALL_QUICKSORT)] of the quicksort: the indexer,
    the range left for the insertion sort and the stack. *)
Fixpoint partitions (fuel : nat) (tosort : list nat) (pl pr : nat) (cdepth : Z)
                    (stack : list (nat * nat * Z))
  : list nat * nat * nat * list (nat * nat * Z) :=
  match fuel with
  | O => (tosort, pl, pr, stack)
  | S fuel' =>
      if SMALL_QUICKSORT <? pr - pl then
        let '(tosort, pi) := partition tosort pl pr in
        if pi - pl <? pr - pi then
          partitions fuel' tosort pl (pi - 1) (cdepth - 1)%Z
                     ((S pi, pr, (cdepth - 1)%Z) :: stack)
        else
          partitions fuel' tosort (S pi) pr (cdepth - 1)%Z
                     ((pl, pi - 1, (cdepth - 1)%Z) :: stack)
      else (tosort, pl, pr, stack)
  end.

(** [a[k]] of the heap sort, whose array [a = tosort + pl - 1] counts from
    one. *)
Definition heap_at (tosort : list nat) (pl k : nat) : nat := nth (pl + k - 1) tosort 0.

Definition heap_set (pl k x : nat) (tosort : list nat) : list nat :=
  set_nth (pl + k - 1) x tosort.

(** The inner [for (i = .., j = ..; j <= n;)] of the heap sort: [tmp] goes
    down from [i] below the greater children. *)
Fixpoint sift_down (fuel : nat) (tosort : list nat) (pl n tmp i j : nat) : list nat :=
  match fuel with
  | O => heap_set pl i tmp tosort
  | S fuel' =>
      if j <=? n then
        let j :=
          if (j <? n)
             && (nth (heap_at tosort pl j) v 0 <? nth (heap_at tosort pl (S j)) v 0)%Z
          then S j else j in
        if (nth tmp v 0 <? nth (heap_at tosort pl j) v 0)%Z then
          sift_down fuel' (heap_set pl i (heap_at tosort pl j) tosort) pl n tmp j (j + j)
        else heap_set pl i tmp tosort
      else heap_set pl i tmp tosort
  end.

(** [aheapsort_] on the [n] positions from [pl]. *)
Definition aheapsort (tosort : list nat) (pl n : nat) : list nat :=
  let heap :=
    fold_left (fun a l => sift_down n a pl n (heap_at a pl l) l (l + l))
              (rev (seq 1 (n / 2))) tosort in
  fold_left (fun a m =>
               let tmp := heap_at a pl m in
               sift_down m (heap_set pl m (heap_at a pl 1) a) pl (m - 1) tmp 1 2)
            (rev (seq 2 (n - 1))) heap.

(** The outer [while (1)], on the range [pl .. pr] with the ranges still to
    sort on the stack, each with its depth. *)
Fixpoint aquicksort_loop (fuel : nat) (tosort : list nat) (pl pr : nat)
                         (cdepth : Z) (stack : list (nat * nat * Z))
  : list nat :=
  match fuel with
  | O => tosort
  | S fuel' =>
      let '(tosort, stack) :=
        if (cdepth <? 0)%Z then (aheapsort tosort pl (pr - pl + 1), stack)
        else
          let '(tosort, pl, pr, stack) :=
            partitions (List.length tosort) tosort pl pr cdepth stack in
          (insertion_sort tosort pl pr, stack) in
      match stack with
      | [] => tosort
      | (pl', pr', depth) :: stack' =>
          aquicksort_loop fuel' tosort pl' pr' depth stack'
      end
  end.

End Quicksort.

Definition aquicksort (v : list Z) : list nat :=
  let num := List.length v in
  aquicksort_loop v (S num) (seq 0 num) 0 (num - 1)%nat
                  (2 * Z.log2 (Z.of_nat num)) [].

Definition numpy_argsort : list Z -> list nat := aquicksort.

(** Insertion of index [i] into the indexer [sorted]: ahead of the first
    index whose key is greater. *)
Fixpoint insert_index (before : Z -> Z -> bool) (keys : list Z) (i : nat)
                      (sorted : list nat) : list nat :=
  match sorted with
  | [] => [i]
  | j :: rest =>
      if before (nth i keys 0) (nth j keys 0) then i :: sorted
      else j :: insert_index before keys i rest
  end.

Definition argsort_with (before : Z -> Z -> bool) (keys : list Z) : list nat :=
  fold_left (fun acc i => insert_index before keys i acc)
            (seq 0 (List.length keys)) [].

(** The sort that leaves equal keys in their order: what numpy's sort comes
    to on the short columns of the samples, which it sorts by insertion. *)
Definition stable_argsort : list Z -> list nat := argsort_with Z.ltb.

(** A polarity scorer that knows two headlines. *)
Definition headline_score (text : string) : float64 :=
  if String.eqb text "Apple soars" then f64_ratio 4 10
  else if String.eqb text "Apple sinks" then f64_ratio (-2) 10
  else f64_of_Z 0.

(** The libraries over a file system that holds one news file and one price
    file, whatever the paths asked for. *)
Definition desk (news : exn + RawNews) (stock : exn + RawStock float64)
                (argsort : list Z -> list nat) : Externals float64 :=
  mkExternals (fun _ => news) (fun _ => stock)
              pandas_to_datetime pandas_mixed_offsets
              headline_score argsort
              (fun _ _ => nan) (fun _ => "nan")
              (fun _ => inr tt) (fun _ => inr tt).

Definition news_header : list string :=
  ["headline"; "url"; "publisher"; "date"; "stock"].

Definition stock_header : list string :=
  ["Date"; "Open"; "High"; "Low"; "Close"; "Adj Close"; "Volume"].

Definition news_file (rows : list (string * string)) : RawNews :=
  mkRawNews news_header
    (map (fun r : string * string =>
            mkRawNewsRow "AAPL" (CText (fst r)) (CText (snd r)))
         rows).

Definition stock_file (rows : list (string * Z)) : RawStock float64 :=
  mkRawStock stock_header
    (map (fun r : string * Z => mkRawStockRow (CText (fst r)) (f64_of_Z (snd r)))
         rows).

Definition no_file (path : string) : exn + RawNews :=
  inl (Exn FileNotFoundError
         ("[Errno 2] No such file or directory: '" ++ path ++ "'")).

Definition fresh : Analyzer float64 := init "news.csv" "stock.csv" "AAPL".

(** The state after [load_data], and after [load_data], [analyze_sentiment]
    and [calculate_returns], on the two files. *)
Definition loaded (news : RawNews) (stock : RawStock float64) : Analyzer float64 :=
  fst (fst (load_data (desk (inr news) (inr stock) stable_argsort) fresh)).

Definition prepared (news : RawNews) (stock : RawStock float64) : Analyzer float64 :=
  let X := desk (inr news) (inr stock) stable_argsort in
  fst (fst ((load_data X ;; analyze_sentiment X ;; calculate_returns X)%py fresh)).

(** Two AAPL headlines, an ISO date first, then one in the fallback format,
    and a headline of another stock. *)
Definition fallback_news : RawNews :=
  mkRawNews news_header
    [mkRawNewsRow "AAPL" (CText "2020-06-05 10:30:54") (CText "Apple beats estimates");
     mkRawNewsRow "AAPL" (CText "01/15/2021 09:30:00 AM") (CText "Apple slips");
     mkRawNewsRow "TSLA" (CText "2020-06-05 11:00:00") (CText "Tesla rallies")].

(** The same two AAPL dates, the first with the offset of New York. *)
Definition two_dates : list csv_cell :=
  [CText "2020-06-05 10:30:54-04:00"; CText "01/15/2021 09:30:00 AM"].

Definition zoned_fallback_news : RawNews :=
  news_file [("2020-06-05 10:30:54-04:00", "Apple beats estimates");
             ("01/15/2021 09:30:00 AM", "Apple slips")].

(** Headlines of summer and of winter, with the offsets of New York, and one
    dated in the fallback format. *)
Definition two_offsets_news : RawNews :=
  news_file [("2020-06-05 10:30:54-04:00", "Apple beats estimates");
             ("2020-12-01 09:00:00-05:00", "Apple soars");
             ("01/15/2021 09:30:00 AM", "Apple slips")].

Definition one_bar : RawStock float64 :=
  stock_file [("2021-01-15 00:00:00", 100)].

Definition zoned_externals : Externals float64 :=
  desk (inr zoned_fallback_news) (inr one_bar) stable_argsort.

(** News on 1, 2 and 4 January 2021, bars on 2, 3 and 4 January. *)
Definition overlap_state : Analyzer float64 :=
  prepared
    (news_file [("2021-01-01 09:30:00", "Apple soars");
                ("2021-01-02 10:00:00", "Apple sinks");
                ("2021-01-04 16:05:00", "Apple opens a store")])
    (stock_file [("2021-01-02 00:00:00", 100); ("2021-01-03 00:00:00", 110);
                 ("2021-01-04 00:00:00", 99)]).

(** The same news dated with the offset of New York, and the same bars. *)
Definition aware_overlap_state : Analyzer float64 :=
  prepared
    (news_file [("2021-01-01 09:30:00-05:00", "Apple soars");
                ("2021-01-02 10:00:00-05:00", "Apple sinks");
                ("2021-01-04 16:05:00-05:00", "Apple opens a store")])
    (stock_file [("2021-01-02 00:00:00", 100); ("2021-01-03 00:00:00", 110);
                 ("2021-01-04 00:00:00", 99)]).



(** Two headlines on 4 January 2021, at 09:30 (scored 0.4) and at 15:45
    (scored -0.2), and the bar of that day. *)
Definition same_day_state : Analyzer float64 :=
  prepared
    (news_file [("2021-01-04 09:30:00", "Apple soars");
                ("2021-01-04 15:45:00", "Apple sinks")])
    (stock_file [("2021-01-04 00:00:00", 100)]).

(** The same two headlines carrying one and the same timestamp. *)
Definition same_instant_state : Analyzer float64 :=
  prepared
    (news_file [("2021-01-04 09:30:00", "Apple soars");
                ("2021-01-04 09:30:00", "Apple sinks")])
    (stock_file [("2021-01-04 00:00:00", 100)]).

(** Two bars of one date, closing at 100 and at 110. *)
Definition tied_bars : Analyzer float64 :=
  loaded (news_file [])
         (stock_file [("2021-01-04 00:00:00", 100); ("2021-01-04 00:00:00", 110)]).

(** Eighteen bars of January 2021 in the order of the dates, but for three
    bars of 11 January that stand second, ninth and sixteenth; the closes
    number the bars in the order of the file. *)
Definition january_bars : RawStock float64 :=
  stock_file
    [("2021-01-01 00:00:00", 101); ("2021-01-11 00:00:00", 102);
     ("2021-01-02 00:00:00", 103); ("2021-01-03 00:00:00", 104);
     ("2021-01-04 00:00:00", 105); ("2021-01-05 00:00:00", 106);
     ("2021-01-06 00:00:00", 107); ("2021-01-07 00:00:00", 108);
     ("2021-01-11 00:00:00", 109); ("2021-01-21 00:00:00", 110);
     ("2021-01-22 00:00:00", 111); ("2021-01-23 00:00:00", 112);
     ("2021-01-24 00:00:00", 113); ("2021-01-25 00:00:00", 114);
     ("2021-01-26 00:00:00", 115); ("2021-01-11 00:00:00", 116);
     ("2021-01-30 00:00:00", 117); ("2021-01-31 00:00:00", 118)].

Definition january_state : Analyzer float64 := loaded (news_file []) january_bars.

(** Three bars out of order, closing at 99, 100 and 110. *)
Definition shuffled_bars : Analyzer float64 :=
  loaded (news_file [])
         (stock_file [("2021-01-04 00:00:00", 99); ("2021-01-02 00:00:00", 100);
                      ("2021-01-03 00:00:00", 110)]).

(** A bar that closed at zero, then one at 110. *)
Definition zero_close_bars : Analyzer float64 :=
  loaded (news_file [])
         (stock_file [("2021-01-04 00:00:00", 0); ("2021-01-05 00:00:00", 110)]).

(** The libraries of a run that finds no file. *)
Definition offline (argsort : list Z -> list nat) : Externals float64 :=
  desk (no_file "news.csv")
       (inl (Exn FileNotFoundError
               "[Errno 2] No such file or directory: 'stock.csv'")) argsort.

Definition exact_of (n : Z) : exact := Some (Q2Qc (inject_Z n)).

(* ================================================================== *)
(** * Proof tools *)
(* ================================================================== *)

Definition zrange (lo : Z) (n : nat) : list Z :=
  map (fun i => lo + Z.of_nat i) (seq 0 n).

(** A goal [forall m, lo <= m < hi -> P m] by its cases, given the lemma
    [cover] that a property of every member of [zrange lo n] holds on the
    interval. *)
Ltac each_case cover tac :=
  match goal with
  | |- forall m, ?lo <= m < ?hi -> @?P m =>
      let n := eval vm_compute in (Z.to_nat (hi - lo)) in
      apply (cover P lo n);
      unfold zrange; cbn [seq map];
      repeat (apply Forall_cons; [tac|]); apply Forall_nil
  end.


(* ================================================================== *)
(** * [SentimentReturnAnalyzer.__repr__], more vocabulary and more samples *)
(* ================================================================== *)

(** [__repr__] (lines 24-25): the symbol and the number of merged records,
    0 while nothing is merged. *)
Definition repr {F} (self : Analyzer F) : string :=
  "<SentimentReturnAnalyzer stock=" ++ stock_symbol self ++ " records="
  ++ string_of_nat (match merged_df self with
                    | Some rows => List.length rows
                    | None => 0%nat
                    end)
  ++ ">".

(** [s] starts with a character that is not a blank. *)
Definition starts_visible (s : string) : bool :=
  match s with
  | String c _ => negb (is_space c)
  | EmptyString => false
  end.

(** A cell holds the midnight of a day on the clock of a column of zone [z]. *)
Definition midnight (z : tz) (t : timestamp) : Prop :=
  exists ns, t = Some ns /\ (ns + offset z) mod NS_PER_DAY = 0.

(** A news file of which the second record has no headline. *)
Definition headless_news : RawNews :=
  mkRawNews news_header
    [mkRawNewsRow "AAPL" (CText "2021-01-14 09:30:00") (CText "Apple soars");
     mkRawNewsRow "AAPL" (CText "2021-01-15 09:30:00") CMissing].

(** A headline without a date that any parser reads, and a bar dated with
    the offset of New York. *)
Definition undated_state : Analyzer float64 :=
  prepared (news_file [("unknown", "Apple soars")])
           (stock_file [("2021-03-01 00:00:00-05:00", 100)]).

(** News that carry dates without a time of day, on 4 and 5 January 2021, and
    the bars of 4 and 6 January. *)
Definition date_only_state : Analyzer float64 :=
  prepared
    (news_file [("2021-01-04 00:00:00", "Apple soars");
                ("2021-01-05 00:00:00", "Apple sinks");
                ("2021-01-04 00:00:00", "Apple opens a store")])
    (stock_file [("2021-01-04 00:00:00", 100); ("2021-01-06 00:00:00", 110)]).

(** A price file that has an adjusted close but no "Close" column. *)
Definition no_close_file : RawStock float64 :=
  mkRawStock ["Date"; "Adj Close"]
    [mkRawStockRow (CText "2021-01-05 00:00:00") (f64_of_Z 0);
     mkRawStockRow (CText "2021-01-04 00:00:00") (f64_of_Z 0)].

(* ================================================================== *)
(** * [EdaAnalysis]: the methods after [load_data]
      ([src/eda_analysis.py], lines 29-132)

    These methods read columns that [load_data] only carries along
    ("publisher"), add columns of their own and hand tables to the plotting
    library.  The frame is modelled by its labels and its rows; a field of a
    row is meaningful when the frame has the column, and the "date" column is
    text as read until [pd.to_datetime] replaces it by a UTC column.  None of
    these methods has a [try] block: what the libraries raise reaches the
    caller. *)
(* ================================================================== *)

(** [re.search]: the first match at the leftmost position that has one. *)
Fixpoint re_search (r : regex) (s : string) : option matching :=
  match re_match r s with
  | Some m => Some m
  | None =>
      match s with
      | String _ s' => re_search r s'
      | EmptyString => None
      end
  end.

Definition is_letter (c : ascii) : bool :=
  in_range "A" "Z" c || in_range "a" "z" c.

(** The class [[A-Za-z0-9.-]]. *)
Definition is_domain_char (c : ascii) : bool :=
  is_letter c || is_digit c || Ascii.eqb c "." || Ascii.eqb c "-".

(** A literal character, the case kept. *)
Definition exactly (c : ascii) : regex := Class (Ascii.eqb c).

(** Lines 116-117: [@([A-Za-z0-9.-]+\.[A-Za-z]{2,})]; the group is number 1. *)
Definition email_domain : regex :=
  Cat (exactly "@")
      (Group "1"
         (Cat (Plus is_domain_char)
              (Cat (exactly ".") (Cat (Class is_letter) (Plus is_letter))))).

(** The line feed that opens some of the printed headers. *)
Definition nl : string := String (ascii_of_nat 10) EmptyString.

Fixpoint string_forallb (p : ascii -> bool) (s : string) : bool :=
  match s with
  | EmptyString => true
  | String c s' => p c && string_forallb p s'
  end.

(** [t] does not begin with a character of the class [p]. *)
Definition stops (p : ascii -> bool) (t : string) : Prop :=
  match t with
  | String c _ => p c = false
  | EmptyString => True
  end.

(** The characters of a text, which is kept as the bytes of its UTF-8
    encoding: every byte but a continuation byte (10xxxxxx) begins one. *)
Definition is_continuation (c : ascii) : bool :=
  ((128 <=? code c) && (code c <? 192))%N.

Fixpoint code_points (s : string) : nat :=
  match s with
  | EmptyString => 0%nat
  | String c s' =>
      ((if is_continuation c then 0 else 1) + code_points s')%nat
  end.

Module Exploration.

Local Open Scope py_scope.

Record Article := mkArticle {
  a_headline : csv_cell;
  a_publisher : csv_cell;
  a_date_text : csv_cell;          (** "date" as read *)
  a_date : timestamp;              (** "date" once parsed, in UTC *)
  a_headline_length : nat;
  a_date_only : option Z;          (** a [datetime.date] as days since 1970-01-01, or NaT *)
  a_hour : option Z;
  a_publisher_domain : option string
}.

(** [self.df]: the labels, whether "date" is a datetime64[ns, UTC] column
    rather than text, and the rows. *)
Record Frame := mkFrame {
  columns : list string;
  date_parsed : bool;
  articles : list Article
}.

(** What the libraries decide: the general-purpose date parser, the random
    choice of [sample], the text [print] gives a table, and the plots. *)
Record Views := mkViews {
  (** [pd.to_datetime(column, errors="coerce", utc=True)] on a text column:
      the parse of each cell, NaT when it fails. *)
  to_datetime_utc : list csv_cell -> csv_cell -> timestamp;
  (** [numpy.random.choice(population, size, replace=False)]. *)
  choice : nat -> nat -> list nat;
  show : Frame -> string;
  show_missing : Frame -> string;
  describe : Frame -> exn + string;
  describe_lengths : list nat -> string;
  show_top_domains : list string -> string;
  line_plot : list (Z * nat) -> exn + unit;
  bar_plot : list (Z * nat) -> exn + unit;
  barh_plot : list string -> exn + unit
}.

Definition shape (df : Frame) : string :=
  "(" ++ string_of_nat (List.length (articles df)) ++ ", "
      ++ string_of_nat (List.length (columns df)) ++ ")".

Definition head (n : nat) (df : Frame) : Frame :=
  mkFrame (columns df) (date_parsed df) (firstn n (articles df)).

Definition tail (n : nat) (df : Frame) : Frame :=
  mkFrame (columns df) (date_parsed df)
          (skipn (List.length (articles df) - n) (articles df)).

(** [len(x)] on a cell of a text column: the number of characters of a
    text; a missing cell is the float NaN. *)
Definition py_len (c : csv_cell) : exn + nat :=
  match c with
  | CText s => inr (code_points s)
  | CMissing => inl (Exn TypeError "object of type 'float' has no len()")
  end.

(** The lambda of lines 116-117 on [str(pub)]. *)
Definition publisher_domain (pub : csv_cell) : option string :=
  match re_search email_domain (astype_str pub) with
  | Some (g, _, _) => found g "1"
  | None => None
  end.

(** [Series.dt.date] and [Series.dt.hour] on a UTC column. *)
Definition day_of (t : timestamp) : option Z :=
  option_map (fun ns => ns / NS_PER_DAY) t.

Definition hour_of_day (t : timestamp) : option Z :=
  option_map (fun ns => ns mod NS_PER_DAY / (3600 * NS_PER_SECOND)) t.

(** [groupby(key).size()] and [value_counts().sort_index()]: the number of
    rows of each key, the keys in increasing order, missing keys left out. *)
Definition count_key (k : Z) (keys : list (option Z)) : nat :=
  List.length (filter (timestamp_eqb (Some k)) keys).

Definition size_by_key (keys : list (option Z)) : list (Z * nat) :=
  map (fun k => (k, count_key k keys)) (group_keys keys).

(** [Series.dropna()] on a column of strings and [None]. *)
Definition dropna (cells : list (option string)) : list string :=
  flat_map (fun c : option string => match c with Some s => [s] | None => [] end)
           cells.

Definition set_headline_length (a : Article) (n : nat) : Article :=
  mkArticle (a_headline a) (a_publisher a) (a_date_text a) (a_date a)
            n (a_date_only a) (a_hour a) (a_publisher_domain a).

Definition set_date (a : Article) (t : timestamp) : Article :=
  mkArticle (a_headline a) (a_publisher a) (a_date_text a) t
            (a_headline_length a) (a_date_only a) (a_hour a)
            (a_publisher_domain a).

Definition set_date_only (a : Article) (d : option Z) : Article :=
  mkArticle (a_headline a) (a_publisher a) (a_date_text a) (a_date a)
            (a_headline_length a) d (a_hour a) (a_publisher_domain a).

Definition set_hour (a : Article) (h : option Z) : Article :=
  mkArticle (a_headline a) (a_publisher a) (a_date_text a) (a_date a)
            (a_headline_length a) (a_date_only a) h (a_publisher_domain a).

Definition set_publisher_domain (a : Article) (d : option string) : Article :=
  mkArticle (a_headline a) (a_publisher a) (a_date_text a) (a_date a)
            (a_headline_length a) (a_date_only a) (a_hour a) d.

Section Methods.

Context (V : Views).

(** [df.sample(n)]: no more rows than the frame has can be drawn. *)
Definition sample (n : nat) (df : Frame) : exn + Frame :=
  let population := List.length (articles df) in
  if (population =? 0)%nat then
    inl (Exn ValueError "a must be greater than 0 unless no samples are taken")
  else if (population <? n)%nat then
    inl (Exn ValueError
           "Cannot take a larger sample than population when 'replace=False'")
  else inr (mkFrame (columns df) (date_parsed df)
                    (take (articles df) (choice V population n))).

(** [dataset_overview] (lines 29-41). *)
Definition dataset_overview : M Frame unit :=
  df <- get ;;
  print (nl ++ " =================== Dataset Overview:===================================") ;;
  print (show V (head 10 df)) ;;
  print (nl ++ " ============================== Last 5 Rows of the Dataset:========================") ;;
  print (show V (tail 5 df)) ;;
  print (nl ++ " ================================ Random Sample of 5 Rows:=============================") ;;
  picked <- lift (sample 5 df) ;;
  print (show V picked) ;;
  print (nl ++ " =================================== Dataset Shape:=====================================") ;;
  print (shape df) ;;
  print (nl ++ " The description of the numeric columns:") ;;
  described <- lift (describe V df) ;;
  print described ;;
  print "Check for missing values:" ;;
  print (show_missing V df).

(** [analyze_headline_lengths] (lines 43-46). *)
Definition analyze_headline_lengths : M Frame unit :=
  df <- get ;;
  _ <- lift (getitem (columns df) "headline") ;;
  lengths <- lift (apply_each py_len (map a_headline (articles df))) ;;
  put (mkFrame (add_column (columns df) "headline_length") (date_parsed df)
         (map (fun p : Article * nat => set_headline_length (fst p) (snd p))
              (combine (articles df) lengths))) ;;
  print (nl ++ "Headline length statistics:") ;;
  print (describe_lengths V lengths).

(** Lines 68 and 73: "date" replaced by its parse in UTC; a column that is
    already one is left as it is. *)
Definition parse_date_column (df : Frame) : Frame :=
  if date_parsed df then df
  else
    let parse := to_datetime_utc V (map a_date_text (articles df)) in
    mkFrame (columns df) true
            (map (fun a => set_date a (parse (a_date_text a))) (articles df)).

(** Lines 69 and 76. *)
Definition add_date_only (df : Frame) : Frame :=
  mkFrame (add_column (columns df) "date_only") (date_parsed df)
          (map (fun a => set_date_only a (day_of (a_date a))) (articles df)).

(** [parse_dates] (lines 67-69). *)
Definition parse_dates : M Frame unit :=
  df <- get ;;
  _ <- lift (getitem (columns df) "date") ;;
  let df := parse_date_column df in
  put df ;;
  put (add_date_only df).

(** [daily_article_trend] (lines 71-87). *)
Definition daily_article_trend : M Frame unit :=
  df <- get ;;
  _ <- lift (getitem (columns df) "date") ;;
  let df := parse_date_column df in
  put df ;;
  let df := add_date_only df in
  put df ;;
  let daily_counts := size_by_key (map a_date_only (articles df)) in
  lift (line_plot V daily_counts).

(** [article_hour_distribution] (lines 89-99): [.dt] wants a datetime
    column. *)
Definition article_hour_distribution : M Frame unit :=
  df <- get ;;
  _ <- lift (getitem (columns df) "date") ;;
  if date_parsed df then
    let df := mkFrame (add_column (columns df) "hour") (date_parsed df)
                (map (fun a => set_hour a (hour_of_day (a_date a))) (articles df)) in
    put df ;;
    let hourly_counts := size_by_key (map a_hour (articles df)) in
    lift (bar_plot V hourly_counts)
  else
    raise (Exn AttributeError "Can only use .dt accessor with datetimelike values").

(** [extract_email_domains] (lines 114-132). *)
Definition extract_email_domains : M Frame unit :=
  df <- get ;;
  _ <- lift (getitem (columns df) "publisher") ;;
  let df := mkFrame (add_column (columns df) "publisher_domain") (date_parsed df)
              (map (fun a => set_publisher_domain a (publisher_domain (a_publisher a)))
                   (articles df)) in
  put df ;;
  let email_domains := dropna (map a_publisher_domain (articles df)) in
  match email_domains with
  | [] => print "No email-format publishers were found."
  | _ =>
      print "Top contributing email domains:" ;;
      print (show_top_domains V email_domains) ;;
      lift (barh_plot V email_domains)
  end.

End Methods.

End Exploration.

(** Libraries that print nothing and plot nothing, with a date parser that
    reads the ISO layout as UTC and a [choice] that takes the first rows. *)
Definition quiet_views : Exploration.Views :=
  Exploration.mkViews (fun _ => iso_cell) (fun _ n => seq 0 n)
    (fun _ => "") (fun _ => "") (fun _ => inr "") (fun _ => "") (fun _ => "")
    (fun _ => inr tt) (fun _ => inr tt) (fun _ => inr tt).

Definition article (headline publisher date : csv_cell) : Exploration.Article :=
  Exploration.mkArticle headline publisher date NaT 0 None None None.

(** Three articles as read, two of one day, none signed with an address; the
    last one has no headline. *)
Definition newsroom : Exploration.Frame :=
  Exploration.mkFrame news_header false
    [article (CText "Apple soars") (CText "Benzinga Newsdesk")
             (CText "2021-01-04 09:30:00");
     article (CText "Apple sinks") CMissing (CText "2021-01-04 15:45:00");
     article CMissing (CText "Lisa Levin") (CText "2021-01-05 08:00:00")].

(** The same frame once [parse_dates] has run. *)
Definition newsroom_parsed : Exploration.Frame :=
  fst (fst (Exploration.parse_dates quiet_views newsroom)).

(* ================================================================== *)
(** * [PortfolioAnalyzer] ([src/quantitative_analysis.py], lines 97-155)

    The control flow of the class: which attributes a method sets, what it
    prints and what it lets through.  The price files are what [read_csv]
    returns for them; the tables of numbers the metrics are made of stay
    abstract (a type [T]), each pandas computation on them being a parameter
    that may raise. *)
(* ================================================================== *)

(** The three bytes of the check mark that opens two of the messages. *)
Definition check_mark : string :=
  String (ascii_of_nat 226) (String (ascii_of_nat 156)
    (String (ascii_of_nat 148) EmptyString)).

(** [for x in items: body(x)]. *)
Fixpoint for_each {S A} (body : A -> M S unit) (items : list A) : M S unit :=
  match items with
  | [] => ret tt
  | x :: items' => (body x ;; for_each body items')%py
  end.

(** [d[key] = value] on a dict kept as the list of its items: the value of a
    key already there is replaced where it stands, a new key goes last. *)
Fixpoint dict_set {V} (d : list (string * V)) (key : string) (value : V)
  : list (string * V) :=
  match d with
  | [] => [(key, value)]
  | (k, v) :: d' =>
      if String.eqb k key then (k, value) :: d'
      else (k, v) :: dict_set d' key value
  end.

Module PortfolioAnalyzer.

Local Open Scope py_scope.

Section Portfolio.

Context {F T : Type}.

(** A "Close" column with its "Date" index. *)
Definition Series : Type := list (timestamp * F).

(** A price file read with [parse_dates=["Date"], index_col="Date"]: the
    labels of its columns, the index apart, and its rows. *)
Record PriceTable := mkPriceTable {
  pt_columns : list string;
  pt_rows : Series
}.

(** The attributes of the object.  [__init__] (lines 98-100) sets the first
    two; the others do not exist until a method sets them. *)
Record Portfolio := mkPortfolio {
  ticker_file_map : list (string * string);
  data : list (string * Series);
  df : option (list (string * Series));   (** the frame made of [data] *)
  returns : option T;
  annual_returns : option T;
  volatility : option T;
  sharpe_ratio : option T;
  portfolio_value : option T
}.

Definition init (ticker_file_map : list (string * string)) : Portfolio :=
  mkPortfolio ticker_file_map [] None None None None None None.

Definition set_data (self : Portfolio) (d : list (string * Series)) : Portfolio :=
  mkPortfolio (ticker_file_map self) d (df self) (returns self)
              (annual_returns self) (volatility self) (sharpe_ratio self)
              (portfolio_value self).

Definition set_df (self : Portfolio) (d : list (string * Series)) : Portfolio :=
  mkPortfolio (ticker_file_map self) (data self) (Some d) (returns self)
              (annual_returns self) (volatility self) (sharpe_ratio self)
              (portfolio_value self).

Definition set_returns (self : Portfolio) (t : T) : Portfolio :=
  mkPortfolio (ticker_file_map self) (data self) (df self) (Some t)
              (annual_returns self) (volatility self) (sharpe_ratio self)
              (portfolio_value self).

Definition set_annual_returns (self : Portfolio) (t : T) : Portfolio :=
  mkPortfolio (ticker_file_map self) (data self) (df self) (returns self)
              (Some t) (volatility self) (sharpe_ratio self)
              (portfolio_value self).

Definition set_volatility (self : Portfolio) (t : T) : Portfolio :=
  mkPortfolio (ticker_file_map self) (data self) (df self) (returns self)
              (annual_returns self) (Some t) (sharpe_ratio self)
              (portfolio_value self).

Definition set_sharpe_ratio (self : Portfolio) (t : T) : Portfolio :=
  mkPortfolio (ticker_file_map self) (data self) (df self) (returns self)
              (annual_returns self) (volatility self) (Some t)
              (portfolio_value self).

Definition set_portfolio_value (self : Portfolio) (t : T) : Portfolio :=
  mkPortfolio (ticker_file_map self) (data self) (df self) (returns self)
              (annual_returns self) (volatility self) (sharpe_ratio self)
              (Some t).

(** What the libraries decide. *)
Record Market := mkMarket {
  read_csv : string -> exn + PriceTable;
  (** [pd.DataFrame(self.data)]: the series put side by side on the union of
      their indexes, which pandas refuses when an index that has to be
      realigned holds a date twice. *)
  data_frame : list (string * Series) -> exn + list (string * Series);
  (** [df.pct_change().dropna()] *)
  pct_change_dropna : list (string * Series) -> exn + T;
  (** [returns.mean() * 252] *)
  annualised_mean : T -> exn + T;
  (** [returns.std() * np.sqrt(252)] *)
  annualised_std : T -> exn + T;
  (** [(annual_returns / volatility).round(2)] *)
  rounded_ratio : T -> T -> exn + T;
  (** [(1 + returns).cumprod()] *)
  cumulative_growth : T -> exn + T;
  (** the table with its column "Total", the mean of each row *)
  with_total : T -> exn + T;
  show : T -> string;
  show_round4 : T -> string;
  plot : list string -> T -> exn + unit
}.

Context (R : Market).

(** [self.name] on an attribute that may not exist yet. *)
Definition attribute {A} (field : option A) (name : string) : exn + A :=
  match field with
  | Some v => inr v
  | None => inl (Exn AttributeError
                   ("'PortfolioAnalyzer' object has no attribute '" ++ name ++ "'"))
  end.

(** Lines 105-110, for one ticker. *)
Definition load_ticker (ticker filepath : string) : M Portfolio unit :=
  try_except
    (table <- lift (read_csv R filepath) ;;
     _ <- lift (getitem (pt_columns table) "Close") ;;
     self <- get ;;
     put (set_data self (dict_set (data self) ticker (pt_rows table))) ;;
     print (check_mark ++ " Data loaded for " ++ ticker))
    (fun e => print (" Failed to load data for " ++ ticker ++ ": " ++ exn_str e)).

(** The series a ticker has once its file was tried, [old] being the one it
    had: the "Close" column of the file when the file is read and has one. *)
Definition after_try (old : option Series) (path : string) : option Series :=
  match read_csv R path with
  | inr table =>
      if has_column (pt_columns table) "Close"
      then Some (pt_rows table) else old
  | inl _ => old
  end.

(** [load_data] (lines 102-115).  The frame is built outside every [try]:
    what [pd.DataFrame] raises reaches the caller. *)
Definition load_data : M Portfolio unit :=
  print "Fetching data from CSV files..." ;;
  self <- get ;;
  for_each (fun item : string * string => load_ticker (fst item) (snd item))
           (ticker_file_map self) ;;
  self <- get ;;
  match data self with
  | [] => print " No valid data loaded from CSV files."
  | _ =>
      frame <- lift (data_frame R (data self)) ;;
      put (set_df self frame)
  end.

(** [calculate_metrics] (lines 117-128). *)
Definition calculate_metrics : M Portfolio unit :=
  try_except
    (self <- get ;;
     prices <- lift (attribute (df self) "df") ;;
     r <- lift (pct_change_dropna R prices) ;;
     put (set_returns self r) ;;
     self <- get ;;
     a <- lift (annualised_mean R r) ;;
     put (set_annual_returns self a) ;;
     self <- get ;;
     v <- lift (annualised_std R r) ;;
     put (set_volatility self v) ;;
     self <- get ;;
     s <- lift (rounded_ratio R a v) ;;
     put (set_sharpe_ratio self s) ;;
     self <- get ;;
     p <- lift (cumulative_growth R r) ;;
     put (set_portfolio_value self p) ;;
     self <- get ;;
     p' <- lift (with_total R p) ;;
     put (set_portfolio_value self p') ;;
     print (check_mark ++ " Metrics calculated successfully."))
    (fun e => print (" Error calculating metrics: " ++ exn_str e)).

(** [print_summary] (lines 130-136): no [try] block. *)
Definition print_summary : M Portfolio unit :=
  self <- get ;;
  match annual_returns self with
  | None =>
      print " Metrics not calculated. Please run `calculate_metrics()` first."
  | Some a =>
      print ("Annual Returns:" ++ nl ++ " " ++ show_round4 R a) ;;
      v <- lift (attribute (volatility self) "volatility") ;;
      print (nl ++ "Volatility:" ++ nl ++ " " ++ show_round4 R v) ;;
      s <- lift (attribute (sharpe_ratio self) "sharpe_ratio") ;;
      print (nl ++ "Sharpe Ratio:" ++ nl ++ " " ++ show R s)
  end.

(** [plot_performance] (lines 138-155). *)
Definition plot_performance : M Portfolio unit :=
  self <- get ;;
  match portfolio_value self with
  | None =>
      print " Portfolio value not calculated. Please run `calculate_metrics()` first."
  | Some p =>
      try_except
        (lift (plot R (map fst (ticker_file_map self)) p))
        (fun e => print (" Error plotting performance: " ++ exn_str e))
  end.

End Portfolio.

End PortfolioAnalyzer.

Arguments PortfolioAnalyzer.Portfolio : clear implicits.
Arguments PortfolioAnalyzer.PriceTable : clear implicits.
Arguments PortfolioAnalyzer.Market : clear implicits.

(** [d.get(key)] on a dict kept as the list of its items. *)
Fixpoint dict_get {V} (d : list (string * V)) (key : string) : option V :=
  match d with
  | [] => None
  | (k, v) :: d' => if String.eqb k key then Some v else dict_get d' key
  end.

(** A file system with a price file for AAPL, a file without a "Close" column
    for TSLA and nothing else; metrics that are computed without incident. *)
Definition street : PortfolioAnalyzer.Market float64 unit :=
  PortfolioAnalyzer.mkMarket
    (fun path =>
       if String.eqb path "aapl.csv" then
         inr (PortfolioAnalyzer.mkPriceTable ["Open"; "Close"]
                [(date_ 2021 1 4, f64_of_Z 100); (date_ 2021 1 5, f64_of_Z 110)])
       else if String.eqb path "tsla.csv" then
         inr (PortfolioAnalyzer.mkPriceTable ["Open"; "Adj Close"]
                [(date_ 2021 1 4, f64_of_Z 700)])
       else inl (Exn FileNotFoundError
                   ("[Errno 2] No such file or directory: '" ++ path ++ "'")))
    (fun d => inr d)
    (fun _ => inr tt) (fun _ => inr tt) (fun _ => inr tt) (fun _ _ => inr tt)
    (fun _ => inr tt) (fun _ => inr tt) (fun _ => "") (fun _ => "")
    (fun _ _ => inr tt).

Definition three_tickers : PortfolioAnalyzer.Portfolio float64 unit :=
  PortfolioAnalyzer.init
    [("AAPL", "aapl.csv"); ("TSLA", "tsla.csv"); ("MSFT", "msft.csv")].

Definition two_lost_tickers : PortfolioAnalyzer.Portfolio float64 unit :=
  PortfolioAnalyzer.init [("TSLA", "tsla.csv"); ("MSFT", "msft.csv")].

(* ================================================================== *)
(** * [StockAnalyzer] ([src/quantitative_analysis.py], lines 9-94)

    Every method is a chain of calls into pandas, TA-Lib and matplotlib under
    a handler that prints and does not raise.  The frame stays abstract (a
    type [D]); each library call is a parameter that may raise and, when it
    does not, gives the frame its next value. *)
(* ================================================================== *)

Module StockAnalyzer.

Local Open Scope py_scope.

Section Stock.

Context {D : Type}.

(** The attributes [__init__] sets (lines 10-13). *)
Record Stock := mkStock {
  name : string;
  filepath : string;
  df : option D
}.

Definition init (name filepath : string) : Stock := mkStock name filepath None.

Definition set_df (self : Stock) (d : D) : Stock :=
  mkStock (name self) (filepath self) (Some d).

Record Library := mkLibrary {
  read_csv : string -> exn + D;
  (** [df['Date'] = pd.to_datetime(df['Date'])] *)
  to_datetime_date : D -> exn + D;
  (** [df.set_index('Date', inplace=True)] *)
  set_index_date : D -> exn + D;
  (** [df[col] = pd.to_numeric(df[col], errors='coerce')] *)
  to_numeric : string -> D -> exn + D;
  (** [df['SMA_20'] = talib.SMA(df['Close'], timeperiod=20)] *)
  sma_20 : D -> exn + D;
  (** [df['RSI'] = talib.RSI(df['Close'], timeperiod=14)] *)
  rsi_14 : D -> exn + D;
  (** lines 32-35: [talib.MACD] and the two columns made of its result *)
  macd : D -> exn + D;
  (** [df['Daily_Return'] = df['Close'].pct_change()] *)
  daily_return : D -> exn + D;
  (** [plt.figure(figsize=...)], which opens every plot *)
  figure : exn + unit;
  plot_close_and_sma : string -> D -> exn + unit;
  plot_rsi_line : D -> exn + unit;
  plot_macd_lines : D -> exn + unit;
  plot_daily_return_line : D -> exn + unit
}.

Context (L : Library).

(** One statement that reads [self.df], calls the library, and leaves the
    result in [self.df]. *)
Definition step (call : D -> exn + D) : M Stock unit :=
  self <- get ;;
  d <- lift (subscript (df self)) ;;
  d' <- lift (call d) ;;
  put (set_df self d').

Definition numeric_columns : list string :=
  ["Open"; "High"; "Low"; "Close"; "Adj Close"; "Volume"].

(** The handler of every method: [except Exception as e: print(f"...{e}")]. *)
Definition print_and_go_on {A} (prefix : string) (body : M Stock A)
                           (otherwise : A) : M Stock A :=
  try_except body (fun e => print (prefix ++ exn_str e) ;; ret otherwise).

(** [load_data] (lines 15-26). *)
Definition load_data : M Stock unit :=
  print_and_go_on "[Error] Failed to load data: "
    (self <- get ;;
     d <- lift (read_csv L (filepath self)) ;;
     put (set_df self d) ;;
     step (to_datetime_date L) ;;
     step (set_index_date L) ;;
     for_each (fun col => step (to_numeric L col)) numeric_columns ;;
     print "Data loaded successfully.")
    tt.

(** [calculate_indicators] (lines 28-39). *)
Definition calculate_indicators : M Stock unit :=
  print_and_go_on "[Error] Failed to calculate indicators: "
    (step (sma_20 L) ;;
     step (rsi_14 L) ;;
     step (macd L) ;;
     step (daily_return L) ;;
     print "Technical indicators calculated.")
    tt.

Definition plotting (prefix : string) (draw : D -> exn + unit) : M Stock unit :=
  print_and_go_on prefix
    (lift (figure L) ;;
     self <- get ;;
     d <- lift (subscript (df self)) ;;
     lift (draw d))
    tt.

(** [plot_sma], [plot_rsi], [plot_macd], [plot_daily_return] (lines 41-94). *)
Definition plot_sma : M Stock unit :=
  self <- get ;;
  plotting "[Error] Failed to plot SMA: " (plot_close_and_sma L (name self)).

Definition plot_rsi : M Stock unit :=
  plotting "[Error] Failed to plot RSI: " (plot_rsi_line L).

Definition plot_macd : M Stock unit :=
  plotting "[Error] Failed to plot MACD: " (plot_macd_lines L).

Definition plot_daily_return : M Stock unit :=
  plotting "[Error] Failed to plot daily return: " (plot_daily_return_line L).

End Stock.

End StockAnalyzer.

Arguments StockAnalyzer.Stock : clear implicits.
Arguments StockAnalyzer.Library : clear implicits.

(** Libraries over a file system without the price file; the frame is the
    list of the calls that made it. *)
Definition no_price_file : StockAnalyzer.Library (list string) :=
  StockAnalyzer.mkLibrary
    (fun path => inl (Exn FileNotFoundError
                        ("[Errno 2] No such file or directory: '" ++ path ++ "'")))
    (fun d => inr ("Date" :: d)) (fun d => inr ("index" :: d))
    (fun col d => inr (col :: d))
    (fun d => inr ("SMA_20" :: d)) (fun d => inr ("RSI" :: d))
    (fun d => inr ("MACD" :: d)) (fun d => inr ("Daily_Return" :: d))
    (inr tt) (fun _ _ => inr tt) (fun _ => inr tt) (fun _ => inr tt)
    (fun _ => inr tt).

(* ================================================================== *)
(** * Letter case in the fallback format *)
(* ================================================================== *)

(** Every class of [r] accepts a capital exactly when it accepts its small
    letter. *)
Fixpoint case_blind (r : regex) : Prop :=
  match r with
  | Eps => True
  | Class p | Plus p => forall c, p (lower_char c) = p c
  | Cat r1 r2 | Alt r1 r2 => case_blind r1 /\ case_blind r2
  | Group _ r1 => case_blind r1
  end.

Definition lower_captures (g : captures) : captures :=
  map (fun group : ascii * string => (fst group, lower (snd group))) g.

Definition lower_matching (m : matching) : matching :=
  let '(g, t, rest) := m in (lower_captures g, lower t, lower rest).

(** A statement about every character, by its 256 cases. *)
Ltac each_char :=
  let c := fresh "c" in
  intros c; destruct c as [[] [] [] [] [] [] [] []];
  first [reflexivity | intros; discriminate].

(* ================================================================== *)
(** * The fallback parser *)
(* ================================================================== *)

Lemma strptime_naive (o : pyobj) (format : string) (dt : datetime) :
  strptime o format = inr dt -> tzinfo dt = None.
Proof.
  unfold strptime.
  destruct o; try discriminate.
  destruct (pattern false format) as [r|]; try discriminate.
  destruct (re_match r s) as [[[g t] rest]|]; try discriminate.
  destruct (negb (String.eqb rest "")); try discriminate.
  destruct (negb (valid_date _ _ _)); try discriminate.
  destruct (negb (valid_time _ _ _)); try discriminate.
  intros E; inversion E; reflexivity.
Qed.

Lemma strptime_valid (o : pyobj) (format : string) (dt : datetime) :
  strptime o format = inr dt ->
  valid_date (year dt) (month dt) (day dt) = true
  /\ valid_time (hour dt) (minute dt) (second dt) = true.
Proof.
  unfold strptime.
  destruct o; try discriminate.
  destruct (pattern false format) as [r|]; try discriminate.
  destruct (re_match r s) as [[[g t] rest]|]; try discriminate.
  destruct (negb (String.eqb rest "")); try discriminate.
  destruct (valid_date _ _ _) eqn:Ed; try discriminate.
  destruct (valid_time _ _ _) eqn:Et; try discriminate.
  intros E; inversion E; subst; simpl; auto.
Qed.

Lemma strptime_wants_str (o : pyobj) (format : string) :
  (forall s, o <> PStr s) ->
  exists msg, strptime o format = inl (Exn TypeError msg).
Proof.
  intros Hns; destruct o; simpl; eauto.
  exfalso; eapply Hns; reflexivity.
Qed.

Lemma try_parse_custom_date_naive_or_NaT (o : pyobj) :
  naive_or_NaT (try_parse_custom_date o).
Proof.
  unfold try_parse_custom_date, naive_or_NaT.
  destruct (strptime o custom_format) as [e|dt] eqn:E.
  - now left.
  - right; exists dt; split; [reflexivity | eapply strptime_naive; eassumption].
Qed.

Lemma try_parse_custom_date_NaT : try_parse_custom_date PNaT = PNaT.
Proof. reflexivity. Qed.

(** ** Round trip: a date written in the format is read back *)

Lemma zrange_cover (P : Z -> Prop) (lo : Z) (n : nat) :
  Forall P (zrange lo n) ->
  forall m, lo <= m < lo + Z.of_nat n -> P m.
Proof.
  intros HF m Hm.
  rewrite Forall_forall in HF; apply HF.
  unfold zrange; apply in_map_iff.
  exists (Z.to_nat (m - lo)); split; [lia|].
  apply in_seq; lia.
Qed.

Lemma first_Cat (r1 r2 : regex) (s s1 s2 t1 t2 t : string) (g1 g2 g : captures) :
  first_match r1 s (g1, t1, s1) ->
  first_match r2 s1 (g2, t2, s2) ->
  g = (g1 ++ g2)%list -> t = t1 ++ t2 ->
  first_match (Cat r1 r2) s (g, t, s2).
Proof.
  intros [l1 H1] [l2 H2] -> ->.
  unfold first_match; cbn [rmatch].
  rewrite H1; cbn [flat_map]; rewrite H2; cbn [map app].
  eexists; reflexivity.
Qed.

Lemma first_lit (c : ascii) (k : string) :
  first_match (lit c) (String c k) ([], String c EmptyString, k).
Proof.
  unfold first_match, lit; cbn [rmatch].
  rewrite Ascii.eqb_refl. eexists; reflexivity.
Qed.

Lemma first_Eps (s : string) : first_match Eps s ([], EmptyString, s).
Proof. eexists; reflexivity. Qed.

Lemma digit_char_facts :
  forall a, 0 <= a < 10 ->
    is_digit (digit_char a) = true
    /\ is_space (digit_char a) = false
    /\ digit_val (digit_char a) = a.
Proof. each_case zrange_cover ltac:(repeat split; reflexivity). Qed.

Lemma first_month :
  forall m, 1 <= m < 13 -> forall k,
    first_match (dir "m") (two_digits m ++ k)
                ([("m"%char, two_digits m)], two_digits m, k).
Proof. each_case zrange_cover ltac:(intros k; eexists; reflexivity). Qed.

Lemma first_hour12 :
  forall h, 1 <= h < 13 -> forall k,
    first_match (dir "I") (two_digits h ++ k)
                ([("I"%char, two_digits h)], two_digits h, k).
Proof. each_case zrange_cover ltac:(intros k; eexists; reflexivity). Qed.

Lemma first_day :
  forall d, 1 <= d < 32 -> forall k,
    first_match (dir "d") (two_digits d ++ k)
                ([("d"%char, two_digits d)], two_digits d, k).
Proof. each_case zrange_cover ltac:(intros k; eexists; reflexivity). Qed.

Lemma first_minute :
  forall n, 0 <= n < 60 -> forall k,
    first_match (dir "M") (two_digits n ++ k)
                ([("M"%char, two_digits n)], two_digits n, k).
Proof. each_case zrange_cover ltac:(intros k; eexists; reflexivity). Qed.

Lemma first_second :
  forall n, 0 <= n < 60 -> forall k,
    first_match (dir "S") (two_digits n ++ k)
                ([("S"%char, two_digits n)], two_digits n, k).
Proof. each_case zrange_cover ltac:(intros k; eexists; reflexivity). Qed.

Lemma rmatch_year (a b c d : ascii) (k : string) :
  is_digit a = true -> is_digit b = true ->
  is_digit c = true -> is_digit d = true ->
  let t := String a (String b (String c (String d EmptyString))) in
  rmatch (dir "Y") (String a (String b (String c (String d k))))
  = [([("Y"%char, t)], t, k)].
Proof.
  intros Ha Hb Hc Hd t.
  change (dir "Y") with (Group "Y" (Cat (Class is_digit)
     (Cat (Class is_digit) (Cat (Class is_digit) (Class is_digit))))).
  cbn [rmatch]. rewrite Ha; cbn [flat_map rmatch].
  rewrite Hb; cbn [flat_map rmatch]. rewrite Hc; cbn [flat_map rmatch].
  rewrite Hd. reflexivity.
Qed.

Lemma four_digits_bounds (y : Z) :
  0 <= y < 10000 ->
  0 <= y / 1000 < 10 /\ 0 <= y / 100 mod 10 < 10
  /\ 0 <= y mod 100 / 10 < 10 /\ 0 <= y mod 100 mod 10 < 10.
Proof.
  intros Hy.
  pose proof (Z.mod_pos_bound y 100 ltac:(lia)).
  repeat split;
    try (apply Z.div_pos; lia);
    try (apply Z.div_lt_upper_bound; lia);
    try (apply Z.mod_pos_bound; lia).
Qed.

Lemma first_year (y : Z) (k : string) :
  0 <= y < 10000 ->
  first_match (dir "Y") (four_digits y ++ k)
              ([("Y"%char, four_digits y)], four_digits y, k).
Proof.
  intros Hy.
  destruct (four_digits_bounds y Hy) as (Ha & Hb & Hc & Hd).
  destruct (digit_char_facts _ Ha) as (Da & _ & _).
  destruct (digit_char_facts _ Hb) as (Db & _ & _).
  destruct (digit_char_facts _ Hc) as (Dc & _ & _).
  destruct (digit_char_facts _ Hd) as (Dd & _ & _).
  unfold first_match, four_digits, two_digits.
  cbn [String.append].
  rewrite (rmatch_year _ _ _ _ k Da Db Dc Dd).
  eexists; reflexivity.
Qed.

Lemma first_blank (c : ascii) (k : string) :
  is_space c = false ->
  first_match (Plus is_space) (String " " (String c k))
              ([], " ", String c k).
Proof.
  intros Hc; unfold first_match; cbn [rmatch many1].
  change (is_space " ") with true; cbn iota.
  rewrite Hc; cbn. eexists; reflexivity.
Qed.

Lemma first_meridiem (h : Z) :
  first_match (dir "p") (meridiem h) ([("p"%char, meridiem h)], meridiem h, "").
Proof.
  unfold meridiem; destruct (h <? 12); eexists; reflexivity.
Qed.

Lemma int_of_two_digits :
  forall n, 0 <= n < 100 -> int_of (two_digits n) = n.
Proof. each_case zrange_cover ltac:(reflexivity). Qed.

Lemma int_of_four_digits (y : Z) :
  0 <= y < 10000 -> int_of (four_digits y) = y.
Proof.
  intros Hy.
  destruct (four_digits_bounds y Hy) as (Ha & Hb & Hc & Hd).
  destruct (digit_char_facts _ Ha) as (Da & _ & Va).
  destruct (digit_char_facts _ Hb) as (Db & _ & Vb).
  destruct (digit_char_facts _ Hc) as (Dc & _ & Vc).
  destruct (digit_char_facts _ Hd) as (Dd & _ & Vd).
  unfold int_of, four_digits, two_digits; cbn [int_acc].
  rewrite Da, Db, Dc, Dd, Va, Vb, Vc, Vd.
  pose proof (Z.div_mod y 100 ltac:(lia)).
  pose proof (Z.div_mod (y / 100) 10 ltac:(lia)).
  pose proof (Z.div_mod (y mod 100) 10 ltac:(lia)).
  assert (y / 100 / 10 = y / 1000) by (rewrite Z.div_div by lia; reflexivity).
  lia.
Qed.

Lemma hour_of_custom :
  forall h, 0 <= h < 24 -> forall a b c mi s : string,
    hour_of [("m"%char, a); ("d"%char, b); ("Y"%char, c);
             ("I"%char, two_digits (hour12 h)); ("M"%char, mi);
             ("S"%char, s); ("p"%char, meridiem h)] = h.
Proof. each_case zrange_cover ltac:(intros; reflexivity). Qed.

Lemma hour12_bounds (h : Z) : 0 <= h < 24 -> 1 <= hour12 h < 13.
Proof.
  intros Hh; unfold hour12.
  pose proof (Z.mod_pos_bound h 12 ltac:(lia)).
  destruct (h mod 12 =? 0) eqn:E; [lia|].
  apply Z.eqb_neq in E; lia.
Qed.

Lemma days_in_month_le (y m : Z) : days_in_month y m <= 31.
Proof.
  unfold days_in_month.
  destruct (m =? 2); [destruct (is_leap y); lia|].
  destruct ((m =? 4) || (m =? 6) || (m =? 9) || (m =? 11)); lia.
Qed.

Lemma valid_date_bounds (y m d : Z) :
  valid_date y m d = true -> 1 <= y < 10000 /\ 1 <= m < 13 /\ 1 <= d < 32.
Proof.
  unfold valid_date; rewrite !andb_true_iff, !Z.leb_le.
  pose proof (days_in_month_le y m). lia.
Qed.

Lemma valid_time_bounds (h mi s : Z) :
  valid_time h mi s = true -> 0 <= h < 24 /\ 0 <= mi < 60 /\ 0 <= s < 60.
Proof. unfold valid_time; rewrite !andb_true_iff, !Z.leb_le; lia. Qed.

Lemma pattern_custom_format : pattern false custom_format = Some custom_regex.
Proof. reflexivity. Qed.

Lemma first_blank_digits (n : Z) (k : string) :
  0 <= n < 100 ->
  first_match (Plus is_space) (" " ++ two_digits n ++ k)
              ([], " ", two_digits n ++ k).
Proof.
  intros Hn. unfold two_digits; cbn [String.append].
  apply first_blank, digit_char_facts.
  split; [apply Z.div_pos | apply Z.div_lt_upper_bound]; lia.
Qed.

Lemma first_blank_meridiem (h : Z) :
  first_match (Plus is_space) (" " ++ meridiem h) ([], " ", meridiem h).
Proof.
  unfold meridiem; destruct (h <? 12); apply first_blank; reflexivity.
Qed.

Lemma first_match_custom_text (y m d h mi s : Z) :
  valid_date y m d = true -> valid_time h mi s = true ->
  exists t,
    first_match custom_regex (custom_text (mkdatetime y m d h mi s None))
      ([("m"%char, two_digits m); ("d"%char, two_digits d);
        ("Y"%char, four_digits y); ("I"%char, two_digits (hour12 h));
        ("M"%char, two_digits mi); ("S"%char, two_digits s);
        ("p"%char, meridiem h)], t, "").
Proof.
  intros Hd Ht.
  apply valid_date_bounds in Hd as (Hy & Hm & Hday).
  apply valid_time_bounds in Ht as (Hh & Hmi & Hs).
  pose proof (hour12_bounds h Hh) as H12.
  eexists. unfold custom_regex, custom_text; cbn [year month day hour minute second].
  eapply first_Cat; [apply first_month; lia | | reflexivity | reflexivity].
  eapply first_Cat; [apply first_lit | | reflexivity | reflexivity].
  eapply first_Cat; [apply first_day; lia | | reflexivity | reflexivity].
  eapply first_Cat; [apply first_lit | | reflexivity | reflexivity].
  eapply first_Cat; [apply first_year; lia | | reflexivity | reflexivity].
  eapply first_Cat;
    [ apply first_blank_digits; lia
    | | reflexivity | reflexivity].
  eapply first_Cat; [apply first_hour12; lia | | reflexivity | reflexivity].
  eapply first_Cat; [apply first_lit | | reflexivity | reflexivity].
  eapply first_Cat; [apply first_minute; lia | | reflexivity | reflexivity].
  eapply first_Cat; [apply first_lit | | reflexivity | reflexivity].
  eapply first_Cat; [apply first_second; lia | | reflexivity | reflexivity].
  eapply first_Cat;
    [ apply first_blank_meridiem
    | | reflexivity | reflexivity].
  eapply first_Cat; [apply first_meridiem | apply first_Eps | reflexivity | reflexivity].
Qed.

(** A naive [datetime] written as "MM/DD/YYYY hh:mm:ss AM/PM" is read back by
    [strptime] under the analyzer's format. *)
Lemma strptime_custom_text (dt : datetime) :
  tzinfo dt = None ->
  valid_date (year dt) (month dt) (day dt) = true ->
  valid_time (hour dt) (minute dt) (second dt) = true ->
  strptime (PStr (custom_text dt)) custom_format = inr dt.
Proof.
  destruct dt as [y m d h mi s z]; cbn [year month day hour minute second tzinfo].
  intros -> Hd Ht.
  destruct (first_match_custom_text y m d h mi s Hd Ht) as (t & l & Hl).
  pose proof (valid_date_bounds _ _ _ Hd) as (Hy & Hm & Hday).
  pose proof (valid_time_bounds _ _ _ Ht) as (Hh & Hmi & Hs).
  unfold strptime. rewrite pattern_custom_format.
  unfold re_match. rewrite Hl.
  change (negb (String.eqb "" "")) with false; cbv iota.
  rewrite hour_of_custom by exact Hh.
  unfold group_int; cbn [found Ascii.eqb Bool.eqb].
  rewrite !int_of_two_digits by lia.
  rewrite int_of_four_digits by lia.
  rewrite Hd, Ht. reflexivity.
Qed.

(** The fallback parser on such a text: the date and time written. *)
Lemma try_parse_custom_date_custom_text (dt : datetime) :
  tzinfo dt = None ->
  valid_date (year dt) (month dt) (day dt) = true ->
  valid_time (hour dt) (minute dt) (second dt) = true ->
  try_parse_custom_date (PStr (custom_text dt)) = PDatetime dt.
Proof.
  intros Hz Hd Ht. unfold try_parse_custom_date.
  now rewrite strptime_custom_text.
Qed.

(** The text of a real date and time is ASCII. *)
Lemma is_ascii_app (s t : string) :
  is_ascii (s ++ t) = is_ascii s && is_ascii t.
Proof.
  induction s as [|c s IH]; cbn [String.append is_ascii]; [reflexivity|].
  now rewrite IH, andb_assoc.
Qed.

Lemma digit_char_is_ascii :
  forall a, 0 <= a < 10 -> (code (digit_char a) <? 128)%N = true.
Proof. each_case zrange_cover ltac:(reflexivity). Qed.

Lemma two_digits_is_ascii (n : Z) : 0 <= n < 100 -> is_ascii (two_digits n) = true.
Proof.
  intros Hn. unfold two_digits. cbn [is_ascii].
  rewrite !digit_char_is_ascii; [reflexivity| |].
  - apply Z.mod_pos_bound; lia.
  - split; [apply Z.div_pos | apply Z.div_lt_upper_bound]; lia.
Qed.

Lemma four_digits_is_ascii (y : Z) : 0 <= y < 10000 -> is_ascii (four_digits y) = true.
Proof.
  intros Hy. destruct (four_digits_bounds y Hy) as (H1 & H2 & _).
  unfold four_digits. cbn [is_ascii].
  rewrite !digit_char_is_ascii by assumption.
  apply two_digits_is_ascii. apply Z.mod_pos_bound; lia.
Qed.

Lemma custom_text_is_ascii (dt : datetime) :
  tzinfo dt = None ->
  valid_date (year dt) (month dt) (day dt) = true ->
  valid_time (hour dt) (minute dt) (second dt) = true ->
  is_ascii (custom_text dt) = true.
Proof.
  intros _ Hd Ht.
  apply valid_date_bounds in Hd. apply valid_time_bounds in Ht.
  pose proof (hour12_bounds (hour dt) ltac:(lia)) as Hh.
  unfold custom_text. rewrite !is_ascii_app.
  rewrite !two_digits_is_ascii, four_digits_is_ascii by lia.
  unfold meridiem. now destruct (hour dt <? 12).
Qed.

(** What [strptime] returns under the analyzer's format was read from a
    string that the regular expression of the format matches to its end, and
    is made of the groups of that match. *)
Lemma strptime_custom_format (o : pyobj) (dt : datetime) :
  strptime o custom_format = inr dt ->
  exists s g t,
    o = PStr s
    /\ re_match custom_regex s = Some (g, t, "")
    /\ dt = mkdatetime (group_int g "Y" 1900) (group_int g "m" 1)
                       (group_int g "d" 1) (hour_of g)
                       (group_int g "M" 0) (group_int g "S" 0) None.
Proof.
  unfold strptime. destruct o as [s| | | | |]; try discriminate.
  rewrite pattern_custom_format.
  destruct (re_match custom_regex s) as [[[g t] rest]|] eqn:Em; [|discriminate].
  destruct (String.eqb rest "") eqn:Er; cbn [negb]; [|discriminate].
  apply String.eqb_eq in Er; subst rest.
  destruct (negb (valid_date _ _ _)); [discriminate|].
  destruct (negb (valid_time _ _ _)); [discriminate|].
  intros E; inversion E. exists s, g, t.
  split; [reflexivity|]. split; [exact Em | reflexivity].
Qed.

(** A string the format does not match to its end is not read. *)
Lemma strptime_no_match (s : string) :
  (forall g t, re_match custom_regex s <> Some (g, t, "")) ->
  exists msg, strptime (PStr s) custom_format = inl (Exn ValueError msg).
Proof.
  intros Hno. unfold strptime. rewrite pattern_custom_format.
  destruct (re_match custom_regex s) as [[[g t] rest]|] eqn:Em; [|eauto].
  destruct (String.eqb rest "") eqn:Er; cbn [negb]; [|eauto].
  apply String.eqb_eq in Er; subst rest. now elim (Hno g t).
Qed.

(** C10.  [try_parse_custom_date] gives a value on every argument: a naive
    [datetime] that holds a real date and a real time of day, or NaT when
    [strptime] raised.  On an ASCII string it gives a [datetime] only when the
    format "%m/%d/%Y %I:%M:%S %p" matches the string to its end, and then the
    date and time read from the groups of the match; every naive date and
    time written "MM/DD/YYYY hh:mm:ss AM/PM" is read back as itself.
    Whatever is not a string makes [strptime] raise a [TypeError], an ASCII
    string the format does not match a [ValueError], and both come out as
    NaT: so do an ISO date, 30 February and NaT itself. *)
Theorem try_parse_custom_date_total :
  (forall date_str : pyobj,
      (exists dt,
          try_parse_custom_date date_str = PDatetime dt
          /\ tzinfo dt = None
          /\ valid_date (year dt) (month dt) (day dt) = true
          /\ valid_time (hour dt) (minute dt) (second dt) = true)
      \/ ((exists e, strptime date_str custom_format = inl e)
          /\ try_parse_custom_date date_str = PNaT))
  /\ (forall (s : string) (dt : datetime),
        is_ascii s = true ->
        try_parse_custom_date (PStr s) = PDatetime dt ->
        exists g t,
          re_match custom_regex s = Some (g, t, "")
          /\ dt = mkdatetime (group_int g "Y" 1900) (group_int g "m" 1)
                             (group_int g "d" 1) (hour_of g)
                             (group_int g "M" 0) (group_int g "S" 0) None)
  /\ (forall dt : datetime,
        tzinfo dt = None ->
        valid_date (year dt) (month dt) (day dt) = true ->
        valid_time (hour dt) (minute dt) (second dt) = true ->
        is_ascii (custom_text dt) = true
        /\ try_parse_custom_date (PStr (custom_text dt)) = PDatetime dt)
  /\ (forall o : pyobj,
        (forall s, o <> PStr s) ->
        (exists msg, strptime o custom_format = inl (Exn TypeError msg))
        /\ try_parse_custom_date o = PNaT)
  /\ (forall s : string,
        is_ascii s = true ->
        (forall g t, re_match custom_regex s <> Some (g, t, "")) ->
        (exists msg, strptime (PStr s) custom_format = inl (Exn ValueError msg))
        /\ try_parse_custom_date (PStr s) = PNaT)
  /\ try_parse_custom_date (PStr "2020-06-05 10:30:54") = PNaT
  /\ try_parse_custom_date (PStr "02/30/2021 09:30:00 AM") = PNaT
  /\ try_parse_custom_date (PStr "01/15/2021 09:30:00 AM and more") = PNaT
  /\ try_parse_custom_date PNaT = PNaT.
Proof.
  split; [|split; [|split; [|split; [|split]]]].
  - intros date_str. unfold try_parse_custom_date.
    destruct (strptime date_str custom_format) as [e|dt] eqn:E.
    + right; split; [exists e|]; reflexivity.
    + left. pose proof (strptime_valid _ _ _ E) as [Hd Ht].
      exists dt. repeat split; try assumption.
      exact (strptime_naive _ _ _ E).
  - intros s dt _. unfold try_parse_custom_date.
    destruct (strptime (PStr s) custom_format) as [e|dt'] eqn:E; [discriminate|].
    intros H; inversion H; subst dt'.
    destruct (strptime_custom_format _ _ E) as (s' & g & t & Es & Hm & Hdt).
    inversion Es; subst s'. exists g, t. split; assumption.
  - intros dt Hz Hd Ht. split; [now apply custom_text_is_ascii|].
    now apply try_parse_custom_date_custom_text.
  - intros o Hns. destruct (strptime_wants_str o custom_format Hns) as (msg & E).
    split; [exists msg; exact E|]. unfold try_parse_custom_date. now rewrite E.
  - intros s _ Hno. destruct (strptime_no_match s Hno) as (msg & E).
    split; [exists msg; exact E|]. unfold try_parse_custom_date. now rewrite E.
  - repeat split; vm_compute; reflexivity.
Qed.

(** ** Cleaning a text that needs none *)

Lemma ends_visible_not_all_space (s : string) :
  ends_visible s = true -> all_space s = false.
Proof.
  induction s as [|c s IH]; [discriminate|].
  destruct s as [|c' s'].
  - cbn. intros H. apply negb_true_iff in H. now rewrite H.
  - intros H. change (all_space (String c (String c' s')))
      with (is_space c && all_space (String c' s')).
    rewrite IH by exact H. apply andb_false_r.
Qed.

Lemma rstrip_visible (s : string) : ends_visible s = true -> rstrip s = s.
Proof.
  induction s as [|c s IH]; [discriminate|].
  intros H. cbn [rstrip]. rewrite (ends_visible_not_all_space _ H).
  destruct s as [|c' s']; [reflexivity|].
  f_equal. apply IH. exact H.
Qed.

Lemma lstrip_visible (c : ascii) (s : string) :
  is_space c = false -> lstrip (String c s) = String c s.
Proof. intros H. cbn. now rewrite H. Qed.

Lemma collapse_from_single (s : string) :
  no_double_blank s = true ->
  collapse_from None false s = s
  /\ forall c, match s with String a _ => is_space a = false | _ => True end ->
               collapse_from (Some c) false s = String c s.
Proof.
  induction s as [|a s IH]; intros Hn; [split; intros; reflexivity|].
  assert (Hs : no_double_blank s = true
               /\ (is_space a = true ->
                   match s with String b _ => is_space b = false | _ => True end)).
  { destruct s as [|b s]; [split; auto|].
    change (no_double_blank (String a (String b s)))
      with (negb (is_space a && is_space b) && no_double_blank (String b s)) in Hn.
    apply andb_true_iff in Hn as [H1 H2]. split; [exact H2|].
    intros Ha. rewrite Ha in H1. cbn in H1. now apply negb_true_iff in H1. }
  destruct Hs as [Hs Hnext]. destruct (IH Hs) as [IH1 IH2].
  split.
  - cbn [collapse_from]. destruct (is_space a) eqn:Ea.
    + apply IH2. now apply Hnext.
    + now rewrite IH1.
  - intros c Hc. cbn [collapse_from]. rewrite Hc. now rewrite IH1.
Qed.

Lemma clean_date_visible (c : ascii) (s : string) :
  is_space c = false -> ends_visible (String c s) = true ->
  no_double_blank (String c s) = true ->
  clean_date (CText (String c s)) = String c s.
Proof.
  intros Hc He Hn. unfold clean_date, strip, collapse_blanks. cbn [astype_str].
  rewrite (lstrip_visible c s Hc), (rstrip_visible _ He).
  now apply collapse_from_single.
Qed.

Lemma two_digit_chars (n : Z) :
  0 <= n < 100 ->
  is_space (digit_char (n / 10)) = false
  /\ is_space (digit_char (n mod 10)) = false.
Proof.
  intros Hn. split; apply digit_char_facts.
  - split; [apply Z.div_pos | apply Z.div_lt_upper_bound]; lia.
  - apply Z.mod_pos_bound; lia.
Qed.

(** Cleaning leaves a text in the fallback format as it is. *)
Lemma clean_date_custom_text (dt : datetime) :
  valid_date (year dt) (month dt) (day dt) = true ->
  valid_time (hour dt) (minute dt) (second dt) = true ->
  clean_date (CText (custom_text dt)) = custom_text dt.
Proof.
  destruct dt as [y m d h mi s z]; cbn [year month day hour minute second].
  intros Hd Ht.
  apply valid_date_bounds in Hd as (Hy & Hm & Hday).
  apply valid_time_bounds in Ht as (Hh & Hmi & Hs).
  pose proof (hour12_bounds h Hh) as H12.
  destruct (four_digits_bounds y ltac:(lia)) as (Ya & Yb & Yc & Yd).
  destruct (digit_char_facts _ Ya) as (_ & Sa & _).
  destruct (digit_char_facts _ Yb) as (_ & Sb & _).
  destruct (digit_char_facts _ Yc) as (_ & Sc & _).
  destruct (digit_char_facts _ Yd) as (_ & Sd & _).
  destruct (two_digit_chars m ltac:(lia)) as [M1 M2].
  destruct (two_digit_chars d ltac:(lia)) as [D1 D2].
  destruct (two_digit_chars (hour12 h) ltac:(lia)) as [I1 I2].
  destruct (two_digit_chars mi ltac:(lia)) as [N1 N2].
  destruct (two_digit_chars s ltac:(lia)) as [X1 X2].
  unfold custom_text, four_digits, two_digits, meridiem.
  cbn [year month day hour minute second String.append].
  apply clean_date_visible; [exact M1 | |].
  - destruct (h <? 12); reflexivity.
  - destruct (h <? 12); cbn [no_double_blank String.append];
      rewrite M1, M2, D1, D2, Sa, Sb, Sc, Sd, I1, I2, N1, N2, X1, X2; reflexivity.
Qed.

(* ================================================================== *)
(** * Date normalization in [load_data] *)
(* ================================================================== *)

Lemma to_cell_naive (o : pyobj) :
  naive_or_NaT o -> exists t, to_cell None o = inr t.
Proof.
  intros [-> | (dt & -> & Hz)]; cbn; [eauto|].
  rewrite Hz; eauto.
Qed.

(** A naive column takes every naive value: the cells the mask picks take the
    values in their order, the others stay. *)
Lemma loc_assign_naive (col : list timestamp) :
  forall (mask : list bool) (values : list pyobj),
    Forall naive_or_NaT values ->
    exists col',
      loc_assign None col mask values = inr col'
      /\ List.length col' = List.length col
      /\ (forall i, nth_error mask i = Some false ->
                    nth_error col' i = nth_error col i)
      /\ (forall i dt,
            (i < List.length col)%nat ->
            nth_error mask i = Some true ->
            nth_error values (picked_before mask i) = Some (PDatetime dt) ->
            nth_error col' i = Some (Some (wall_ns dt))).
Proof.
  induction col as [|t col IH]; intros mask values Hv.
  - exists []. destruct mask; cbn [loc_assign]; repeat split; auto;
      intros i dt Hi; cbn in Hi; lia.
  - destruct mask as [|[|] mask]; cbn [loc_assign].
    + eexists; split; [reflexivity|]. split; [reflexivity|].
      split; intros i; destruct i; discriminate.
    + destruct values as [|v values].
      * eexists; split; [reflexivity|]. split; [reflexivity|]. split.
        -- intros [|i] Hi; [discriminate | reflexivity].
        -- intros i dt _ _ Hn. destruct (picked_before _ _); discriminate.
      * inversion Hv as [|? ? Hv1 Hv2]; subst.
        destruct (to_cell_naive v Hv1) as [t' Et]. rewrite Et.
        destruct (IH mask values Hv2) as (col' & -> & Hl & Hf & Ht).
        eexists; split; [reflexivity|]. split; [cbn; congruence|]. split.
        -- intros [|i] Hi; [discriminate|]. cbn. now apply Hf.
        -- intros [|i] dt Hi Hm Hn.
           ++ cbn in Hn. injection Hn as ->.
              destruct Hv1 as [Hx | (dt' & Hx & Hz)]; [discriminate|].
              injection Hx as <-. cbn in Et. rewrite Hz in Et. now inversion Et.
           ++ cbn in Hi, Hm, Hn |- *. apply Ht; [lia | exact Hm | exact Hn].
    + destruct (IH mask values Hv) as (col' & -> & Hl & Hf & Ht).
      eexists; split; [reflexivity|]. split; [cbn; congruence|]. split.
      * intros [|i] Hi; [reflexivity|]. cbn. now apply Hf.
      * intros [|i] dt Hi Hm Hn; [discriminate|].
        cbn in Hi, Hm, Hn |- *. apply Ht; [lia | exact Hm | exact Hn].
Qed.

Lemma existsb_mask (dates : list timestamp) :
  existsb (fun b : bool => b) (map isna dates) = existsb isna dates.
Proof.
  induction dates as [|t l IH]; cbn; [reflexivity | now rewrite IH].
Qed.

(** What the fallback parser is given at line 54 is never a string: the cell
    it reads was overwritten at line 47 and holds NaT.  So every value it
    returns is NaT, and storing them changes no cell. *)
Lemma loc_assign_all_NaT (z : tz) (dates : list timestamp) :
  loc_assign None (map (tz_localize_None z) dates) (map isna dates)
    (map (fun t => try_parse_custom_date (cell_object z t)) (filter isna dates))
  = inr (map (tz_localize_None z) dates).
Proof.
  induction dates as [|[ns|] dates IH]; cbn [map filter isna loc_assign].
  - reflexivity.
  - now rewrite IH.
  - change (try_parse_custom_date (cell_object z None)) with PNaT.
    cbn [to_cell]. now rewrite IH.
Qed.

(** Lines 49-64 on a datetime column and on an object column. *)
Lemma reparse_invalid_eq (object : bool) (z : tz) (dates : list timestamp) :
  reparse_invalid object z dates
  = if existsb isna dates then
      if object
      then inl (Exn AttributeError "Can only use .dt accessor with datetimelike values")
      else inr (None, map (tz_localize_None z) dates)
    else inr (z, dates).
Proof.
  unfold reparse_invalid. rewrite existsb_mask.
  destruct (existsb isna dates); [|reflexivity].
  destruct object; cbn [dt_accessor]; [reflexivity|].
  now rewrite loc_assign_all_NaT.
Qed.

Lemma tz_localize_None_NaT (z : tz) (t : timestamp) :
  isna (tz_localize_None z t) = isna t.
Proof. now destruct t. Qed.

Lemma parse_column_length {F : Type} (X : Externals F) (cells : list csv_cell) :
  List.length (snd (parse_column X cells)) = List.length cells.
Proof.
  unfold parse_column. destruct (to_datetime X cells) as [z parse].
  cbn. apply length_map.
Qed.

Lemma parse_column_nth {F : Type} (X : Externals F) (cells : list csv_cell)
                       (i : nat) (c : csv_cell) :
  nth_error cells i = Some c ->
  nth_error (snd (parse_column X cells)) i = Some (snd (to_datetime X cells) c).
Proof.
  intros Hi. unfold parse_column. destruct (to_datetime X cells) as [z parse].
  cbn [snd]. now rewrite nth_error_map, Hi.
Qed.

(** Lines 41-64: what becomes of the column. *)
Lemma news_dates_eq {F : Type} (X : Externals F) (cells : list csv_cell) :
  let cleaned := map (fun c => CText (clean_date c)) cells in
  let primary := parse_column X cleaned in
  news_dates X cells
  = if existsb isna (snd primary) then
      if mixed_offsets X cleaned
      then inl (Exn AttributeError "Can only use .dt accessor with datetimelike values")
      else inr (None, map (tz_localize_None (fst primary)) (snd primary))
    else inr primary.
Proof.
  cbv zeta. unfold news_dates.
  destruct (parse_column X _) as [z dates]. cbn [fst snd].
  apply reparse_invalid_eq.
Qed.

(** A cell the general-purpose parse left NaT is NaT when [load_data] is done
    with the column, whatever its text; and the column is done with unless it
    is an object column, on which line 61 raises. *)
Lemma news_dates_keeps_NaT {F : Type} (X : Externals F) (cells : list csv_cell) :
  let cleaned := map (fun c => CText (clean_date c)) cells in
  (exists z dates,
      news_dates X cells = inr (z, dates)
      /\ List.length dates = List.length cells
      /\ forall i c,
           nth_error cells i = Some c ->
           snd (to_datetime X cleaned) (CText (clean_date c)) = NaT ->
           nth_error dates i = Some NaT)
  \/ (mixed_offsets X cleaned = true
      /\ existsb isna (snd (parse_column X cleaned)) = true
      /\ news_dates X cells
         = inl (Exn AttributeError "Can only use .dt accessor with datetimelike values")).
Proof.
  cbv zeta. rewrite news_dates_eq.
  set (cleaned := map (fun c => CText (clean_date c)) cells).
  assert (Hp : forall i c, nth_error cells i = Some c ->
                 nth_error (snd (parse_column X cleaned)) i
                 = Some (snd (to_datetime X cleaned) (CText (clean_date c)))).
  { intros i c Hi. apply parse_column_nth. unfold cleaned.
    now rewrite nth_error_map, Hi. }
  assert (Hlen : List.length (snd (parse_column X cleaned)) = List.length cells)
    by (rewrite parse_column_length; unfold cleaned; apply length_map).
  destruct (existsb isna (snd (parse_column X cleaned))) eqn:Ex.
  - destruct (mixed_offsets X cleaned) eqn:Em; [right; auto|].
    left. do 2 eexists. split; [reflexivity|]. split; [now rewrite length_map|].
    intros i c Hi Hn. rewrite nth_error_map, (Hp i c Hi), Hn. reflexivity.
  - left. destruct (parse_column X cleaned) as [z dates] eqn:Ep. cbn [snd] in *.
    exists z, dates. split; [reflexivity|]. split; [exact Hlen|].
    intros i c Hi Hn. now rewrite (Hp i c Hi), Hn.
Qed.

(** C1 (the code departs from it).  The fallback parser itself reads a text
    "MM/DD/YYYY hh:mm:ss AM/PM" as the date and time written, but [load_data]
    never hands it the text: for every general-purpose parser and every
    column, a record whose date that parser left NaT still has NaT when
    [load_data] is done with the column, unless the column is an object
    column, on which [load_data] raises and no record gets a date.  On the
    sample file the second AAPL record, dated "01/15/2021 09:30:00 AM", is
    counted as unparsed. *)
Theorem load_data_loses_fallback_dates :
  (forall (F : Type) (X : Externals F) (cells : list csv_cell),
      let cleaned := map (fun c => CText (clean_date c)) cells in
      ((exists z dates,
           news_dates X cells = inr (z, dates)
           /\ forall i c,
                nth_error cells i = Some c ->
                snd (to_datetime X cleaned) (CText (clean_date c)) = NaT ->
                nth_error dates i = Some NaT)
       \/ (mixed_offsets X cleaned = true
           /\ news_dates X cells
              = inl (Exn AttributeError
                       "Can only use .dt accessor with datetimelike values")))
      /\ forall c dt,
           tzinfo dt = None ->
           valid_date (year dt) (month dt) (day dt) = true ->
           valid_time (hour dt) (minute dt) (second dt) = true ->
           c = CText (custom_text dt) ->
           try_parse_custom_date (PStr (clean_date c)) = PDatetime dt)
  /\ (let X := desk (inr fallback_news) (inr one_bar) stable_argsort in
      let run := load_data X fresh in
      snd run = inr tt
      /\ snd (fst run)
         = ["[Debug] Unparsed news dates after fallback parsing: 1"]
      /\ news_dates_of (fst (fst run)) = [at_time 2020 6 5 10 30 54; NaT]
      /\ iso_cell (CText (clean_date (CText "01/15/2021 09:30:00 AM"))) = NaT
      /\ "01/15/2021 09:30:00 AM"
         = custom_text (mkdatetime 2021 1 15 9 30 0 None)
      /\ try_parse_custom_date (PStr (clean_date (CText "01/15/2021 09:30:00 AM")))
         = PDatetime (mkdatetime 2021 1 15 9 30 0 None)).
Proof.
  split.
  - intros F X cells. cbv zeta. split.
    + destruct (news_dates_keeps_NaT X cells)
        as [(z & dates & E & _ & H) | (Hm & _ & E)].
      * left. exists z, dates. split; assumption.
      * right. split; assumption.
    + intros c dt Hz Hd Ht ->. rewrite clean_date_custom_text by assumption.
      now apply try_parse_custom_date_custom_text.
  - vm_compute. repeat split; reflexivity.
Qed.

(** C2 (the code departs from it).  When the general-purpose parse gives a
    datetime column, naive or of one zone, lines 49-64 return: if a cell is
    left to the fallback, the column is first made naive, its wall clock
    kept, and a naive column takes every value the fallback parser can
    produce (naive datetimes, stored where the mask says, and NaT).  When
    the parse finds
    cells of different UTC offsets and gives an object column, the stripping
    of line 61 raises an [AttributeError] as soon as one cell is NaT, and
    [load_data] prints it and raises it: so on the sample news dated
    "...-04:00", "...-05:00" and "01/15/2021 09:30:00 AM", whereas the same
    file with one offset loads, its dates naive. *)
Theorem load_data_reconciles_datetime_columns_only :
  (forall (F : Type) (X : Externals F) (cells : list csv_cell),
      let cleaned := map (fun c => CText (clean_date c)) cells in
      let primary := parse_column X cleaned in
      (mixed_offsets X cleaned = false ->
       exists z dates,
         news_dates X cells = inr (z, dates)
         /\ List.length dates = List.length cells
         /\ (existsb isna (snd primary) = true ->
             z = None
             /\ dates = map (tz_localize_None (fst primary)) (snd primary))
         /\ (existsb isna (snd primary) = false -> (z, dates) = primary))
      /\ (mixed_offsets X cleaned = true ->
          existsb isna (snd primary) = true ->
          news_dates X cells
          = inl (Exn AttributeError
                   "Can only use .dt accessor with datetimelike values")))
  /\ (forall (col : list timestamp) (mask : list bool) (values : list pyobj),
        Forall naive_or_NaT values ->
        exists col',
          loc_assign None col mask values = inr col'
          /\ List.length col' = List.length col
          /\ (forall i, nth_error mask i = Some false ->
                        nth_error col' i = nth_error col i)
          /\ (forall i dt,
                (i < List.length col)%nat ->
                nth_error mask i = Some true ->
                nth_error values (picked_before mask i) = Some (PDatetime dt) ->
                nth_error col' i = Some (Some (wall_ns dt))))
  /\ (forall o : pyobj, naive_or_NaT (try_parse_custom_date o))
  /\ (forall dt : datetime,
        tzinfo dt = None ->
        valid_date (year dt) (month dt) (day dt) = true ->
        valid_time (hour dt) (minute dt) (second dt) = true ->
        try_parse_custom_date (PStr (custom_text dt)) = PDatetime dt)
  /\ (let X := desk (inr two_offsets_news) (inr one_bar) stable_argsort in
      let cleaned := map (fun r => CText (clean_date (r_date r)))
                         (rn_rows two_offsets_news) in
      let run := load_data X fresh in
      parse_column X cleaned
      = (Some edt,
         [Some (wall_ns (mkdatetime 2020 6 5 10 30 54 None) - edt);
          Some (wall_ns (mkdatetime 2020 12 1 9 0 0 None) - est);
          NaT])
      /\ mixed_offsets X cleaned = true
      /\ snd run
         = inl (Exn AttributeError
                  "Can only use .dt accessor with datetimelike values")
      /\ snd (fst run)
         = ["[Error] Failed to load and process data: Can only use .dt accessor with datetimelike values"])
  /\ (let X := desk (inr zoned_fallback_news) (inr one_bar) stable_argsort in
      let cleaned := map (fun r => CText (clean_date (r_date r)))
                         (rn_rows zoned_fallback_news) in
      let run := load_data X fresh in
      parse_column X cleaned
      = (Some edt, [Some (wall_ns (mkdatetime 2020 6 5 10 30 54 None) - edt); NaT])
      /\ mixed_offsets X cleaned = false
      /\ snd run = inr tt
      /\ option_map n_tz (news_df (fst (fst run))) = Some None
      /\ news_dates_of (fst (fst run)) = [at_time 2020 6 5 10 30 54; NaT]).
Proof.
  split; [|split; [|split; [|split; [|split]]]].
  - intros F X cells. cbv zeta. rewrite news_dates_eq.
    set (cleaned := map (fun c => CText (clean_date c)) cells).
    assert (Hlen : List.length (snd (parse_column X cleaned)) = List.length cells)
      by (rewrite parse_column_length; unfold cleaned; apply length_map).
    split.
    + intros ->. destruct (existsb isna (snd (parse_column X cleaned))).
      * do 2 eexists. split; [reflexivity|]. split; [now rewrite length_map|].
        split; [auto | discriminate].
      * destruct (parse_column X cleaned) as [z dates]. cbn [fst snd] in *.
        exists z, dates. split; [reflexivity|]. split; [exact Hlen|].
        split; [discriminate | auto].
    + intros -> ->. reflexivity.
  - intros col mask values. apply loc_assign_naive.
  - apply try_parse_custom_date_naive_or_NaT.
  - apply try_parse_custom_date_custom_text.
  - vm_compute. repeat split; reflexivity.
  - vm_compute. repeat split; reflexivity.
Qed.

(* ================================================================== *)
(** * Aggregation and merge *)
(* ================================================================== *)

Lemma timestamp_eqb_eq (a b : timestamp) : timestamp_eqb a b = true <-> a = b.
Proof.
  destruct a as [x|], b as [y|]; cbn; try (split; congruence).
  rewrite Z.eqb_eq; split; congruence.
Qed.

Lemma insert_key_In (k x : Z) (keys : list Z) :
  In x (insert_key k keys) <-> x = k \/ In x keys.
Proof.
  induction keys as [|k' keys IH]; cbn.
  - intuition.
  - destruct (k <? k'); [cbn; intuition|].
    destruct (k =? k') eqn:E.
    + apply Z.eqb_eq in E; subst. cbn; intuition.
    + cbn. rewrite IH. intuition.
Qed.

Lemma group_keys_In (k : Z) (dates : list timestamp) :
  In k (group_keys dates) <-> In (Some k) dates.
Proof.
  induction dates as [|[x|] dates IH]; cbn.
  - tauto.
  - rewrite insert_key_In, IH. split; intros [H|H]; auto.
    + left; congruence.
    + left; congruence.
  - rewrite IH. split; [auto | intros [H|H]; [discriminate | auto]].
Qed.

(** The keys of the groups increase strictly: one group per key. *)
Lemma insert_key_sorted (k : Z) (keys : list Z) :
  StronglySorted Z.lt keys -> StronglySorted Z.lt (insert_key k keys).
Proof.
  induction keys as [|k' keys IH]; intros Hs; cbn.
  - repeat constructor.
  - inversion Hs as [|? ? Hs' Hall]; subst.
    destruct (k <? k') eqn:E1.
    + apply Z.ltb_lt in E1. constructor; [exact Hs|].
      constructor; [exact E1|].
      eapply Forall_impl; [|exact Hall]. intros; cbn in *; lia.
    + destruct (k =? k') eqn:E2; [exact Hs|].
      apply Z.ltb_ge in E1. apply Z.eqb_neq in E2.
      constructor; [auto|].
      apply Forall_forall; intros x Hx. apply insert_key_In in Hx as [->|Hx].
      * lia.
      * rewrite Forall_forall in Hall; auto.
Qed.

Lemma group_keys_sorted (dates : list timestamp) :
  StronglySorted Z.lt (group_keys dates).
Proof.
  induction dates as [|[x|] dates IH]; cbn; auto using insert_key_sorted.
  constructor.
Qed.

Lemma StronglySorted_lt_NoDup (l : list Z) : StronglySorted Z.lt l -> NoDup l.
Proof.
  induction 1 as [|x l Hs IH Hall]; constructor; auto.
  intros Hin. rewrite Forall_forall in Hall. specialize (Hall x Hin). lia.
Qed.

Section AggregationFacts.

Context {F : Type} {num : Number F}.

(** The frame [groupby("date")["sentiment"].mean()] returns: one row per
    timestamp that occurs in the "date" column, none for NaT, in increasing
    order, each with the mean over the records that carry exactly that
    timestamp. *)
Lemma groupby_date_mean_keys (rows : list (NewsRow F)) :
  map d_date (groupby_date_mean rows) = map Some (group_keys (map n_date rows)).
Proof. unfold groupby_date_mean. now rewrite map_map. Qed.

Lemma groupby_date_mean_In (rows : list (NewsRow F)) (d : timestamp) :
  In d (map d_date (groupby_date_mean rows))
  <-> d <> NaT /\ In d (map n_date rows).
Proof.
  rewrite groupby_date_mean_keys. split.
  - intros Hin. apply in_map_iff in Hin as (k & <- & Hk).
    apply group_keys_In in Hk. split; [unfold NaT; discriminate|auto].
  - intros [Hd Hin]. destruct d as [k|]; [|now elim Hd].
    apply in_map_iff. exists k; split; [reflexivity | now apply group_keys_In].
Qed.

Lemma groupby_date_mean_NoDup (rows : list (NewsRow F)) :
  NoDup (map d_date (groupby_date_mean rows)).
Proof.
  rewrite groupby_date_mean_keys.
  apply Finite.Injective_map_NoDup; [intros a b; congruence|].
  apply StronglySorted_lt_NoDup, group_keys_sorted.
Qed.

Lemma groupby_date_mean_row (rows : list (NewsRow F)) (r : DailyRow F) :
  In r (groupby_date_mean rows) ->
  exists k, d_date r = Some k
            /\ In (Some k) (map n_date rows)
            /\ d_sentiment r
               = mean (map n_sentiment
                         (filter (fun n => timestamp_eqb (n_date n) (Some k)) rows)).
Proof.
  unfold groupby_date_mean. intros Hin.
  apply in_map_iff in Hin as (k & <- & Hk).
  exists k; cbn. repeat split. now apply group_keys_In.
Qed.

Lemma inner_join_In (left : list (DailyRow F)) (right : list (StockRow F))
                    (m : MergedRow F) :
  In m (inner_join left right)
  <-> exists l r, In l left /\ In r right /\ s_date r = d_date l
                  /\ m = mkMergedRow (d_date l) (d_sentiment l) (s_daily_return r).
Proof.
  unfold inner_join. rewrite in_flat_map. split.
  - intros (l & Hl & Hm). apply in_map_iff in Hm as (r & <- & Hr).
    apply filter_In in Hr as [Hr He]. apply timestamp_eqb_eq in He.
    exists l, r; auto.
  - intros (l & r & Hl & Hr & He & ->).
    exists l; split; [exact Hl|]. apply in_map_iff.
    exists r; split; [reflexivity|]. apply filter_In; split; [exact Hr|].
    now apply timestamp_eqb_eq.
Qed.


Lemma inner_join_nil_r (left : list (DailyRow F)) : inner_join left [] = [].
Proof.
  unfold inner_join. induction left as [|l left IH]; [reflexivity|].
  cbn. exact IH.
Qed.

Lemma tables_frames (self : Analyzer F) :
  tables self = true ->
  exists news stock,
    news_df self = Some news /\ stock_df self = Some stock
    /\ has_column (n_columns news) "date" = true
    /\ has_column (n_columns news) "sentiment" = true
    /\ has_column (s_columns stock) "date" = true
    /\ has_column (s_columns stock) "daily_return" = true
    /\ n_object news = false /\ s_object stock = false.
Proof.
  unfold tables. destruct (news_df self) as [news|]; [|discriminate].
  destruct (stock_df self) as [stock|]; [|discriminate].
  rewrite !andb_true_iff, !negb_true_iff. intros (((((H1 & H2) & H3) & H4) & H5) & H6).
  exists news, stock. repeat split; assumption.
Qed.

(** [merge_data] on a state that holds both tables: it returns or raises as
    the join does, the price dates normalized in place in both cases. *)
Lemma merge_data_tables (self : Analyzer F) (news : NewsFrame F)
                        (stock : StockFrame F) :
  news_df self = Some news -> stock_df self = Some stock ->
  tables self = true ->
  merge_data self
  = match merge_on_date
            (normalize_daily (mkDailyFrame (n_tz news)
                                           (groupby_date_mean (n_rows news))))
            (normalize_stock stock) with
    | inr merged =>
        (set_merged_df (set_stock_df self (normalize_stock stock)) merged,
         [match merged with
          | [] => merge_warning
          | _ => merge_info (List.length merged)
          end],
         inr tt)
    | inl e =>
        (set_stock_df self (normalize_stock stock),
         ["[Error] Failed to merge sentiment and stock return data: " ++ exn_str e],
         inl e)
    end.
Proof.
  intros Hn Hs Ht.
  destruct (tables_frames self Ht)
    as (news0 & stock0 & Hn0 & Hs0 & H1 & H2 & H3 & H4 & H5 & H6).
  rewrite Hn in Hn0. rewrite Hs in Hs0.
  injection Hn0 as <-. injection Hs0 as <-.
  unfold merge_data, merge_data_body, aggregate_sentiment, aggregate_sentiment_body,
    guarded, try_except, print_and_reraise, bind, get, lift, ret, put, raise,
    print, attr_of, subscript, getitem, getitem_grouped, getitem_listed,
    news_object, dt_accessor, to_datetime_dates.
  rewrite Hn, H1, H2.
  cbn -[has_column groupby_date_mean merge_on_date normalize string_of_nat].
  rewrite Hs, H3, H6.
  cbn -[has_column groupby_date_mean merge_on_date normalize string_of_nat].
  rewrite Hn, H5.
  cbn -[has_column groupby_date_mean merge_on_date normalize string_of_nat].
  rewrite H4.
  cbn -[has_column groupby_date_mean merge_on_date normalize string_of_nat].
  destruct (merge_on_date _ _) as [e|merged]; [reflexivity|].
  destruct merged; reflexivity.
Qed.

Lemma merge_data_ready (self : Analyzer F) (news : NewsFrame F)
                       (stock : StockFrame F) :
  news_df self = Some news -> stock_df self = Some stock ->
  ready self = true ->
  merge_data self
  = (set_merged_df (set_stock_df self (normalize_stock stock))
                   (merged_of news stock),
     [match merged_of news stock with
      | [] => merge_warning
      | _ => merge_info (List.length (merged_of news stock))
      end],
     inr tt).
Proof.
  intros Hn Hs Hr. unfold ready in Hr. apply andb_true_iff in Hr as [Ht Hk].
  rewrite (merge_data_tables self news stock Hn Hs Ht).
  unfold one_kind in Hk. rewrite Hn, Hs in Hk.
  unfold merge_on_date.
  cbn [d_tz d_rows s_tz s_rows normalize_daily normalize_stock].
  rewrite Hk, orb_true_r. reflexivity.
Qed.

(** A naive and a zoned column, when both tables have rows or neither has:
    the join raises, and [merged_df] stays what it was. *)
Lemma merge_data_mixed_kinds (self : Analyzer F) (news : NewsFrame F)
                             (stock : StockFrame F) :
  news_df self = Some news -> stock_df self = Some stock ->
  tables self = true -> one_kind self = false ->
  is_empty (groupby_date_mean (n_rows news)) = is_empty (s_rows stock) ->
  exists msg,
    merge_data self
    = (set_stock_df self (normalize_stock stock),
       ["[Error] Failed to merge sentiment and stock return data: " ++ msg],
       inl (Exn ValueError msg)).
Proof.
  intros Hn Hs Ht Hk He.
  rewrite (merge_data_tables self news stock Hn Hs Ht).
  unfold one_kind in Hk. rewrite Hn, Hs in Hk.
  unfold merge_on_date.
  cbn [d_tz d_rows s_tz s_rows normalize_daily normalize_stock].
  rewrite Hk, orb_false_r.
  assert (E : xorb (is_empty (map (fun r => mkDailyRow (normalize (n_tz news) (d_date r))
                                                       (d_sentiment r))
                                  (groupby_date_mean (n_rows news))))
                   (is_empty (map (fun r => mkStockRow (normalize (s_tz stock) (s_date r))
                                                       (s_close r) (s_daily_return r))
                                  (s_rows stock)))
              = false).
  { destruct (groupby_date_mean (n_rows news)), (s_rows stock);
      cbn in He |- *; congruence. }
  rewrite E. eexists. reflexivity.
Qed.

(** Exactly one table without a row: the join does not look at the kinds and
    is empty. *)
Lemma merge_data_one_empty (self : Analyzer F) (news : NewsFrame F)
                           (stock : StockFrame F) :
  news_df self = Some news -> stock_df self = Some stock ->
  tables self = true ->
  xorb (is_empty (groupby_date_mean (n_rows news))) (is_empty (s_rows stock)) = true ->
  merge_data self
  = (set_merged_df (set_stock_df self (normalize_stock stock)) [],
     [merge_warning], inr tt).
Proof.
  intros Hn Hs Ht He.
  rewrite (merge_data_tables self news stock Hn Hs Ht).
  unfold merge_on_date.
  cbn [d_tz d_rows s_tz s_rows normalize_daily normalize_stock].
  destruct (groupby_date_mean (n_rows news)) as [|l left] eqn:El,
           (s_rows stock) as [|r right] eqn:Er; cbn in He; try discriminate.
  - reflexivity.
  - cbn [map is_empty xorb orb]. now rewrite inner_join_nil_r.
Qed.

End AggregationFacts.

Section MergeFacts.

Context {F : Type} {num : Number F}.

Lemma sentiment_dates_eq (self : Analyzer F) (news : NewsFrame F) :
  news_df self = Some news ->
  sentiment_dates self
  = map d_date (d_rows (normalize_daily
                          (mkDailyFrame (n_tz news)
                                        (groupby_date_mean (n_rows news))))).
Proof.
  intros Hn. unfold sentiment_dates. rewrite Hn. cbn. now rewrite map_map.
Qed.

Lemma return_dates_eq (self : Analyzer F) (stock : StockFrame F) :
  stock_df self = Some stock ->
  return_dates self = map s_date (s_rows (normalize_stock stock)).
Proof.
  intros Hs. unfold return_dates. rewrite Hs. cbn. now rewrite map_map.
Qed.

Lemma ready_frames (self : Analyzer F) :
  ready self = true ->
  exists news stock, news_df self = Some news /\ stock_df self = Some stock.
Proof.
  unfold ready, tables. destruct (news_df self) as [news|]; [|discriminate].
  destruct (stock_df self) as [stock|]; [|discriminate]. eauto.
Qed.


End MergeFacts.








(* ================================================================== *)
(** * Counting the merged records *)
(* ================================================================== *)

Section CountFacts.

Context {F : Type} {num : Number F}.

Lemma matching_rows_le_1 (d : timestamp) (right : list (StockRow F)) :
  NoDup (map s_date right) ->
  (List.length (filter (fun r => timestamp_eqb (s_date r) d) right) <= 1)%nat.
Proof.
  induction right as [|r right IH]; cbn; intros Hnd; [lia|].
  inversion Hnd as [|? ? Hnotin Hnd']; subst.
  destruct (timestamp_eqb (s_date r) d) eqn:E; [|auto].
  apply timestamp_eqb_eq in E. cbn.
  assert (Hnone : filter (fun r0 => timestamp_eqb (s_date r0) d) right = []).
  { destruct (filter _ right) as [|x l] eqn:Ef; [reflexivity|].
    exfalso. assert (Hx : In x (filter (fun r0 => timestamp_eqb (s_date r0) d) right))
      by (rewrite Ef; now left).
    apply filter_In in Hx as [Hx Hxd]. apply timestamp_eqb_eq in Hxd.
    apply Hnotin. rewrite E, <- Hxd. now apply in_map. }
  rewrite Hnone. cbn. lia.
Qed.

Lemma inner_join_length_left (left : list (DailyRow F)) (right : list (StockRow F)) :
  NoDup (map s_date right) ->
  (List.length (inner_join left right) <= List.length left)%nat.
Proof.
  intros Hnd. unfold inner_join.
  induction left as [|l left IH]; cbn [flat_map List.length]; [lia|].
  rewrite length_app, length_map.
  pose proof (matching_rows_le_1 (d_date l) right Hnd). lia.
Qed.

Lemma matching_rows_without (d d' : timestamp) (right : list (StockRow F)) :
  d' <> d ->
  filter (fun r => timestamp_eqb (s_date r) d') right
  = filter (fun r => timestamp_eqb (s_date r) d')
      (filter (fun r => negb (timestamp_eqb (s_date r) d)) right).
Proof.
  intros Hne. induction right as [|r right IHr]; cbn; [reflexivity|].
  destruct (timestamp_eqb (s_date r) d') eqn:E1;
    destruct (timestamp_eqb (s_date r) d) eqn:E2; cbn; rewrite ?E1; cbn;
    rewrite <- ?IHr; try reflexivity.
  apply timestamp_eqb_eq in E1, E2. congruence.
Qed.

Lemma inner_join_without (d : timestamp) (left : list (DailyRow F))
                         (right : list (StockRow F)) :
  ~ In d (map d_date left) ->
  inner_join left right
  = inner_join left
      (filter (fun r => negb (timestamp_eqb (s_date r) d)) right).
Proof.
  induction left as [|l left IH]; intros Hnot; [reflexivity|].
  change (inner_join (l :: left) ?R)
    with (map (fun r => mkMergedRow (d_date l) (d_sentiment l) (s_daily_return r))
              (filter (fun r => timestamp_eqb (s_date r) (d_date l)) R)
          ++ inner_join left R)%list.
  cbn [map In] in Hnot.
  rewrite IH by tauto.
  rewrite <- (matching_rows_without d (d_date l) right) by tauto.
  reflexivity.
Qed.

Lemma inner_join_length_right (left : list (DailyRow F)) :
  NoDup (map d_date left) ->
  forall right : list (StockRow F),
    (List.length (inner_join left right) <= List.length right)%nat.
Proof.
  induction left as [|l left IH]; intros Hnd right; [cbn; lia|].
  cbn [map] in Hnd. inversion Hnd as [|? ? Hnotin Hnd']; subst.
  change (inner_join (l :: left) right)
    with (map (fun r => mkMergedRow (d_date l) (d_sentiment l) (s_daily_return r))
              (filter (fun r => timestamp_eqb (s_date r) (d_date l)) right)
          ++ inner_join left right)%list.
  rewrite length_app, length_map.
  rewrite (inner_join_without (d_date l) left right Hnotin).
  specialize (IH Hnd' (filter (fun r => negb (timestamp_eqb (s_date r) (d_date l))) right)).
  pose proof (filter_length (fun r => timestamp_eqb (s_date r) (d_date l)) right).
  lia.
Qed.

(** The count the post-condition promises holds when no two rows of the
    DailySentiment table fall on one calendar date and no two bars do. *)
Lemma merge_data_count_bound (self : Analyzer F) :
  ready self = true ->
  NoDup (sentiment_dates self) -> NoDup (return_dates self) ->
  exists self' out,
    merge_data self = (self', out, inr tt)
    /\ (List.length (merged_rows self')
        <= Nat.min (List.length (daily_sentiment self))
                   (List.length (daily_return self)))%nat.
Proof.
  intros Hr Hs Hd.
  destruct (ready_frames self Hr) as (news & stock & Hn & Hst).
  rewrite (merge_data_ready self news stock Hn Hst Hr).
  do 2 eexists. split; [reflexivity|].
  cbn [merged_rows merged_df set_merged_df].
  rewrite (sentiment_dates_eq self news Hn) in Hs.
  rewrite (return_dates_eq self stock Hst) in Hd.
  unfold daily_sentiment, daily_return. rewrite Hn, Hst.
  unfold merged_of.
  pose proof (inner_join_length_left _ _ Hd
                : (List.length (merged_of news stock) <= _)%nat) as H1.
  pose proof (inner_join_length_right _ Hs (s_rows (normalize_stock stock))) as H2.
  unfold merged_of in H1. cbn [d_rows normalize_daily s_rows normalize_stock] in *.
  rewrite length_map in H1, H2. lia.
Qed.

End CountFacts.

(** C4 (the code departs from it).  Two headlines of 4 January 2021, at 09:30
    and at 15:45, and the one bar of that day, whose date occurs once: the
    DailySentiment table has two rows, the DailyReturn table one, and
    [merge_data] leaves two records, more than the smaller table has. *)
Theorem merge_data_count_exceeds_min :
  ready same_day_state = true
  /\ NoDup (return_dates same_day_state)
  /\ List.length (daily_sentiment same_day_state) = 2%nat
  /\ List.length (daily_return same_day_state) = 1%nat
  /\ snd (merge_data same_day_state) = inr tt
  /\ map m_date (merged_rows (fst (fst (merge_data same_day_state))))
     = [date_ 2021 1 4; date_ 2021 1 4]
  /\ (Nat.min (List.length (daily_sentiment same_day_state))
              (List.length (daily_return same_day_state))
      < List.length (merged_rows (fst (fst (merge_data same_day_state)))))%nat.
Proof.
  split; [reflexivity|]. split.
  { vm_compute. constructor; [intros []|constructor]. }
  repeat split; try reflexivity. vm_compute. lia.
Qed.

(** C7 (the code departs from it).  [aggregate_sentiment] groups on the
    "date" column as [load_data] left it, a timestamp with its time of day:
    its rows are the distinct timestamps of the column, NaT left out.  The
    two headlines of 4 January 2021, scored 0.4 at 09:30 and -0.2 at 15:45,
    come out as two rows of that one calendar date, not as one row with the
    mean.  When both carry one timestamp they make one row, and its mean is
    the float64 0.1. *)
Theorem aggregate_sentiment_groups_by_timestamp :
  (forall (F : Type) (num : Number F) (rows : list (NewsRow F)),
      NoDup (map d_date (groupby_date_mean rows))
      /\ forall d, In d (map d_date (groupby_date_mean rows))
                   <-> d <> NaT /\ In d (map n_date rows))
  /\ snd (aggregate_sentiment same_day_state)
     = inr (mkDailyFrame None
              [mkDailyRow (at_time 2021 1 4 9 30 0) (f64_ratio 4 10);
               mkDailyRow (at_time 2021 1 4 15 45 0) (f64_ratio (-2) 10)])
  /\ normalize None (at_time 2021 1 4 9 30 0) = date_ 2021 1 4
  /\ normalize None (at_time 2021 1 4 15 45 0) = date_ 2021 1 4
  /\ snd (aggregate_sentiment same_instant_state)
     = inr (mkDailyFrame None
              [mkDailyRow (at_time 2021 1 4 9 30 0) (f64_ratio 1 10)]).
Proof.
  split.
  - intros F num rows. split.
    + apply groupby_date_mean_NoDup.
    + apply groupby_date_mean_In.
  - vm_compute. repeat split; reflexivity.
Qed.

(* ================================================================== *)
(** * Sorting the bars *)
(* ================================================================== *)

Lemma map_nth_seq {A} (l : list A) (d : A) :
  map (fun i => nth i l d) (seq 0 (List.length l)) = l.
Proof.
  induction l as [|a l IH]; cbn; [reflexivity|].
  f_equal. rewrite <- seq_shift, map_map. exact IH.
Qed.

Lemma nondecreasing_sorted (xs : list Z) :
  nondecreasing xs = true -> StronglySorted Z.le xs.
Proof.
  intros H. apply Sorted_StronglySorted; [intros a b c; apply Z.le_trans|].
  induction xs as [|x [|y xs] IH]; constructor; auto.
  - cbn in H. apply andb_true_iff in H as [_ H]. auto.
  - cbn in H. apply andb_true_iff in H as [H _]. constructor. now apply Z.leb_le.
Qed.

(** An indexer that passes [is_argsort] is a permutation of the positions
    along which the keys do not decrease. *)
Lemma is_argsort_spec (keys : list Z) (indexer : list nat) :
  is_argsort keys indexer = true ->
  Permutation (seq 0 (List.length keys)) indexer
  /\ StronglySorted Z.le (map (fun i => nth i keys 0) indexer).
Proof.
  unfold is_argsort. rewrite !andb_true_iff.
  intros [[Hlen Hall] Hs]. apply Nat.eqb_eq in Hlen. split.
  - apply NoDup_Permutation_bis.
    + apply seq_NoDup.
    + rewrite length_seq. lia.
    + intros i Hi. rewrite forallb_forall in Hall. specialize (Hall i Hi).
      apply existsb_exists in Hall as (j & Hj & E). apply Nat.eqb_eq in E. now subst.
  - now apply nondecreasing_sorted.
Qed.

Lemma take_seq {A} (rows : list A) : take rows (seq 0 (List.length rows)) = rows.
Proof.
  unfold take. induction rows as [|r rows IH]; cbn; [reflexivity|].
  f_equal. rewrite <- seq_shift, flat_map_concat_map, map_map,
    <- flat_map_concat_map. exact IH.
Qed.

Lemma take_nth {A} (rows : list A) (d : A) (indexer : list nat) :
  Forall (fun i => (i < List.length rows)%nat) indexer ->
  take rows indexer = map (fun i => nth i rows d) indexer.
Proof.
  unfold take. induction 1 as [|i indexer Hi _ IH]; cbn; [reflexivity|].
  rewrite IH. destruct (nth_error rows i) as [r|] eqn:E.
  - now rewrite (nth_error_nth _ _ d E).
  - apply nth_error_None in E. lia.
Qed.

Lemma take_map {A B} (f : A -> B) (rows : list A) (indexer : list nat) :
  map f (take rows indexer) = take (map f rows) indexer.
Proof.
  unfold take. induction indexer as [|i indexer IH]; cbn; [reflexivity|].
  rewrite map_app, IH, nth_error_map. now destruct (nth_error rows i).
Qed.

Lemma filter_split {A} (f : A -> bool) (l : list A) :
  Permutation (filter f l ++ filter (fun x => negb (f x)) l) l.
Proof.
  induction l as [|a l IH]; cbn; [constructor|].
  destruct (f a); cbn.
  - now constructor.
  - rewrite <- Permutation_middle. now constructor.
Qed.

Lemma StronglySorted_app {A} (R : A -> A -> Prop) (l1 l2 : list A) :
  StronglySorted R l1 -> StronglySorted R l2 ->
  (forall x y, In x l1 -> In y l2 -> R x y) ->
  StronglySorted R (l1 ++ l2).
Proof.
  induction 1 as [|a l1 Hs IH Ha]; cbn; intros H2 Hc; [exact H2|].
  constructor.
  - apply IH; [exact H2|]. intros x y Hx Hy; apply Hc; [now right | exact Hy].
  - apply Forall_app; split; [exact Ha|].
    apply Forall_forall; intros y Hy. apply Hc; [now left | exact Hy].
Qed.

Lemma non_nans_present (keys : list timestamp) :
  map Some (non_nans keys) = filter (fun t => negb (isna t)) keys.
Proof.
  induction keys as [|[k|] keys IH]; cbn; [reflexivity| |exact IH].
  now rewrite <- IH.
Qed.

Lemma dates_sorted_Some (l : list Z) :
  StronglySorted Z.le l -> dates_sorted (map Some l).
Proof.
  induction 1 as [|x l _ IH Hx]; cbn; constructor; auto.
  rewrite Forall_map. eapply Forall_impl; [|exact Hx].
  intros y Hy; cbn. now apply Z.leb_le.
Qed.

Lemma dates_sorted_NaT (l : list timestamp) :
  Forall (fun t => t = NaT) l -> dates_sorted l.
Proof.
  induction 1 as [|t l Ht Hm IH]; constructor; auto.
  subst t. eapply Forall_impl; [|exact Hm]. intros t ->. reflexivity.
Qed.

Section Nargsort.

Variable argsort : list Z -> list nat.
Variable keys : list timestamp.

Hypothesis argsort_ok :
  is_argsort (non_nans keys) (argsort (non_nans keys)) = true.

Let key_at (i : nat) : timestamp := nth i keys NaT.
Let positions : list nat := seq 0 (List.length keys).
Let present : list nat := filter (fun i => negb (isna (key_at i))) positions.
Let missing : list nat := filter (fun i => isna (key_at i)) positions.

Lemma present_keys : map key_at present = map Some (non_nans keys).
Proof.
  unfold present, positions, key_at.
  rewrite <- (filter_map_swap (fun t => negb (isna t))).
  now rewrite map_nth_seq, non_nans_present.
Qed.

Lemma present_length : List.length present = List.length (non_nans keys).
Proof.
  rewrite <- (length_map key_at), present_keys. now rewrite length_map.
Qed.

Lemma nargsort_eq :
  nargsort argsort keys
  = (map (fun j => nth j present 0%nat) (argsort (non_nans keys)) ++ missing)%list.
Proof. reflexivity. Qed.

Lemma nargsort_perm : Permutation (nargsort argsort keys) positions.
Proof.
  rewrite nargsort_eq.
  destruct (is_argsort_spec _ _ argsort_ok) as [Hp _].
  rewrite <- Hp, <- present_length, map_nth_seq.
  assert (E : missing = filter (fun i => negb (negb (isna (key_at i)))) positions).
  { unfold missing. apply filter_ext. intros i. now rewrite negb_involutive. }
  rewrite E. apply (filter_split (fun i => negb (isna (key_at i)))).
Qed.

Lemma nargsort_in_range :
  Forall (fun i => (i < List.length keys)%nat) (nargsort argsort keys).
Proof.
  apply Forall_forall. intros i Hi.
  apply (Permutation_in _ nargsort_perm) in Hi.
  apply in_seq in Hi. lia.
Qed.

Lemma nargsort_keys_sorted :
  dates_sorted (map key_at (nargsort argsort keys)).
Proof.
  rewrite nargsort_eq, map_app, map_map.
  destruct (is_argsort_spec _ _ argsort_ok) as [Hp Hs].
  assert (E : map (fun j => key_at (nth j present 0%nat)) (argsort (non_nans keys))
              = map Some (map (fun j => nth j (non_nans keys) 0)
                              (argsort (non_nans keys)))).
  { rewrite map_map. apply map_ext_in. intros j Hj.
    apply (Permutation_in _ (Permutation_sym Hp)) in Hj. apply in_seq in Hj.
    rewrite <- (map_nth key_at). 
    change (key_at 0%nat) with (nth 0 keys NaT).
    rewrite (nth_indep _ _ (Some 0)) by (rewrite length_map, present_length; lia).
    rewrite present_keys. now rewrite (map_nth Some). }
  rewrite E. apply StronglySorted_app.
  - now apply dates_sorted_Some.
  - apply dates_sorted_NaT.
    rewrite Forall_map. apply Forall_forall. intros i Hi.
    apply filter_In in Hi as [_ Hi]. now destruct (key_at i).
  - intros x y _ Hy. apply in_map_iff in Hy as (i & <- & Hi).
    apply filter_In in Hi as [_ Hi]. destruct (key_at i); [discriminate|].
    now destruct x.
Qed.

End Nargsort.

(* ================================================================== *)
(** * Daily returns *)
(* ================================================================== *)

Section ReturnFacts.

Context {F : Type} {num : Number F}.

Lemma ffill_length (last : F) (xs : list F) :
  List.length (ffill last xs) = List.length xs.
Proof.
  revert last; induction xs as [|x xs IH]; intros last; cbn; [reflexivity|].
  now rewrite IH.
Qed.

(** Filling forward leaves every value that is present where it is. *)
Lemma ffill_present (xs : list F) :
  forall (last : F) (i : nat) (x : F),
    nth_error xs i = Some x -> is_nan x = false ->
    nth_error (ffill last xs) i = Some x.
Proof.
  induction xs as [|y xs IH]; intros last [|i] x Hi Hx; cbn in *; try discriminate.
  - inversion Hi; subst. now rewrite Hx.
  - eapply IH; eauto.
Qed.

Lemma shift1_length (xs : list F) :
  xs <> [] -> List.length (shift1 xs) = List.length xs.
Proof.
  intros Hne. unfold shift1. cbn [List.length].
  induction xs as [|x xs IH]; [now elim Hne|].
  destruct xs as [|y xs]; [reflexivity|].
  change (removelast (x :: y :: xs)) with (x :: removelast (y :: xs)).
  cbn [List.length]. rewrite IH by discriminate. reflexivity.
Qed.

Lemma pct_change_length (xs : list F) :
  List.length (pct_change xs) = List.length xs.
Proof.
  unfold pct_change. rewrite length_map, length_combine.
  destruct xs as [|x xs]; [reflexivity|].
  rewrite shift1_length by (cbn; discriminate).
  rewrite Nat.min_id. apply ffill_length.
Qed.

Lemma shift1_nth (xs : list F) (i : nat) (x : F) :
  nth_error xs i = Some x -> (S i < List.length xs)%nat ->
  nth_error (shift1 xs) (S i) = Some x.
Proof.
  unfold shift1; cbn. revert i.
  induction xs as [|y xs IH]; intros [|i] Hi Hlt; cbn in *; try discriminate; try lia.
  - destruct xs; [cbn in Hlt; lia | exact Hi].
  - destruct xs as [|z xs]; [cbn in Hlt; lia|].
    cbn [nth_error]. apply IH; [exact Hi | lia].
Qed.

Lemma nth_error_combine {A B} (l : list A) (l' : list B) (i : nat) (a : A) (b : B) :
  nth_error l i = Some a -> nth_error l' i = Some b ->
  nth_error (combine l l') i = Some (a, b).
Proof.
  revert l' i; induction l as [|x l IH]; intros [|y l'] [|i] Ha Hb;
    cbn in *; try discriminate.
  - now inversion Ha; inversion Hb.
  - now apply IH.
Qed.

(** Position 0 is [data[0] / missing - 1]; position [i+1] divides by the
    value at [i]. *)
Lemma pct_change_head (x : F) (xs : list F) :
  nth_error (pct_change (x :: xs)) 0
  = Some (sub (div (if is_nan x then nan else x) nan) (of_count 1)).
Proof. reflexivity. Qed.

Lemma pct_change_next (xs : list F) (i : nat) (p c : F) :
  nth_error xs i = Some p -> nth_error xs (S i) = Some c ->
  is_nan p = false -> is_nan c = false ->
  nth_error (pct_change xs) (S i) = Some (sub (div c p) (of_count 1)).
Proof.
  intros Hp Hc Np Nc. unfold pct_change.
  rewrite nth_error_map.
  pose proof (ffill_present xs nan i p Hp Np) as Fp.
  pose proof (ffill_present xs nan (S i) c Hc Nc) as Fc.
  assert (Hlt : (S i < List.length (ffill nan xs))%nat).
  { apply nth_error_Some. rewrite Fc. discriminate. }
  rewrite (nth_error_combine _ _ _ c p Fc (shift1_nth _ _ _ Fp Hlt)).
  reflexivity.
Qed.

Lemma set_returns_bars (rows : list (StockRow F)) (returns : list F) :
  List.length returns = List.length rows ->
  map bar (set_returns rows returns) = map bar rows
  /\ map s_daily_return (set_returns rows returns) = returns.
Proof.
  unfold set_returns. revert returns.
  induction rows as [|r rows IH]; intros [|x returns] Hl; cbn in *;
    try discriminate; [split; reflexivity|].
  destruct (IH returns ltac:(lia)) as [-> ->]. split; reflexivity.
Qed.

End ReturnFacts.

Section CalculateReturns.

Context {F : Type} {num : Number F} (X : Externals F).

Lemma bar_dates (rows : list (StockRow F)) :
  map s_date rows = map fst (map bar rows).
Proof. now rewrite map_map. Qed.

Lemma bar_closes (rows : list (StockRow F)) :
  map s_close rows = map snd (map bar rows).
Proof. now rewrite map_map. Qed.

Lemma calculate_returns_ok (self : Analyzer F) (df : StockFrame F) :
  stock_df self = Some df ->
  has_column (s_columns df) "date" = true ->
  has_column (s_columns df) "close" = true ->
  calculate_returns X self
  = (set_stock_df self
       (mkStockFrame (add_column (s_columns df) "daily_return") (s_tz df)
          (s_object df)
          (set_returns (sort_values_date (np_argsort X) (s_rows df))
             (pct_change
                (map s_close (sort_values_date (np_argsort X) (s_rows df)))))),
     [], inr tt).
Proof.
  intros Hs H1 H2.
  unfold calculate_returns, calculate_returns_body, guarded, try_except, bind,
    get, lift, ret, put, attr_of, getitem.
  rewrite Hs, H1, H2. reflexivity.
Qed.

(** The frame after [calculate_returns]: the same bars, in date order with
    the undated ones last, and in the new column the [pct_change] of the
    closes in that order. *)
Lemma calculate_returns_sorted (self : Analyzer F) (df : StockFrame F) :
  stock_df self = Some df ->
  has_column (s_columns df) "date" = true ->
  has_column (s_columns df) "close" = true ->
  is_argsort (non_nans (map s_date (s_rows df)))
             (np_argsort X (non_nans (map s_date (s_rows df)))) = true ->
  exists self',
    calculate_returns X self = (self', [], inr tt)
    /\ Permutation (map bar (daily_return self')) (map bar (s_rows df))
    /\ dates_sorted (map s_date (daily_return self'))
    /\ map s_daily_return (daily_return self')
       = pct_change (map s_close (daily_return self')).
Proof.
  intros Hs H1 H2 Hok.
  rewrite (calculate_returns_ok self df Hs H1 H2).
  eexists; split; [reflexivity|].
  cbn [daily_return stock_df set_stock_df s_rows].
  set (sorted := sort_values_date (np_argsort X) (s_rows df)).
  destruct (set_returns_bars sorted (pct_change (map s_close sorted)))
    as [Hb Hr]; [now rewrite pct_change_length, length_map|].
  assert (Hdates : map s_date (set_returns sorted (pct_change (map s_close sorted)))
                   = map s_date sorted).
  { rewrite (bar_dates (set_returns _ _)), Hb. symmetry. apply bar_dates. }
  assert (Hcloses : map s_close (set_returns sorted (pct_change (map s_close sorted)))
                    = map s_close sorted).
  { rewrite (bar_closes (set_returns _ _)), Hb. symmetry. apply bar_closes. }
  rewrite Hb, Hdates, Hr, Hcloses.
  pose proof (nargsort_perm _ _ Hok) as Hperm.
  pose proof (nargsort_in_range _ _ Hok) as Hrange.
  pose proof (nargsort_keys_sorted _ _ Hok) as Hsorted.
  cbv zeta in Hperm, Hsorted.
  repeat split.
  - unfold sorted, sort_values_date.
    transitivity (map bar (take (s_rows df) (seq 0 (List.length (s_rows df)))));
      [|now rewrite take_seq].
    apply Permutation_map. unfold take.
    rewrite length_map in Hperm. rewrite Hperm. reflexivity.
  - unfold sorted, sort_values_date. rewrite take_map.
    rewrite (take_nth _ NaT) by exact Hrange. exact Hsorted.
Qed.

End CalculateReturns.

Lemma exact_one : of_count 1 = Some (Q2Qc 1) :> exact.
Proof. reflexivity. Qed.

(** In exact arithmetic the quotient less one is the change over the earlier
    close. *)
Lemma exact_change (p c : Qc) :
  p <> Q2Qc 0 ->
  sub (div (Some c) (Some p)) (of_count 1) = Some ((c - p) / p)%Qc :> exact.
Proof.
  intros Hp. cbn. unfold exact_div.
  destruct (Qc_eq_dec p (Q2Qc 0)) as [E|_]; [contradiction|].
  cbn. f_equal. 
  assert (E1 : Q2Qc (inject_Z 1) = 1%Qc) by (apply Qc_is_canon; reflexivity).
  rewrite E1. field. exact Hp.
Qed.

Lemma f64_div_nan (x : float64) : div x nan = nan :> float64.
Proof. now destruct x. Qed.

Lemma f64_sub_nan (x : float64) : sub nan x = nan :> float64.
Proof. now destruct x. Qed.

Lemma ffill_next {F} {num : Number F} (xs : list F) :
  forall (last : F) (i : nat) (p c : F),
    nth_error xs i = Some p -> is_nan p = false ->
    nth_error xs (S i) = Some c ->
    nth_error (ffill last xs) i = Some p
    /\ nth_error (ffill last xs) (S i) = Some (if is_nan c then p else c).
Proof.
  induction xs as [|y xs IH]; intros last [|i] p c Hp Np Hc; cbn in *;
    try discriminate.
  - inversion Hp; subst. rewrite Np. split; [reflexivity|].
    destruct xs as [|z xs]; cbn in *; [discriminate|]. now inversion Hc.
  - eapply IH; eauto.
Qed.

(** The return after a close of zero, in float64: the quotient by zero is an
    infinity, or NaN when the later close is zero or missing too, and taking
    one from it changes neither. *)
Lemma f64_change_over_zero (p c : float64) :
  f64_is_zero p = true ->
  let r := sub (div (if is_nan c then p else c) p) (of_count 1) in
  (f64_is_nan r = true \/ f64_is_inf r = true)
  /\ (f64_is_nan r = true <-> f64_is_nan c = true \/ f64_is_zero c = true).
Proof.
  destruct p as [sp| | |]; try discriminate. intros _.
  destruct c as [sc|sc| |sc mc ec]; cbn.
  - split; [now left | split; auto].
  - split; [now right|]. split; [discriminate | intros [H|H]; discriminate].
  - split; [now left | split; auto].
  - split; [now right|]. split; [discriminate | intros [H|H]; discriminate].
Qed.

(** C5 (as the code has it).  [calculate_returns] puts the bars in date
    order, those without a date last, by a sort that fixes no order among
    bars of one date; the new column is the [pct_change] of the closes in
    that order.  Where two consecutive closes are present and the earlier is
    not zero, that is [(close[i] - close[i-1]) / close[i-1]] in exact
    arithmetic; position 0 has no return.  For the closes 100, 110, 99 the
    float64 returns are NaN and two values within 1e-9 of 0.10 and -0.10. *)
Theorem calculate_returns_sorts_then_changes :
  (forall (F : Type) (num : Number F) (X : Externals F)
          (self : Analyzer F) (df : StockFrame F),
      stock_df self = Some df ->
      has_column (s_columns df) "date" = true ->
      has_column (s_columns df) "close" = true ->
      is_argsort (non_nans (map s_date (s_rows df)))
                 (np_argsort X (non_nans (map s_date (s_rows df)))) = true ->
      exists self',
        calculate_returns X self = (self', [], inr tt)
        /\ Permutation (map bar (daily_return self')) (map bar (s_rows df))
        /\ dates_sorted (map s_date (daily_return self'))
        /\ map s_daily_return (daily_return self')
           = pct_change (map s_close (daily_return self')))
  /\ (forall (closes : list exact) (i : nat) (p c : Qc),
        nth_error closes i = Some (Some p) ->
        nth_error closes (S i) = Some (Some c) ->
        p <> Q2Qc 0 ->
        nth_error (pct_change closes) (S i) = Some (Some ((c - p) / p)%Qc))
  /\ (forall (c : exact) (closes : list exact),
        nth_error (pct_change (c :: closes)) 0 = Some None)
  /\ (forall (c : float64) (closes : list float64),
        nth_error (pct_change (c :: closes)) 0 = Some S754_nan)
  /\ (exists r1 r2,
        pct_change [f64_of_Z 100; f64_of_Z 110; f64_of_Z 99] = [S754_nan; r1; r2]
        /\ f64_close_to r1 (1 # 10) (1 # 1000000000) = true
        /\ f64_close_to r2 (-1 # 10) (1 # 1000000000) = true).
Proof.
  split; [|split; [|split; [|split]]].
  - intros F num X self df. apply calculate_returns_sorted.
  - intros closes i p c Hp Hc Hne.
    assert (Np : is_nan (Some p : exact) = false) by reflexivity.
    assert (Nc : is_nan (Some c : exact) = false) by reflexivity.
    rewrite (pct_change_next closes i (Some p) (Some c) Hp Hc Np Nc).
    f_equal. now apply exact_change.
  - intros c closes. rewrite pct_change_head. destruct c; reflexivity.
  - intros c closes. rewrite pct_change_head.
    now rewrite f64_div_nan, f64_sub_nan.
  - do 2 eexists. split; [vm_compute; reflexivity|].
    split; vm_compute; reflexivity.
Qed.

(** The claim C5 as stated, with "stable on ties": refuted by numpy's
    quicksort on the eighteen sample bars, of which it turns the three bars of
    11 January round. *)
Lemma calculate_returns_ties_not_stable :
  ~ (forall (X : Externals float64) (self : Analyzer float64)
            (df : StockFrame float64),
        stock_df self = Some df ->
        has_column (s_columns df) "date" = true ->
        has_column (s_columns df) "close" = true ->
        is_argsort (non_nans (map s_date (s_rows df)))
                   (np_argsort X (non_nans (map s_date (s_rows df)))) = true ->
        exists self',
          calculate_returns X self = (self', [], inr tt)
          /\ map bar (daily_return self')
             = map bar (stable_sort_by_date (s_rows df))).
Proof.
  intros H.
  destruct (H (offline numpy_argsort) january_state _ eq_refl eq_refl eq_refl
              ltac:(vm_compute; reflexivity))
    as (self' & E & Hb).
  vm_compute in E. inversion E; subst self'; clear E.
  vm_compute in Hb. discriminate Hb.
Qed.

(** The run of that sort on the sample bars: positions 1, 8 and 15 of the
    file, the bars of 11 January closing at 102, 109 and 116, come out in the
    order 15, 8, 1, where a stable sort keeps 1, 8, 15.  On the two tied bars
    and on the three bars out of order, which are sorted by insertion, it is
    the stable sort. *)
Lemma january_bars_sorted_by_numpy :
  let rows := daily_return january_state in
  let keys := non_nans (map s_date rows) in
  numpy_argsort keys
  = [0; 2; 3; 4; 5; 6; 7; 15; 8; 1; 9; 10; 11; 12; 13; 14; 16; 17]%nat
  /\ is_argsort keys (numpy_argsort keys) = true
  /\ map s_close (sort_values_date numpy_argsort rows)
     = map f64_of_Z [101; 103; 104; 105; 106; 107; 108; 116; 109; 102;
                     110; 111; 112; 113; 114; 115; 117; 118]
  /\ map s_close (stable_sort_by_date rows)
     = map f64_of_Z [101; 103; 104; 105; 106; 107; 108; 102; 109; 116;
                     110; 111; 112; 113; 114; 115; 117; 118]
  /\ sort_values_date numpy_argsort (daily_return tied_bars)
     = stable_sort_by_date (daily_return tied_bars)
  /\ numpy_argsort (non_nans (map s_date (daily_return tied_bars)))
     = stable_argsort (non_nans (map s_date (daily_return tied_bars)))
  /\ numpy_argsort (non_nans (map s_date (daily_return shuffled_bars)))
     = stable_argsort (non_nans (map s_date (daily_return shuffled_bars))).
Proof. vm_compute. repeat split; reflexivity. Qed.

(** C6 (as the code has it).  [calculate_returns] returns whatever the closes
    are.  After a close of zero the return is not a number one can use: NaN
    when the later close is zero or missing as well, and otherwise an
    infinity, which is not the missing value. *)
Theorem calculate_returns_zero_prior_close :
  (forall (X : Externals float64) (self : Analyzer float64)
          (df : StockFrame float64),
      stock_df self = Some df ->
      has_column (s_columns df) "date" = true ->
      has_column (s_columns df) "close" = true ->
      exists self',
        calculate_returns X self = (self', [], inr tt)
        /\ map s_daily_return (daily_return self')
           = pct_change (map s_close (daily_return self')))
  /\ (forall (closes : list float64) (i : nat) (p c : float64),
        nth_error closes i = Some p -> f64_is_zero p = true ->
        nth_error closes (S i) = Some c ->
        exists r,
          nth_error (pct_change closes) (S i) = Some r
          /\ (f64_is_nan r = true \/ f64_is_inf r = true)
          /\ (f64_is_nan r = true
              <-> f64_is_nan c = true \/ f64_is_zero c = true)).
Proof.
  split.
  - intros X self df Hs H1 H2.
    rewrite (calculate_returns_ok X self df Hs H1 H2).
    eexists; split; [reflexivity|].
    cbn [daily_return stock_df set_stock_df s_rows].
    set (sorted := sort_values_date (np_argsort X) (s_rows df)).
    destruct (set_returns_bars sorted (pct_change (map s_close sorted)))
      as [Hb Hr]; [now rewrite pct_change_length, length_map|].
    rewrite Hr. f_equal.
    rewrite (bar_closes (set_returns _ _)), Hb. apply bar_closes.
  - intros closes i p c Hp Hz Hc.
    assert (Np : is_nan p = false) by (destruct p; try discriminate; reflexivity).
    destruct (ffill_next closes nan i p c Hp Np Hc) as [Fp Fc].
    assert (Hlt : (S i < List.length (ffill nan closes))%nat).
    { apply nth_error_Some. rewrite Fc. discriminate. }
    eexists. split.
    + unfold pct_change. rewrite nth_error_map.
      rewrite (nth_error_combine _ _ _ _ _ Fc (shift1_nth _ _ _ Fp Hlt)).
      reflexivity.
    + apply (f64_change_over_zero p c Hz).
Qed.

(** The claim C6 as stated, with the return "undefined" after a close of
    zero: refuted by the closes 0, 110, whose second return is plus
    infinity. *)
Lemma zero_prior_close_not_nan :
  ~ (forall (closes : list float64) (i : nat) (p c r : float64),
        nth_error closes i = Some p -> f64_is_zero p = true ->
        nth_error closes (S i) = Some c ->
        nth_error (pct_change closes) (S i) = Some r ->
        is_nan r = true).
Proof.
  intros H.
  specialize (H [f64_of_Z 0; f64_of_Z 110] 0%nat (f64_of_Z 0) (f64_of_Z 110)
                (S754_infinity false) eq_refl eq_refl eq_refl eq_refl).
  discriminate H.
Qed.

(* ================================================================== *)
(** * Failures at the boundary of a method *)
(* ================================================================== *)

(** A body that raises: the handler prints the prefixed message after what the
    body printed, and the same exception leaves the method, from the state the
    body reached. *)
Lemma guarded_raises {S A} (prefix : string) (body : M S A)
                     (s s' : S) (out : list string) (e : exn) :
  body s = (s', out, inl e) ->
  guarded prefix body s = (s', (out ++ [(prefix ++ exn_str e)%string])%list, inl e).
Proof.
  intros E. unfold guarded, try_except. rewrite E. reflexivity.
Qed.

Lemma guarded_returns {S A} (prefix : string) (body : M S A)
                      (s s' : S) (out : list string) (a : A) :
  body s = (s', out, inr a) -> guarded prefix body s = (s', out, inr a).
Proof.
  intros E. unfold guarded, try_except. rewrite E. reflexivity.
Qed.

(** A method that raised has logged the exception it raised, last. *)
Lemma guarded_raised {S A} (prefix : string) (body : M S A)
                     (s s' : S) (out : list string) (e : exn) :
  guarded prefix body s = (s', out, inl e) ->
  exists out0, body s = (s', out0, inl e)
               /\ out = (out0 ++ [(prefix ++ exn_str e)%string])%list.
Proof.
  unfold guarded, try_except.
  destruct (body s) as [[s0 out0] [e0|a]] eqn:E; cbn.
  - intros H; inversion H; subst. exists out0; split; reflexivity.
  - discriminate.
Qed.

Section LoadFacts.

Context {F : Type} {num : Number F} (X : Externals F).

Lemma load_data_news_missing (self : Analyzer F) (e : exn) :
  read_news_csv X (news_path self) = inl e ->
  load_data X self
  = (self, ["[Error] Failed to load and process data: " ++ exn_str e], inl e).
Proof.
  intros E. unfold load_data.
  rewrite (guarded_raises _ _ self self [] e); [reflexivity|].
  unfold load_data_body, bind, get, lift. now rewrite E.
Qed.

Lemma load_data_stock_missing (self : Analyzer F) (news : RawNews) (e : exn) :
  read_news_csv X (news_path self) = inr news ->
  read_stock_csv X (stock_path self) = inl e ->
  load_data X self
  = (self, ["[Error] Failed to load and process data: " ++ exn_str e], inl e).
Proof.
  intros En E. unfold load_data.
  rewrite (guarded_raises _ _ self self [] e); [reflexivity|].
  unfold load_data_body, bind, get, lift. now rewrite En, E.
Qed.

Lemma load_data_schema_mismatch (self : Analyzer F) (news : RawNews)
                                (stock : RawStock F) :
  read_news_csv X (news_path self) = inr news ->
  read_stock_csv X (stock_path self) = inr stock ->
  has_column (map lower (rn_columns news)) "stock" = false ->
  load_data X self
  = (self, ["[Error] Failed to load and process data: 'stock'"],
     inl (Exn KeyError "'stock'")).
Proof.
  intros En Es Hc. unfold load_data.
  rewrite (guarded_raises _ _ self self [] (Exn KeyError "'stock'"));
    [reflexivity|].
  unfold load_data_body, bind, get, lift, getitem. now rewrite En, Es, Hc.
Qed.

Lemma load_data_no_news_date (self : Analyzer F) (news : RawNews)
                             (stock : RawStock F) :
  read_news_csv X (news_path self) = inr news ->
  read_stock_csv X (stock_path self) = inr stock ->
  has_column (map lower (rn_columns news)) "stock" = true ->
  has_column (map lower (rn_columns news)) "date" = false ->
  load_data X self
  = (self, ["[Error] Failed to load and process data: 'date'"],
     inl (Exn KeyError "'date'")).
Proof.
  intros En Es H1 H2. unfold load_data.
  rewrite (guarded_raises _ _ self self [] (Exn KeyError "'date'"));
    [reflexivity|].
  unfold load_data_body, bind, get, lift, getitem. now rewrite En, Es, H1, H2.
Qed.

Lemma map_snd_combine {A B} (l : list A) (l' : list B) :
  List.length l' = List.length l -> map snd (combine l l') = l'.
Proof.
  revert l'; induction l as [|a l IH]; intros [|b l'] Hl; cbn in *;
    try discriminate; [reflexivity|].
  f_equal. apply IH. lia.
Qed.

(** [load_data] once both files are read and the news have their "stock" and
    "date" columns: it goes as lines 41-64 go on the dates of the symbol's
    records, and then wants the "date" column of the prices. *)
Lemma load_data_eq (self : Analyzer F) (news : RawNews) (stock : RawStock F) :
  read_news_csv X (news_path self) = inr news ->
  read_stock_csv X (stock_path self) = inr stock ->
  has_column (map lower (rn_columns news)) "stock" = true ->
  has_column (map lower (rn_columns news)) "date" = true ->
  let rows := filter (fun r => String.eqb (r_stock r) (stock_symbol self))
                     (rn_rows news) in
  let cleaned := map (fun c => CText (clean_date c)) (map r_date rows) in
  let bars := parse_column X (map rs_date (rs_rows stock)) in
  load_data X self
  = match news_dates X (map r_date rows) with
    | inl e =>
        (self, ["[Error] Failed to load and process data: " ++ exn_str e], inl e)
    | inr parsed =>
        if has_column (map lower (rs_columns stock)) "date" then
          (set_stock_df
             (set_news_df self
                (mkNewsFrame (map lower (rn_columns news)) (fst parsed)
                   (mixed_offsets X cleaned)
                   (map (fun p : RawNewsRow * timestamp =>
                           mkNewsRow (snd p) (r_headline (fst p)) nan)
                        (combine rows (snd parsed)))))
             (mkStockFrame (map lower (rs_columns stock)) (fst bars)
                (mixed_offsets X (map rs_date (rs_rows stock)))
                (map (fun p : RawStockRow F * timestamp =>
                        mkStockRow (snd p) (rs_close (fst p)) nan)
                     (combine (rs_rows stock) (snd bars)))),
           ["[Debug] Unparsed news dates after fallback parsing: "
            ++ string_of_nat (count_unparsed (snd parsed))],
           inr tt)
        else
          (self, ["[Error] Failed to load and process data: 'date'"],
           inl (Exn KeyError "'date'"))
    end.
Proof.
  intros En Es H1 H2 rows cleaned bars.
  unfold load_data, load_data_body, guarded, try_except, print_and_reraise, bind,
    get, lift, put, print, raise, getitem.
  rewrite En, Es, H1, H2. fold rows.
  destruct (news_dates X (map r_date rows)) as [e|parsed]; [reflexivity|].
  destruct (has_column (map lower (rs_columns stock)) "date"); reflexivity.
Qed.

(** With both files read and the columns there, [load_data] returns unless
    the news dates came out as an object column that holds a NaT: dates that
    no parser reads are NaT in the frame and are counted. *)
Lemma load_data_frames (self : Analyzer F) (news : RawNews) (stock : RawStock F) :
  read_news_csv X (news_path self) = inr news ->
  read_stock_csv X (stock_path self) = inr stock ->
  has_column (map lower (rn_columns news)) "stock" = true ->
  has_column (map lower (rn_columns news)) "date" = true ->
  has_column (map lower (rs_columns stock)) "date" = true ->
  let rows := filter (fun r => String.eqb (r_stock r) (stock_symbol self))
                     (rn_rows news) in
  let cleaned := map (fun c => CText (clean_date c)) (map r_date rows) in
  let bars := parse_column X (map rs_date (rs_rows stock)) in
  mixed_offsets X cleaned && existsb isna (snd (parse_column X cleaned)) = false ->
  exists z dates,
    news_dates X (map r_date rows) = inr (z, dates)
    /\ List.length dates = List.length rows
    /\ load_data X self
       = (set_stock_df
            (set_news_df self
               (mkNewsFrame (map lower (rn_columns news)) z
                  (mixed_offsets X cleaned)
                  (map (fun p : RawNewsRow * timestamp =>
                          mkNewsRow (snd p) (r_headline (fst p)) nan)
                       (combine rows dates))))
            (mkStockFrame (map lower (rs_columns stock)) (fst bars)
               (mixed_offsets X (map rs_date (rs_rows stock)))
               (map (fun p : RawStockRow F * timestamp =>
                       mkStockRow (snd p) (rs_close (fst p)) nan)
                    (combine (rs_rows stock) (snd bars)))),
          ["[Debug] Unparsed news dates after fallback parsing: "
           ++ string_of_nat (count_unparsed dates)],
          inr tt).
Proof.
  intros En Es H1 H2 H3 rows cleaned bars Hm.
  pose proof (load_data_eq self news stock En Es H1 H2) as E. cbv zeta in E.
  fold rows cleaned bars in E. rewrite H3 in E.
  destruct (news_dates_keeps_NaT X (map r_date rows))
    as [(z & dates & Ed & Hl & _) | (Hx & Hy & _)].
  - rewrite length_map in Hl. rewrite Ed in E. cbn [fst snd] in E.
    exists z, dates. split; [exact Ed|]. split; [exact Hl | exact E].
  - fold cleaned in Hx, Hy. rewrite Hx, Hy in Hm. discriminate Hm.
Qed.

Lemma load_data_ok (self : Analyzer F) (news : RawNews) (stock : RawStock F) :
  read_news_csv X (news_path self) = inr news ->
  read_stock_csv X (stock_path self) = inr stock ->
  has_column (map lower (rn_columns news)) "stock" = true ->
  has_column (map lower (rn_columns news)) "date" = true ->
  has_column (map lower (rs_columns stock)) "date" = true ->
  let cleaned :=
    map (fun r => CText (clean_date (r_date r)))
        (filter (fun r => String.eqb (r_stock r) (stock_symbol self))
                (rn_rows news)) in
  mixed_offsets X cleaned && existsb isna (snd (parse_column X cleaned)) = false ->
  exists self',
    load_data X self
    = (self',
       ["[Debug] Unparsed news dates after fallback parsing: "
        ++ string_of_nat (count_unparsed (news_dates_of self'))],
       inr tt).
Proof.
  intros En Es H1 H2 H3 cleaned Hm.
  destruct (load_data_frames self news stock En Es H1 H2 H3)
    as (z & dates & Ed & Hl & E).
  { cbv zeta. rewrite map_map. exact Hm. }
  rewrite E. eexists. do 3 f_equal.
  unfold news_dates_of. cbn [news_df set_stock_df set_news_df n_rows].
  rewrite map_map. cbn [n_date]. now rewrite map_snd_combine.
Qed.

(** The other way: an object column that holds a NaT, or a price file without
    a "date" column. *)
Lemma load_data_object_column (self : Analyzer F) (news : RawNews)
                              (stock : RawStock F) :
  read_news_csv X (news_path self) = inr news ->
  read_stock_csv X (stock_path self) = inr stock ->
  has_column (map lower (rn_columns news)) "stock" = true ->
  has_column (map lower (rn_columns news)) "date" = true ->
  let cleaned :=
    map (fun r => CText (clean_date (r_date r)))
        (filter (fun r => String.eqb (r_stock r) (stock_symbol self))
                (rn_rows news)) in
  mixed_offsets X cleaned && existsb isna (snd (parse_column X cleaned)) = true ->
  load_data X self
  = (self,
     ["[Error] Failed to load and process data: Can only use .dt accessor with datetimelike values"],
     inl (Exn AttributeError "Can only use .dt accessor with datetimelike values")).
Proof.
  intros En Es H1 H2 cleaned Hm.
  pose proof (load_data_eq self news stock En Es H1 H2) as E. cbv zeta in E.
  rewrite E, news_dates_eq. rewrite map_map. fold cleaned.
  apply andb_true_iff in Hm as [-> ->]. reflexivity.
Qed.

Lemma load_data_no_stock_date (self : Analyzer F) (news : RawNews)
                              (stock : RawStock F) :
  read_news_csv X (news_path self) = inr news ->
  read_stock_csv X (stock_path self) = inr stock ->
  has_column (map lower (rn_columns news)) "stock" = true ->
  has_column (map lower (rn_columns news)) "date" = true ->
  has_column (map lower (rs_columns stock)) "date" = false ->
  let cleaned :=
    map (fun r => CText (clean_date (r_date r)))
        (filter (fun r => String.eqb (r_stock r) (stock_symbol self))
                (rn_rows news)) in
  mixed_offsets X cleaned && existsb isna (snd (parse_column X cleaned)) = false ->
  load_data X self
  = (self, ["[Error] Failed to load and process data: 'date'"],
     inl (Exn KeyError "'date'")).
Proof.
  intros En Es H1 H2 H3 cleaned Hm.
  pose proof (load_data_eq self news stock En Es H1 H2) as E. cbv zeta in E.
  rewrite E, H3.
  destruct (news_dates_keeps_NaT X
              (map r_date (filter (fun r => String.eqb (r_stock r) (stock_symbol self))
                                  (rn_rows news))))
    as [(z & dates & -> & _) | (Hx & Hy & _)]; [reflexivity|].
  rewrite map_map in Hx, Hy. fold cleaned in Hx, Hy.
  rewrite Hx, Hy in Hm. discriminate Hm.
Qed.

(** The stages after [load_data] on an object that holds no frame. *)
Lemma stages_on_None (self : Analyzer F) :
  news_df self = None -> stock_df self = None -> merged_df self = None ->
  snd (analyze_sentiment X self)
  = inl (Exn TypeError "'NoneType' object is not subscriptable")
  /\ snd (aggregate_sentiment self)
     = inl (Exn AttributeError "'NoneType' object has no attribute 'groupby'")
  /\ snd (calculate_returns X self)
     = inl (Exn AttributeError "'NoneType' object has no attribute 'sort_values'")
  /\ snd (merge_data self)
     = inl (Exn AttributeError "'NoneType' object has no attribute 'groupby'")
  /\ snd (compute_correlation X self)
     = inl (Exn TypeError "'NoneType' object is not subscriptable")
  /\ snd (plot_correlation_heatmap X self)
     = inl (Exn TypeError "'NoneType' object is not subscriptable").
Proof.
  intros Hn Hs Hm.
  unfold analyze_sentiment, analyze_sentiment_body, aggregate_sentiment,
    calculate_returns, calculate_returns_body, merge_data, merge_data_body,
    compute_correlation, compute_correlation_body, plot_correlation_heatmap,
    plot_correlation_heatmap_body, aggregate_sentiment, aggregate_sentiment_body,
    guarded, try_except, print_and_reraise, bind, get, lift, raise, print.
  rewrite Hn, Hs, Hm. cbn. repeat split.
Qed.

End LoadFacts.

Lemma guarded_logged {S A} (prefix : string) (body : M S A)
                     (s s' : S) (out : list string) (e : exn) :
  guarded prefix body s = (s', out, inl e) -> logged prefix e out.
Proof.
  intros H. apply guarded_raised in H as (out0 & _ & ->). now exists out0.
Qed.

(** [EdaAnalysis.load_data] returns whatever happens in it: each of its three
    handlers prints and falls through. *)
Lemma eda_load_data_returns (read_csv : string -> exn + RawNews)
                            (self : EdaAnalysis.Eda) :
  exists self' out, EdaAnalysis.load_data read_csv self = (self', out, inr tt).
Proof.
  unfold EdaAnalysis.load_data, try_except, bind, get, lift, put, print.
  destruct (read_csv (EdaAnalysis.input_path self)) as [e|frame]; cbn.
  - destruct (exn_cls e); cbn; eauto.
  - destruct (getitem (rn_columns frame) "stock") as [e|[]]; cbn;
      [destruct (exn_cls e); cbn; eauto|].
    destruct (EdaAnalysis.list_like (EdaAnalysis.selected_stocks self))
      as [e|selected]; cbn; [destruct (exn_cls e); cbn; eauto|].
    eauto.
Qed.

Lemma eda_load_data_file_missing (read_csv : string -> exn + RawNews)
                                 (self : EdaAnalysis.Eda) (e : exn) :
  read_csv (EdaAnalysis.input_path self) = inl e ->
  exn_cls e = FileNotFoundError ->
  EdaAnalysis.load_data read_csv self
  = (self, ["File not found. Check the relative path."], inr tt).
Proof.
  intros E Hc.
  unfold EdaAnalysis.load_data, try_except, bind, get, lift.
  rewrite E. cbn. rewrite Hc. reflexivity.
Qed.

(** C9 (as the code has it).  In every method of [SentimentReturnAnalyzer]
    whatever the [try] block raises leaves the method as the same exception,
    after its own "[Error] ..." line with the message has been printed as the
    last line; what the block returns is returned with nothing added.  A file
    that cannot be read, a news file without a "stock" or a "date" column, a
    price file without a "date" column, and news dates of several UTC offsets
    with an invalid date among them, each make [load_data] print that one
    line and raise, an earlier merge left in place.  Dates that no parser reads do not stop [load_data]: with
    both files read, their columns there and the dates a datetime column, it
    returns and prints how many dates stayed unparsed.  The stages after
    [load_data] raise on an object that holds no frame, and
    [plot_relationship] raises what the plot raises.
    [EdaAnalysis.load_data] is the other way: it always returns, and a
    missing file leaves one printed line and the empty frame. *)
Theorem failures_are_logged_and_reraised :
  (forall (F : Type) (num : Number F) (X : Externals F)
          (self self' : Analyzer F) (out : list string) (e : exn),
      let raised (prefix : string) : Analyzer F * list string * (exn + unit) :=
        (self', (out ++ [(prefix ++ exn_str e)%string])%list, inl e) in
      (load_data_body X self = (self', out, inl e) ->
       load_data X self = raised "[Error] Failed to load and process data: ")
      /\ (analyze_sentiment_body X self = (self', out, inl e) ->
          analyze_sentiment X self = raised "[Error] Sentiment analysis failed: ")
      /\ (aggregate_sentiment_body self = (self', out, inl e) ->
          aggregate_sentiment self
          = (self',
             (out ++ [("[Error] Failed to aggregate sentiment: " ++ exn_str e)%string])%list,
             inl e))
      /\ (calculate_returns_body X self = (self', out, inl e) ->
          calculate_returns X self
          = raised "[Error] Failed to compute daily returns: ")
      /\ (merge_data_body self = (self', out, inl e) ->
          merge_data self
          = raised "[Error] Failed to merge sentiment and stock return data: ")
      /\ (compute_correlation_body X self = (self', out, inl e) ->
          compute_correlation X self
          = (self',
             (out ++ [("[Error] Failed to compute correlation: " ++ exn_str e)%string])%list,
             inl e))
      /\ (plot_relationship_body X self = (self', out, inl e) ->
          plot_relationship X self = raised "[Error] Failed to generate plot: ")
      /\ (plot_correlation_heatmap_body X self = (self', out, inl e) ->
          plot_correlation_heatmap X self
          = raised "[Error] Failed to plot correlation heatmap: "))
  /\ (forall (F : Type) (num : Number F) (X : Externals F)
             (self self' : Analyzer F) (out : list string),
        (load_data_body X self = (self', out, inr tt) ->
         load_data X self = (self', out, inr tt))
        /\ (analyze_sentiment_body X self = (self', out, inr tt) ->
            analyze_sentiment X self = (self', out, inr tt))
        /\ (forall daily, aggregate_sentiment_body self = (self', out, inr daily) ->
                          aggregate_sentiment self = (self', out, inr daily))
        /\ (calculate_returns_body X self = (self', out, inr tt) ->
            calculate_returns X self = (self', out, inr tt))
        /\ (merge_data_body self = (self', out, inr tt) ->
            merge_data self = (self', out, inr tt))
        /\ (forall c, compute_correlation_body X self = (self', out, inr c) ->
                      compute_correlation X self = (self', out, inr c))
        /\ (plot_relationship_body X self = (self', out, inr tt) ->
            plot_relationship X self = (self', out, inr tt))
        /\ (plot_correlation_heatmap_body X self = (self', out, inr tt) ->
            plot_correlation_heatmap X self = (self', out, inr tt)))
  /\ (forall (F : Type) (num : Number F) (X : Externals F) (self : Analyzer F)
             (e : exn),
        let rows news :=
          filter (fun r => String.eqb (r_stock r) (stock_symbol self)) (rn_rows news) in
        let lost news :=
          let cleaned := map (fun r => CText (clean_date (r_date r))) (rows news) in
          mixed_offsets X cleaned && existsb isna (snd (parse_column X cleaned)) in
        read_news_csv X (news_path self) = inl e
        \/ (exists news, read_news_csv X (news_path self) = inr news
                         /\ read_stock_csv X (stock_path self) = inl e)
        \/ (exists news stock,
               read_news_csv X (news_path self) = inr news
               /\ read_stock_csv X (stock_path self) = inr stock
               /\ (has_column (map lower (rn_columns news)) "stock" = false
                   /\ e = Exn KeyError "'stock'"
                   \/ has_column (map lower (rn_columns news)) "stock" = true
                      /\ (has_column (map lower (rn_columns news)) "date" = false
                          /\ e = Exn KeyError "'date'"
                          \/ has_column (map lower (rn_columns news)) "date" = true
                             /\ (lost news = true
                                 /\ e = Exn AttributeError
                                          "Can only use .dt accessor with datetimelike values"
                                 \/ lost news = false
                                    /\ has_column (map lower (rs_columns stock)) "date"
                                       = false
                                    /\ e = Exn KeyError "'date'")))) ->
        exists self',
          load_data X self
          = (self', ["[Error] Failed to load and process data: " ++ exn_str e],
             inl e)
          /\ merged_df self' = merged_df self)
  /\ (forall (F : Type) (num : Number F) (X : Externals F) (self : Analyzer F)
             (news : RawNews) (stock : RawStock F),
        read_news_csv X (news_path self) = inr news ->
        read_stock_csv X (stock_path self) = inr stock ->
        has_column (map lower (rn_columns news)) "stock" = true ->
        has_column (map lower (rn_columns news)) "date" = true ->
        has_column (map lower (rs_columns stock)) "date" = true ->
        let cleaned :=
          map (fun r => CText (clean_date (r_date r)))
              (filter (fun r => String.eqb (r_stock r) (stock_symbol self))
                      (rn_rows news)) in
        mixed_offsets X cleaned && existsb isna (snd (parse_column X cleaned)) = false ->
        exists self',
          load_data X self
          = (self',
             ["[Debug] Unparsed news dates after fallback parsing: "
              ++ string_of_nat (count_unparsed (news_dates_of self'))],
             inr tt))
  /\ (forall (F : Type) (num : Number F) (X : Externals F) (self : Analyzer F),
        (news_df self = None -> stock_df self = None -> merged_df self = None ->
         snd (analyze_sentiment X self)
         = inl (Exn TypeError "'NoneType' object is not subscriptable")
         /\ snd (aggregate_sentiment self)
            = inl (Exn AttributeError "'NoneType' object has no attribute 'groupby'")
         /\ snd (calculate_returns X self)
            = inl (Exn AttributeError
                     "'NoneType' object has no attribute 'sort_values'")
         /\ snd (merge_data self)
            = inl (Exn AttributeError "'NoneType' object has no attribute 'groupby'")
         /\ snd (compute_correlation X self)
            = inl (Exn TypeError "'NoneType' object is not subscriptable")
         /\ snd (plot_correlation_heatmap X self)
            = inl (Exn TypeError "'NoneType' object is not subscriptable"))
        /\ forall e, regplot X (merged_df self) = inl e ->
                     plot_relationship X self
                     = (self, ["[Error] Failed to generate plot: " ++ exn_str e], inl e))
  /\ (forall (read_csv : string -> exn + RawNews) (self : EdaAnalysis.Eda),
        (exists self' out,
            EdaAnalysis.load_data read_csv self = (self', out, inr tt))
        /\ (forall e,
              read_csv (EdaAnalysis.input_path self) = inl e ->
              exn_cls e = FileNotFoundError ->
              EdaAnalysis.load_data read_csv self
              = (self, ["File not found. Check the relative path."], inr tt))).
Proof.
  split; [|split; [|split; [|split; [|split]]]].
  - intros F num X self self' out e. cbv zeta.
    repeat split; intros H; apply guarded_raises; exact H.
  - intros F num X self self' out.
    repeat split; intros; apply guarded_returns; assumption.
  - intros F num X self e. cbv zeta.
    intros [E | [(news & En & E) | (news & stock & En & Es & H)]].
    + exists self. split; [|reflexivity]. now apply load_data_news_missing.
    + exists self. split; [|reflexivity].
      now apply (load_data_stock_missing X self news).
    + exists self. split; [|reflexivity].
      destruct H as [[Hc ->] | [H1 [[Hc ->] | [H2 [[Hl ->] | (Hl & Hc & ->)]]]]].
      * now apply (load_data_schema_mismatch X self news stock).
      * now apply (load_data_no_news_date X self news stock).
      * now apply (load_data_object_column X self news stock).
      * now apply (load_data_no_stock_date X self news stock).
  - intros F num X self news stock En Es H1 H2 H3 cleaned Hm.
    now apply (load_data_ok X self news stock).
  - intros F num X self. split.
    + apply stages_on_None.
    + intros e He. unfold plot_relationship.
      rewrite (guarded_raises _ _ self self [] e); [reflexivity|].
      unfold plot_relationship_body, bind, get, lift. now rewrite He.
  - intros read_csv self. split.
    + apply eda_load_data_returns.
    + apply eda_load_data_file_missing.
Qed.

(** The claim C9 as stated, for the loader of [EdaAnalysis]: a missing file
    is not raised to the caller. *)
Lemma eda_load_failure_is_swallowed :
  ~ (forall (read_csv : string -> exn + RawNews) (self : EdaAnalysis.Eda)
            (e : exn),
        read_csv (EdaAnalysis.input_path self) = inl e ->
        exists self' out,
          EdaAnalysis.load_data read_csv self = (self', out, inl e)).
Proof.
  intros H.
  destruct (H no_file (EdaAnalysis.init "data.csv" (Some ["AAPL"])) _ eq_refl)
    as (self' & out & E).
  vm_compute in E. discriminate E.
Qed.

(* ================================================================== *)
(** * The stable sample sort sorts *)
(* ================================================================== *)

Section InsertionArgsort.

Variable before : Z -> Z -> bool.
Variable keys : list Z.

Hypothesis before_le : forall a b, before a b = true -> a <= b.
Hypothesis not_before_ge : forall a b, before a b = false -> b <= a.

Let key (i : nat) : Z := nth i keys 0.

Lemma insert_index_perm (i : nat) (sorted : list nat) :
  Permutation (insert_index before keys i sorted) (i :: sorted).
Proof.
  induction sorted as [|j rest IH]; cbn; [reflexivity|].
  destruct (before _ _); [reflexivity|].
  rewrite IH. apply perm_swap.
Qed.

Lemma insert_index_sorted (i : nat) (sorted : list nat) :
  StronglySorted Z.le (map key sorted) ->
  StronglySorted Z.le (map key (insert_index before keys i sorted)).
Proof.
  induction sorted as [|j rest IH]; cbn; intros Hs.
  - repeat constructor.
  - inversion Hs as [|? ? Hs' Hall]; subst.
    destruct (before (nth i keys 0) (nth j keys 0)) eqn:E; cbn.
    + apply before_le in E. constructor; [exact Hs|].
      constructor; [exact E|].
      eapply Forall_impl; [|exact Hall]. intros x Hx; cbn in *. unfold key in *. lia.
    + apply not_before_ge in E. constructor; [auto|].
      rewrite Forall_map. apply Forall_forall. intros x Hx.
      apply (Permutation_in _ (insert_index_perm i rest)) in Hx.
      destruct Hx as [<-|Hx]; [exact E|].
      rewrite Forall_map, Forall_forall in Hall. now apply Hall.
Qed.

Lemma insert_all_spec (todo : list nat) :
  forall done : list nat,
    StronglySorted Z.le (map key done) ->
    let result := fold_left (fun acc i => insert_index before keys i acc) todo done in
    Permutation result (rev todo ++ done)
    /\ StronglySorted Z.le (map key result).
Proof.
  induction todo as [|i todo IH]; intros done Hs; cbn.
  - split; [reflexivity | exact Hs].
  - destruct (IH (insert_index before keys i done) (insert_index_sorted i done Hs))
      as [Hp Hs'].
    split; [|exact Hs'].
    rewrite Hp, insert_index_perm, <- app_assoc. cbn.
    apply Permutation_app_head. reflexivity.
Qed.

Lemma sorted_nondecreasing (xs : list Z) :
  StronglySorted Z.le xs -> nondecreasing xs = true.
Proof.
  induction 1 as [|x xs Hs IH Hx]; [reflexivity|].
  destruct xs as [|y xs]; [reflexivity|].
  change (nondecreasing (x :: y :: xs))
    with ((x <=? y) && nondecreasing (y :: xs)).
  rewrite IH, andb_true_r.
  inversion Hx; subst. now apply Z.leb_le.
Qed.

Lemma argsort_with_sorts : is_argsort keys (argsort_with before keys) = true.
Proof.
  unfold argsort_with.
  destruct (insert_all_spec (seq 0 (List.length keys)) [] (SSorted_nil _))
    as [Hp Hs]. cbv zeta in Hp, Hs.
  rewrite app_nil_r in Hp.
  set (result := fold_left _ _ _) in *.
  assert (Hperm : Permutation result (seq 0 (List.length keys)))
    by (rewrite Hp; symmetry; apply Permutation_rev).
  unfold is_argsort. rewrite !andb_true_iff. repeat split.
  - apply Nat.eqb_eq. rewrite (Permutation_length Hperm). apply length_seq.
  - apply forallb_forall. intros i Hi. apply existsb_exists.
    exists i. split; [|apply Nat.eqb_refl].
    now apply (Permutation_in _ (Permutation_sym Hperm)).
  - now apply sorted_nondecreasing.
Qed.

End InsertionArgsort.

(** Both sample sorts pass [is_argsort] on every list of keys. *)
Lemma stable_argsort_sorts (keys : list Z) :
  is_argsort keys (stable_argsort keys) = true.
Proof.
  apply argsort_with_sorts; intros a b H.
  - apply Z.ltb_lt in H. lia.
  - apply Z.ltb_ge in H. exact H.
Qed.

(* ================================================================== *)
(** * The mean in exact arithmetic *)
(* ================================================================== *)

(** In exact arithmetic nothing is lost in an addition: the compensation
    stays zero and the compensated sum is the sum. *)
Lemma exact_kahan_step (acc q : Qc) :
  kahan_step (Some acc, Some (Q2Qc 0)) (Some q)
  = (Some (acc + q)%Qc, Some (Q2Qc 0)) :> exact * exact.
Proof.
  unfold kahan_step. cbn [sub add is_nan exact_Number exact_lift].
  assert (E1 : (acc + (q - Q2Qc 0))%Qc = (acc + q)%Qc) by ring.
  assert (E2 : (acc + (q - Q2Qc 0) - acc - (q - Q2Qc 0))%Qc = Q2Qc 0) by ring.
  now rewrite E2, E1.
Qed.

Lemma exact_total (qs : list Qc) (acc : Qc) :
  fold_left kahan_step (map Some qs) (Some acc, Some (Q2Qc 0))
  = (Some (fold_left Qcplus qs acc), Some (Q2Qc 0)) :> exact * exact.
Proof.
  revert acc; induction qs as [|q qs IH]; intros acc; [reflexivity|].
  cbn [map fold_left]. rewrite exact_kahan_step. apply IH.
Qed.

Lemma exact_count_nonzero (n : nat) :
  Q2Qc (inject_Z (Z.of_nat (S n))) <> Q2Qc 0.
Proof.
  intros E. apply Q2Qc_eq_iff in E.
  change 0%Q with (inject_Z 0) in E.
  apply (proj1 (inject_Z_injective _ _)) in E. lia.
Qed.

(** The mean of scores that are all present is their sum over their number. *)
Lemma exact_mean (q : Qc) (qs : list Qc) :
  mean (map Some (q :: qs) : list exact)
  = Some (fold_left Qcplus (q :: qs) (Q2Qc 0)
          / Q2Qc (inject_Z (Z.of_nat (List.length (q :: qs)))))%Qc.
Proof.
  unfold mean.
  assert (Ef : filter (fun x : exact => negb (is_nan x)) (map Some (q :: qs))
               = map Some (q :: qs)).
  { generalize (q :: qs). intros l. induction l as [|a l IH]; cbn; [reflexivity|].
    f_equal. exact IH. }
  rewrite Ef. cbn [map]. unfold total.
  change (Some q :: map Some qs) with (map Some (q :: qs) : list exact).
  change (of_count 0 : exact) with (Some (Q2Qc 0) : exact).
  rewrite exact_total, length_map. cbn [fst].
  cbn [div exact_Number of_count]. unfold exact_div.
  destruct (Qc_eq_dec _ _) as [E|_]; [|reflexivity].
  now apply exact_count_nonzero in E.
Qed.

(** The scores 0.4 and -0.2 of one group average to 0.1, exactly, and in
    float64 to the float64 0.1. *)
Lemma mean_of_the_example :
  mean [Some (Q2Qc (4 # 10)); Some (Q2Qc (-2 # 10))] = Some (Q2Qc (1 # 10)) :> exact
  /\ mean [f64_ratio 4 10; f64_ratio (-2) 10] = f64_ratio 1 10.
Proof.
  split; [|vm_compute; reflexivity].
  change [Some (Q2Qc (4 # 10)); Some (Q2Qc (-2 # 10))]
    with (map Some [Q2Qc (4 # 10); Q2Qc (-2 # 10)] : list exact).
  rewrite exact_mean. f_equal; apply Qc_is_canon; vm_compute; reflexivity.
Qed.

(* ================================================================== *)
(** * The statements at concrete inputs *)
(* ================================================================== *)

(** On a zoned column of two dates, the second in the fallback format. *)
Lemma load_data_loses_fallback_dates_witness :
  exists z dates,
    news_dates zoned_externals two_dates = inr (z, dates)
    /\ nth_error dates 1 = Some NaT
    /\ try_parse_custom_date (PStr (clean_date (CText "01/15/2021 09:30:00 AM")))
       = PDatetime (mkdatetime 2021 1 15 9 30 0 None).
Proof.
  destruct (proj1 load_data_loses_fallback_dates float64 zoned_externals two_dates)
    as [[(z & dates & E & H) | [Hm _]] Hp].
  - exists z, dates. split; [exact E|]. split.
    + apply (H 1%nat (CText "01/15/2021 09:30:00 AM")); reflexivity.
    + apply (Hp (CText "01/15/2021 09:30:00 AM")
                (mkdatetime 2021 1 15 9 30 0 None)); reflexivity.
  - vm_compute in Hm. discriminate Hm.
Defined.

(** On the column of one offset: it comes out naive, and the stripped column
    takes a naive datetime where the mask says.  On the column of two
    offsets: line 61 raises. *)
Lemma load_data_reconciles_datetime_columns_only_witness :
  (exists z dates,
      news_dates zoned_externals two_dates = inr (z, dates)
      /\ z = None
      /\ dates = [at_time 2020 6 5 10 30 54; NaT])
  /\ (exists col',
        loc_assign None [at_time 2020 6 5 10 30 54; NaT] [false; true]
                   [PDatetime (mkdatetime 2021 1 15 9 30 0 None)]
        = inr col'
        /\ nth_error col' 0 = Some (at_time 2020 6 5 10 30 54)
        /\ nth_error col' 1 = Some (at_time 2021 1 15 9 30 0))
  /\ news_dates (desk (inr two_offsets_news) (inr one_bar) stable_argsort)
                (map r_date (rn_rows two_offsets_news))
     = inl (Exn AttributeError "Can only use .dt accessor with datetimelike values").
Proof.
  pose proof load_data_reconciles_datetime_columns_only as (Hdates & Hstore & _).
  split; [|split].
  - destruct (proj1 (Hdates float64 zoned_externals two_dates) eq_refl)
      as (z & dates & E & _ & H & _).
    exists z, dates. split; [exact E|].
    destruct (H eq_refl) as [-> ->]. split; reflexivity.
  - destruct (Hstore [at_time 2020 6 5 10 30 54; NaT] [false; true]
                     [PDatetime (mkdatetime 2021 1 15 9 30 0 None)])
      as (col' & E & _ & Hkeep & Hput).
    + constructor; [|constructor]. right. eexists. split; reflexivity.
    + exists col'. split; [exact E|]. split.
      * apply (Hkeep 0%nat). reflexivity.
      * apply (Hput 1%nat (mkdatetime 2021 1 15 9 30 0 None));
          [cbn; lia | reflexivity | reflexivity].
  - apply (proj2 (Hdates float64
                    (desk (inr two_offsets_news) (inr one_bar) stable_argsort)
                    (map r_date (rn_rows two_offsets_news))));
      vm_compute; reflexivity.
Defined.

(** On a date written in the format, on a float and on an ISO date. *)
Lemma try_parse_custom_date_total_witness :
  try_parse_custom_date
    (PStr (custom_text (mkdatetime 2021 1 15 9 30 0 None)))
  = PDatetime (mkdatetime 2021 1 15 9 30 0 None)
  /\ ((exists msg, strptime PFloat custom_format = inl (Exn TypeError msg))
      /\ try_parse_custom_date PFloat = PNaT)
  /\ ((exists msg,
          strptime (PStr "2020-06-05 10:30:54") custom_format
          = inl (Exn ValueError msg))
      /\ try_parse_custom_date (PStr "2020-06-05 10:30:54") = PNaT).
Proof.
  pose proof try_parse_custom_date_total as (_ & _ & Hread & Hother & Hmiss & _).
  split; [|split].
  - apply Hread; reflexivity.
  - apply Hother. intros s; discriminate.
  - apply Hmiss; [reflexivity|]. intros g t. vm_compute. discriminate.
Defined.



(** On three bars out of order, and on the closes 100, 110, 99 in exact
    arithmetic. *)
Lemma calculate_returns_sorts_then_changes_witness :
  (exists self',
      calculate_returns (offline stable_argsort) shuffled_bars
      = (self', [], inr tt)
      /\ Permutation (map bar (daily_return self'))
                     (map bar (daily_return shuffled_bars))
      /\ dates_sorted (map s_date (daily_return self'))
      /\ map s_daily_return (daily_return self')
         = pct_change (map s_close (daily_return self')))
  /\ nth_error (pct_change [exact_of 100; exact_of 110; exact_of 99]) 1
     = Some (Some ((Q2Qc (inject_Z 110) - Q2Qc (inject_Z 100))
                  / Q2Qc (inject_Z 100))%Qc).
Proof.
  split.
  - exact (proj1 calculate_returns_sorts_then_changes float64 _
             (offline stable_argsort) shuffled_bars _
             eq_refl eq_refl eq_refl eq_refl).
  - apply (proj1 (proj2 calculate_returns_sorts_then_changes)
             [exact_of 100; exact_of 110; exact_of 99] 0%nat);
      [reflexivity | reflexivity |].
    intros E. apply (f_equal this) in E. vm_compute in E. discriminate E.
Defined.

(** On the closes 0, 110. *)
Lemma calculate_returns_zero_prior_close_witness :
  (exists self',
      calculate_returns (offline stable_argsort) zero_close_bars
      = (self', [], inr tt)
      /\ map s_daily_return (daily_return self')
         = pct_change (map s_close (daily_return self')))
  /\ exists r,
       nth_error (pct_change [f64_of_Z 0; f64_of_Z 110]) 1 = Some r
       /\ (f64_is_nan r = true \/ f64_is_inf r = true)
       /\ (f64_is_nan r = true
           <-> f64_is_nan (f64_of_Z 110) = true \/ f64_is_zero (f64_of_Z 110) = true).
Proof.
  split.
  - exact (proj1 calculate_returns_zero_prior_close (offline stable_argsort)
             zero_close_bars _ eq_refl eq_refl eq_refl).
  - exact (proj2 calculate_returns_zero_prior_close
             [f64_of_Z 0; f64_of_Z 110] 0%nat (f64_of_Z 0) (f64_of_Z 110)
             eq_refl eq_refl eq_refl).
Defined.

(** On a run that finds no news file, on a run that reads the sample files,
    and on the fresh object. *)
Lemma failures_are_logged_and_reraised_witness :
  load_data (offline stable_argsort) fresh
  = (fresh,
     ["[Error] Failed to load and process data: [Errno 2] No such file or directory: 'news.csv'"],
     inl (Exn FileNotFoundError "[Errno 2] No such file or directory: 'news.csv'"))
  /\ (exists self' : Analyzer float64,
        load_data (offline stable_argsort) fresh
        = (self',
           ["[Error] Failed to load and process data: [Errno 2] No such file or directory: 'news.csv'"],
           inl (Exn FileNotFoundError
                  "[Errno 2] No such file or directory: 'news.csv'"))
        /\ merged_df self' = merged_df fresh)
  /\ (exists self' : Analyzer float64,
        load_data (desk (inr fallback_news) (inr one_bar) stable_argsort) fresh
        = (self',
           ["[Debug] Unparsed news dates after fallback parsing: "
            ++ string_of_nat (count_unparsed (news_dates_of self'))],
           inr tt))
  /\ snd (merge_data fresh)
     = inl (Exn AttributeError "'NoneType' object has no attribute 'groupby'").
Proof.
  pose proof failures_are_logged_and_reraised as (Hraise & _ & Hload & Hok & Hnone & _).
  split; [|split; [|split]].
  - pose proof (Hraise float64 _ (offline stable_argsort) fresh fresh []
                  (Exn FileNotFoundError
                     "[Errno 2] No such file or directory: 'news.csv'")) as H.
    cbv zeta in H. apply (proj1 H). reflexivity.
  - pose proof (Hload float64 _ (offline stable_argsort) fresh
                  (Exn FileNotFoundError
                     "[Errno 2] No such file or directory: 'news.csv'")) as H.
    cbv zeta in H. apply H. left. reflexivity.
  - apply (Hok float64 _ (desk (inr fallback_news) (inr one_bar) stable_argsort)
               fresh fallback_news one_bar); reflexivity.
  - apply (proj1 (Hnone float64 _ (offline stable_argsort) fresh)); reflexivity.
Defined.

(** ** Cleaning the date text (lines 41-46) *)

Lemma rstrip_empty (s : string) : rstrip s = "" <-> all_space s = true.
Proof.
  destruct s as [|c s]; cbn [rstrip]; [split; reflexivity|].
  destruct (all_space (String c s)); split; intros H; try reflexivity; discriminate.
Qed.

Lemma rstrip_ends_visible (s : string) :
  rstrip s = "" \/ ends_visible (rstrip s) = true.
Proof.
  induction s as [|c s IH]; [left; reflexivity|].
  cbn [rstrip]. destruct (all_space (String c s)) eqn:E; [left; reflexivity|right].
  cbn [all_space] in E.
  destruct (rstrip s) as [|c' r] eqn:Er.
  - apply rstrip_empty in Er. rewrite Er, andb_true_r in E.
    cbn [ends_visible]. now rewrite E.
  - destruct IH as [IH|IH]; [discriminate|]. exact IH.
Qed.

Lemma lstrip_starts_visible (s : string) :
  lstrip s = "" \/ starts_visible (lstrip s) = true.
Proof.
  induction s as [|c s IH]; [left; reflexivity|].
  cbn [lstrip]. destruct (is_space c) eqn:E; [exact IH|].
  right; cbn [starts_visible]. now rewrite E.
Qed.

Lemma rstrip_starts_visible (s : string) :
  starts_visible s = true -> starts_visible (rstrip s) = true.
Proof.
  destruct s as [|c s]; [discriminate|]. cbn [starts_visible rstrip all_space].
  intros H. apply negb_true_iff in H. rewrite H. cbn [andb starts_visible].
  now rewrite H.
Qed.

Lemma strip_visible (s : string) :
  strip s = "" \/ (starts_visible (strip s) = true /\ ends_visible (strip s) = true).
Proof.
  unfold strip.
  destruct (lstrip_starts_visible s) as [E|E]; [left; now rewrite E|].
  destruct (rstrip_ends_visible (lstrip s)) as [E'|E']; [now left|right].
  split; [now apply rstrip_starts_visible | exact E'].
Qed.

Lemma no_double_blank_cons (a : ascii) (r : string) :
  is_space a = false -> no_double_blank r = true ->
  no_double_blank (String a r) = true.
Proof.
  intros Ha Hr. destruct r as [|b r]; [reflexivity|].
  cbn [no_double_blank] in *. now rewrite Ha, Hr.
Qed.

(** What [collapse_from] writes: no two blanks side by side; with a blank
    pending, one blank and then nothing or a visible character. *)
Lemma collapse_from_shape (s : string) :
  no_double_blank (collapse_from None false s) = true
  /\ forall c long, is_space c = true ->
       exists b, is_space b = true
         /\ (collapse_from (Some c) long s = String b ""
             \/ exists x k, collapse_from (Some c) long s = String b (String x k)
                            /\ is_space x = false
                            /\ no_double_blank (String x k) = true).
Proof.
  induction s as [|a s [IH1 IH2]].
  - split; [reflexivity|]. intros c long Hc.
    exists (if long then " "%char else c). split; [now destruct long|].
    left; reflexivity.
  - destruct (is_space a) eqn:Ea.
    + split.
      * cbn [collapse_from]; rewrite Ea.
        destruct (IH2 a false Ea) as (b & Hb & [E | (x & k & E & Hx & Hk)]);
          rewrite E; [reflexivity|].
        change (negb (is_space b && is_space x) && no_double_blank (String x k) = true).
        now rewrite Hx, andb_false_r, Hk.
      * intros c long Hc. cbn [collapse_from]; rewrite Ea. now apply IH2.
    + assert (Hk : no_double_blank (String a (collapse_from None false s)) = true)
        by now apply no_double_blank_cons.
      split.
      * cbn [collapse_from]; rewrite Ea. exact Hk.
      * intros c long Hc. cbn [collapse_from]; rewrite Ea.
        exists (if long then " "%char else c). split; [now destruct long|].
        right. now exists a, (collapse_from None false s).
Qed.

Lemma ends_visible_cons (a : ascii) (r : string) :
  ends_visible r = true -> ends_visible (String a r) = true.
Proof. destruct r; [discriminate|]. intros H; exact H. Qed.

Lemma collapse_from_ends_visible (s : string) :
  ends_visible s = true ->
  forall pending long, ends_visible (collapse_from pending long s) = true.
Proof.
  induction s as [|a s IH]; [discriminate|].
  intros H pending long.
  assert (Hs : s = "" /\ is_space a = false \/ ends_visible s = true).
  { destruct s; [left; split; [reflexivity|]|right; exact H].
    cbn [ends_visible] in H. now apply negb_true_iff in H. }
  cbn [collapse_from].
  destruct (is_space a) eqn:Ea.
  - destruct Hs as [[_ Hs]|Hs]; [discriminate|].
    destruct pending; now apply IH.
  - assert (Hk : ends_visible (String a (collapse_from None false s)) = true).
    { destruct Hs as [[-> _]|Hs].
      - cbn. now rewrite Ea.
      - apply ends_visible_cons. now apply IH. }
    destruct pending; [apply ends_visible_cons|]; exact Hk.
Qed.

Lemma collapse_blanks_starts_visible (s : string) :
  starts_visible s = true -> starts_visible (collapse_blanks s) = true.
Proof.
  destruct s as [|a s]; [discriminate|]. cbn [starts_visible]. intros H.
  apply negb_true_iff in H. unfold collapse_blanks; cbn [collapse_from].
  rewrite H. cbn [starts_visible]. now rewrite H.
Qed.

(** X1.  The text [load_data] hands to the date parser (lines 41-46) has no
    blank at either end and no two blanks side by side, whatever the cell
    held; cleaning it again changes nothing. *)
Theorem clean_date_is_clean (c : csv_cell) :
  let s := clean_date c in
  no_double_blank s = true
  /\ (s = "" \/ (starts_visible s = true /\ ends_visible s = true))
  /\ clean_date (CText s) = s.
Proof.
  cbv zeta.
  assert (H1 : no_double_blank (clean_date c) = true)
    by apply collapse_from_shape.
  assert (H2 : clean_date c = ""
               \/ (starts_visible (clean_date c) = true
                   /\ ends_visible (clean_date c) = true)).
  { unfold clean_date.
    destruct (strip_visible (astype_str c)) as [E|[Hs He]].
    - left. now rewrite E.
    - right. split; [now apply collapse_blanks_starts_visible|].
      now apply collapse_from_ends_visible. }
  split; [exact H1|]. split; [exact H2|].
  destruct H2 as [E|[Hs He]]; [now rewrite E|].
  destruct (clean_date c) as [|x k]; [discriminate|].
  apply clean_date_visible; [|exact He|exact H1].
  cbn [starts_visible] in Hs. now apply negb_true_iff in Hs.
Qed.

(** ** The fallback parser on dates that do not exist *)

Lemma first_match_custom_text_fields (y m d h mi s : Z) :
  0 <= y < 10000 -> 1 <= m < 13 -> 1 <= d < 32 ->
  valid_time h mi s = true ->
  exists t,
    first_match custom_regex (custom_text (mkdatetime y m d h mi s None))
      ([("m"%char, two_digits m); ("d"%char, two_digits d);
        ("Y"%char, four_digits y); ("I"%char, two_digits (hour12 h));
        ("M"%char, two_digits mi); ("S"%char, two_digits s);
        ("p"%char, meridiem h)], t, "").
Proof.
  intros Hy Hm Hday Ht.
  apply valid_time_bounds in Ht as (Hh & Hmi & Hs).
  pose proof (hour12_bounds h Hh) as H12.
  eexists. unfold custom_regex, custom_text; cbn [year month day hour minute second].
  repeat (eapply first_Cat;
          [ first [ apply first_month; lia | apply first_day; lia
                  | apply first_year; lia | apply first_hour12; lia
                  | apply first_minute; lia | apply first_second; lia
                  | apply first_lit | apply first_blank_digits; lia
                  | apply first_blank_meridiem | apply first_meridiem ]
          | | reflexivity | reflexivity ]).
  apply first_Eps.
Qed.

(** X2.  On a text laid out as "MM/DD/YYYY hh:mm:ss AM/PM" the fallback parser
    (lines 77-84) returns the date and time written when that day exists, and
    NaT, not an exception, when it does not (30 February, 31 April, year 0). *)
Theorem try_parse_custom_date_checks_the_calendar (y m d h mi s : Z) :
  0 <= y < 10000 -> 1 <= m < 13 -> 1 <= d < 32 ->
  valid_time h mi s = true ->
  try_parse_custom_date (PStr (custom_text (mkdatetime y m d h mi s None)))
  = if valid_date y m d then PDatetime (mkdatetime y m d h mi s None) else PNaT.
Proof.
  intros Hy Hm Hday Ht.
  destruct (first_match_custom_text_fields y m d h mi s Hy Hm Hday Ht) as (t & l & Hl).
  pose proof (valid_time_bounds _ _ _ Ht) as (Hh & Hmi & Hs).
  unfold try_parse_custom_date, strptime. rewrite pattern_custom_format.
  unfold re_match. rewrite Hl.
  change (negb (String.eqb "" "")) with false; cbv iota.
  rewrite hour_of_custom by exact Hh.
  unfold group_int; cbn [found Ascii.eqb Bool.eqb].
  rewrite !int_of_two_digits by lia.
  rewrite int_of_four_digits by lia.
  rewrite Ht. destruct (valid_date y m d); reflexivity.
Qed.

Lemma try_parse_custom_date_checks_the_calendar_witness :
  try_parse_custom_date (PStr "02/30/2021 09:30:00 AM") = PNaT
  /\ try_parse_custom_date (PStr "02/29/2024 12:05:00 PM")
     = PDatetime (mkdatetime 2024 2 29 12 5 0 None).
Proof.
  split.
  - apply (try_parse_custom_date_checks_the_calendar 2021 2 30 9 30 0);
      first [lia | reflexivity].
  - apply (try_parse_custom_date_checks_the_calendar 2024 2 29 12 5 0);
      first [lia | reflexivity].
Defined.

(** ** More on [load_data] *)

Section LoadState.

Context {F : Type} {num : Number F} (X : Externals F).

Lemma map_fst_combine {A B} (l : list A) (l' : list B) :
  List.length l' = List.length l -> map fst (combine l l') = l.
Proof.
  revert l'; induction l as [|a l IH]; intros [|b l'] Hl; cbn in *;
    try discriminate; [reflexivity|].
  f_equal. apply IH. lia.
Qed.

(** X3.  When both files are read and carry the columns asked for, whatever
    the letter case of their headers, and the news dates do not come out as an
    object column with an invalid date in it, [load_data] (lines 27-75)
    returns: it keeps the news records whose stock is exactly the symbol, in
    the order of the file and each with a date cell (NaT when no parser read
    it), keeps every price bar in the order of the file, and leaves an
    earlier merge in place. *)
Theorem load_data_keeps_the_symbol (self : Analyzer F) (news : RawNews)
                                   (stock : RawStock F) :
  read_news_csv X (news_path self) = inr news ->
  read_stock_csv X (stock_path self) = inr stock ->
  has_column (map lower (rn_columns news)) "stock" = true ->
  has_column (map lower (rn_columns news)) "date" = true ->
  has_column (map lower (rs_columns stock)) "date" = true ->
  let rows := filter (fun r => String.eqb (r_stock r) (stock_symbol self))
                     (rn_rows news) in
  let cleaned := map (fun r => CText (clean_date (r_date r))) rows in
  mixed_offsets X cleaned && existsb isna (snd (parse_column X cleaned)) = false ->
  exists self' out news' stock',
    load_data X self = (self', out, inr tt)
    /\ news_df self' = Some news' /\ stock_df self' = Some stock'
    /\ merged_df self' = merged_df self
    /\ n_columns news' = map lower (rn_columns news)
    /\ s_columns stock' = map lower (rs_columns stock)
    /\ map n_headline (n_rows news') = map r_headline rows
    /\ List.length (map n_date (n_rows news')) = List.length rows
    /\ n_object news' = mixed_offsets X cleaned
    /\ map s_close (s_rows stock') = map rs_close (rs_rows stock)
    /\ map s_date (s_rows stock')
       = snd (parse_column X (map rs_date (rs_rows stock)))
    /\ s_object stock' = mixed_offsets X (map rs_date (rs_rows stock)).
Proof.
  intros En Es H1 H2 H3 rows cleaned Hm.
  destruct (load_data_frames X self news stock En Es H1 H2 H3)
    as (z & dates & _ & Hl & E).
  { cbv zeta. rewrite map_map. exact Hm. }
  fold rows in Hl, E. rewrite map_map in E. fold cleaned in E.
  rewrite E. do 4 eexists. split; [reflexivity|].
  cbn [news_df stock_df merged_df set_stock_df set_news_df n_columns s_columns
       n_rows s_rows n_object s_object].
  pose proof (parse_column_length X (map rs_date (rs_rows stock))) as Hb.
  rewrite length_map in Hb.
  do 5 (split; [reflexivity|]). cbn [n_rows s_rows n_object s_object].
  split; [|split; [|split; [reflexivity|split; [|split; [|reflexivity]]]]].
  - rewrite map_map; cbn [n_headline].
    rewrite <- (map_map fst r_headline). now rewrite map_fst_combine.
  - rewrite !length_map, length_combine. lia.
  - rewrite map_map; cbn [s_close].
    rewrite <- (map_map fst rs_close). now rewrite map_fst_combine.
  - rewrite map_map; cbn [s_date]. now apply map_snd_combine.
Qed.

End LoadState.

(** On the sample files: the price file has its header in capitals, the news
    file holds the headlines of two stocks. *)
Lemma load_data_keeps_the_symbol_witness :
  exists self' out news' stock',
    load_data (desk (inr fallback_news) (inr one_bar) stable_argsort) fresh
    = (self', out, inr tt)
    /\ news_df self' = Some news' /\ stock_df self' = Some stock'
    /\ n_columns news' = map lower (rn_columns fallback_news)
    /\ s_columns stock' = map lower (rs_columns one_bar)
    /\ map n_headline (n_rows news') = [CText "Apple beats estimates"; CText "Apple slips"]
    /\ map s_close (s_rows stock') = map rs_close (rs_rows one_bar).
Proof.
  destruct (load_data_keeps_the_symbol
              (desk (inr fallback_news) (inr one_bar) stable_argsort)
              fresh fallback_news one_bar eq_refl eq_refl eq_refl eq_refl eq_refl
              eq_refl)
    as (self' & out & news' & stock' & E & Hn & Hs & _ & Hc & Hsc & Hh & _ & _ & Hcl & _).
  exists self', out, news', stock'.
  repeat split; assumption.
Defined.

(** ** Stages run out of order *)

(** X4.  On an object that holds no frame yet, none of the stages after
    [load_data] can run: each raises the [TypeError] or [AttributeError] of
    using [None], prints it under its own prefix and leaves the object as it
    was; [merge_data] prints the failure of [aggregate_sentiment] twice. *)
Theorem stages_need_load_data {F : Type} {num : Number F} (X : Externals F)
                              (self : Analyzer F) :
  news_df self = None -> stock_df self = None -> merged_df self = None ->
  let not_subscriptable := "'NoneType' object is not subscriptable" in
  let no_groupby := "'NoneType' object has no attribute 'groupby'" in
  let no_sort_values := "'NoneType' object has no attribute 'sort_values'" in
  analyze_sentiment X self
  = (self, ["[Error] Sentiment analysis failed: " ++ not_subscriptable],
     inl (Exn TypeError not_subscriptable))
  /\ aggregate_sentiment self
     = (self, ["[Error] Failed to aggregate sentiment: " ++ no_groupby],
        inl (Exn AttributeError no_groupby))
  /\ calculate_returns X self
     = (self, ["[Error] Failed to compute daily returns: " ++ no_sort_values],
        inl (Exn AttributeError no_sort_values))
  /\ merge_data self
     = (self,
        ["[Error] Failed to aggregate sentiment: " ++ no_groupby;
         "[Error] Failed to merge sentiment and stock return data: " ++ no_groupby],
        inl (Exn AttributeError no_groupby))
  /\ compute_correlation X self
     = (self, ["[Error] Failed to compute correlation: " ++ not_subscriptable],
        inl (Exn TypeError not_subscriptable))
  /\ plot_correlation_heatmap X self
     = (self, ["[Error] Failed to plot correlation heatmap: " ++ not_subscriptable],
        inl (Exn TypeError not_subscriptable)).
Proof.
  intros Hn Hs Hm. cbv zeta.
  unfold analyze_sentiment, analyze_sentiment_body, aggregate_sentiment,
    calculate_returns, calculate_returns_body, merge_data, merge_data_body,
    compute_correlation, compute_correlation_body, plot_correlation_heatmap,
    plot_correlation_heatmap_body, aggregate_sentiment, aggregate_sentiment_body,
    guarded, try_except, print_and_reraise, bind, get, lift, raise, print.
  rewrite Hn, Hs, Hm. cbn. repeat split.
Qed.

Lemma stages_need_load_data_witness :
  let X := offline stable_argsort in
  analyze_sentiment X fresh
  = (fresh,
     ["[Error] Sentiment analysis failed: 'NoneType' object is not subscriptable"],
     inl (Exn TypeError "'NoneType' object is not subscriptable"))
  /\ snd (merge_data fresh)
     = inl (Exn AttributeError "'NoneType' object has no attribute 'groupby'").
Proof.
  destruct (stages_need_load_data (offline stable_argsort) fresh
              eq_refl eq_refl eq_refl) as (H1 & _ & _ & H4 & _).
  split; [exact H1|]. now rewrite H4.
Defined.

(** ** More on the aggregation *)

Section AggregationOrder.

Context {F : Type} {num : Number F}.

Lemma insert_key_length (k : Z) (keys : list Z) :
  (List.length (insert_key k keys) <= S (List.length keys))%nat.
Proof.
  induction keys as [|k' keys IH]; cbn [insert_key List.length]; [lia|].
  destruct (k <? k'); [cbn [List.length]; lia|].
  destruct (k =? k'); cbn [List.length]; lia.
Qed.

Lemma group_keys_length (dates : list timestamp) :
  (List.length (group_keys dates) <= List.length dates)%nat.
Proof.
  induction dates as [|[k|] dates IH]; cbn [group_keys List.length]; [lia| |lia].
  pose proof (insert_key_length k (group_keys dates)). lia.
Qed.

(** X5.  On a news frame with its "date" and "sentiment" columns,
    [aggregate_sentiment] (lines 98-104) returns without printing and without
    touching the object; the rows it returns carry dates that are present and
    strictly increasing, and are no more than the news records. *)
Theorem aggregate_sentiment_sorted_by_date (self : Analyzer F) (news : NewsFrame F) :
  news_df self = Some news ->
  has_column (n_columns news) "date" = true ->
  has_column (n_columns news) "sentiment" = true ->
  exists keys rows,
    aggregate_sentiment self = (self, [], inr (mkDailyFrame (n_tz news) rows))
    /\ map d_date rows = map Some keys
    /\ StronglySorted Z.lt keys
    /\ (List.length rows <= List.length (n_rows news))%nat.
Proof.
  intros Hn H1 H2.
  exists (group_keys (map n_date (n_rows news))), (groupby_date_mean (n_rows news)).
  split; [|split; [|split]].
  - unfold aggregate_sentiment, aggregate_sentiment_body, guarded, try_except,
      bind, get, lift, ret, attr_of, getitem, getitem_grouped.
    rewrite Hn, H1, H2. reflexivity.
  - apply groupby_date_mean_keys.
  - apply group_keys_sorted.
  - unfold groupby_date_mean. rewrite length_map.
    pose proof (group_keys_length (map n_date (n_rows news))) as H.
    now rewrite length_map in H.
Qed.

End AggregationOrder.

Lemma aggregate_sentiment_sorted_by_date_witness :
  exists news keys rows,
    news_df same_day_state = Some news
    /\ aggregate_sentiment same_day_state
       = (same_day_state, [], inr (mkDailyFrame (n_tz news) rows))
    /\ map d_date rows = map Some keys
    /\ StronglySorted Z.lt keys
    /\ (List.length rows <= List.length (n_rows news))%nat.
Proof.
  eexists.
  destruct (aggregate_sentiment_sorted_by_date same_day_state _
              eq_refl eq_refl eq_refl) as (keys & rows & H).
  exists keys, rows. split; [reflexivity | exact H].
Defined.

(** ** More on the merge *)

Lemma normalize_midnight (z : tz) (ns : Z) : midnight z (normalize z (Some ns)).
Proof.
  unfold midnight, normalize; cbn [option_map]. eexists. split; [reflexivity|].
  set (a := ns + offset z).
  replace (a - a mod NS_PER_DAY - offset z + offset z) with (a - a mod NS_PER_DAY)
    by lia.
  rewrite Zminus_mod_idemp_r, Z.sub_diag. reflexivity.
Qed.

Lemma normalize_of_midnight (z : tz) (t : timestamp) :
  t = NaT \/ midnight z t -> normalize z t = t.
Proof.
  intros [-> | (ns & -> & H)]; [reflexivity|].
  unfold normalize; cbn [option_map]. rewrite H. f_equal. lia.
Qed.

Lemma normalize_idem (z : tz) (t : timestamp) :
  normalize z (normalize z t) = normalize z t.
Proof.
  apply normalize_of_midnight. destruct t as [ns|]; [right|left; reflexivity].
  apply normalize_midnight.
Qed.

Section MergeMore.

Context {F : Type} {num : Number F}.

Lemma normalize_stock_idem (stock : StockFrame F) :
  normalize_stock (normalize_stock stock) = normalize_stock stock.
Proof.
  unfold normalize_stock; cbn [s_columns s_tz s_rows]. f_equal.
  rewrite map_map. apply map_ext. intros r; cbn [s_date s_close s_daily_return].
  now rewrite normalize_idem.
Qed.

(** X7.  When [aggregate_sentiment] fails inside [merge_data] (lines 115-137),
    the failure is printed twice, under the prefix of each method, the same
    exception reaches the caller and the object is left as it was. *)
Theorem merge_data_logs_aggregation_failure_twice
        (self self1 : Analyzer F) (out : list string) (e : exn) :
  aggregate_sentiment self = (self1, out, inl e) ->
  self1 = self
  /\ out = ["[Error] Failed to aggregate sentiment: " ++ exn_str e]
  /\ merge_data self
     = (self,
        ["[Error] Failed to aggregate sentiment: " ++ exn_str e;
         "[Error] Failed to merge sentiment and stock return data: " ++ exn_str e],
        inl e).
Proof.
  intros H.
  assert (Ha : aggregate_sentiment self
               = (self, ["[Error] Failed to aggregate sentiment: " ++ exn_str e], inl e)).
  { revert H.
    unfold aggregate_sentiment, aggregate_sentiment_body, guarded, try_except,
      print_and_reraise, bind, get, lift, ret, raise, print, attr_of, getitem,
      getitem_grouped.
    destruct (news_df self) as [news|]; cbn.
    - destruct (has_column (n_columns news) "date"); cbn.
      + destruct (has_column (n_columns news) "sentiment"); cbn;
          intros E; inversion E; reflexivity.
      + intros E; inversion E; reflexivity.
    - intros E; inversion E; reflexivity. }
  rewrite Ha in H. inversion H; subst self1 out.
  split; [reflexivity|]. split; [reflexivity|].
  unfold merge_data.
  rewrite (guarded_raises _ _ self self
             ["[Error] Failed to aggregate sentiment: " ++ exn_str e] e);
    [reflexivity|].
  unfold merge_data_body, bind. now rewrite Ha.
Qed.

(** X8.  From a state that holds both tables (the columns [merge_data] reads,
    datetime dates) of which one has naive dates and the other zoned ones:
    when both tables have rows, or neither has, [merge_data] raises the
    [ValueError] of the join, printed under its prefix, with the price dates
    already normalized in place (line 120) and [merged_df] what it was; when
    exactly one table has no row, the join does not compare the kinds, and
    [merge_data] returns with an empty merge and the warning. *)
Theorem merge_data_rejects_mixed_zones (self : Analyzer F) (news : NewsFrame F)
                                       (stock : StockFrame F) :
  news_df self = Some news -> stock_df self = Some stock ->
  tables self = true -> one_kind self = false ->
  (is_empty (groupby_date_mean (n_rows news)) = is_empty (s_rows stock) ->
   exists msg,
     merge_data self
     = (set_stock_df self (normalize_stock stock),
        ["[Error] Failed to merge sentiment and stock return data: " ++ msg],
        inl (Exn ValueError msg))
     /\ merged_df (set_stock_df self (normalize_stock stock)) = merged_df self)
  /\ (xorb (is_empty (groupby_date_mean (n_rows news))) (is_empty (s_rows stock))
      = true ->
      merge_data self
      = (set_merged_df (set_stock_df self (normalize_stock stock)) [],
         [merge_warning], inr tt)).
Proof.
  intros Hn Hs Ht Hk. split.
  - intros He.
    destruct (merge_data_mixed_kinds self news stock Hn Hs Ht Hk He) as (msg & E).
    exists msg. split; [exact E | reflexivity].
  - intros He. now apply (merge_data_one_empty self news stock).
Qed.

Lemma merged_of_dates (news : NewsFrame F) (stock : StockFrame F) (m : MergedRow F) :
  In m (merged_of news stock) ->
  exists k, In (Some k) (map n_date (n_rows news))
            /\ m_date m = normalize (n_tz news) (Some k).
Proof.
  unfold merged_of, normalize_daily; cbn [d_rows d_tz].
  intros H. apply inner_join_In in H as (l & r & Hl & _ & _ & ->).
  apply in_map_iff in Hl as (l0 & <- & Hl0).
  destruct (groupby_date_mean_row _ _ Hl0) as (k & Hk & Hin & _).
  exists k. split; [exact Hin|]. cbn [m_date d_date]. now rewrite Hk.
Qed.

(** X9.  After [merge_data] every merged record carries the midnight of a
    day on the clock of the news dates, never NaT (whatever bars without a
    date the price frame holds), and the dates of the price frame have been
    replaced by the midnights of their days. *)
Theorem merge_data_leaves_calendar_dates (self : Analyzer F) :
  ready self = true ->
  exists self' out news stock',
    merge_data self = (self', out, inr tt)
    /\ news_df self = Some news /\ stock_df self' = Some stock'
    /\ (forall m, In m (merged_rows self') -> midnight (n_tz news) (m_date m))
    /\ (forall r, In r (s_rows stock') ->
                  s_date r = NaT \/ midnight (s_tz stock') (s_date r)).
Proof.
  intros Hr. destruct (ready_frames self Hr) as (news & stock & Hn & Hs).
  rewrite (merge_data_ready self news stock Hn Hs Hr).
  do 4 eexists. split; [reflexivity|]. split; [exact Hn|]. split; [reflexivity|].
  cbn [merged_rows merged_df set_merged_df]. split.
  - intros m Hm. apply merged_of_dates in Hm as (k & _ & ->).
    apply normalize_midnight.
  - unfold normalize_stock; cbn [s_rows s_tz]. intros r Hin.
    apply in_map_iff in Hin as (r0 & <- & _). cbn [s_date].
    destruct (s_date r0) as [ns|]; [right; apply normalize_midnight | left; reflexivity].
Qed.

Lemma ready_after_merge (self : Analyzer F) (news : NewsFrame F)
                        (stock : StockFrame F) (rows : list (MergedRow F)) :
  news_df self = Some news -> stock_df self = Some stock ->
  ready (set_merged_df (set_stock_df self (normalize_stock stock)) rows)
  = ready self.
Proof.
  intros Hn Hs. unfold ready, tables, one_kind.
  cbn [news_df stock_df set_merged_df set_stock_df].
  rewrite Hn, Hs. reflexivity.
Qed.

(** X10.  [merge_data] can be run again: from the state a first run leaves,
    a second run prints the same line and leaves the same state, the dates
    normalized in place being their own midnights. *)
Theorem merge_data_twice (self : Analyzer F) :
  ready self = true ->
  exists self' out,
    merge_data self = (self', out, inr tt)
    /\ merge_data self' = (self', out, inr tt).
Proof.
  intros Hr. destruct (ready_frames self Hr) as (news & stock & Hn & Hs).
  rewrite (merge_data_ready self news stock Hn Hs Hr).
  do 2 eexists. split; [reflexivity|].
  set (self' := set_merged_df (set_stock_df self (normalize_stock stock))
                              (merged_of news stock)).
  assert (Hn' : news_df self' = Some news) by exact Hn.
  assert (Hs' : stock_df self' = Some (normalize_stock stock)) by reflexivity.
  assert (Hr' : ready self' = true)
    by (unfold self'; now rewrite (ready_after_merge self news stock)).
  rewrite (merge_data_ready self' news (normalize_stock stock) Hn' Hs' Hr').
  assert (Em : merged_of news (normalize_stock stock) = merged_of news stock)
    by (unfold merged_of; now rewrite normalize_stock_idem).
  rewrite Em, normalize_stock_idem. reflexivity.
Qed.

(** X11.  From a state that holds both tables (the columns [merge_data]
    reads, datetime dates of one kind: both naive or both zoned), when the
    news dates carry no time of day (each is NaT or the midnight of a day)
    and no two bars fall on one day, [merge_data] returns and the merged
    records are at most as many as the rows of either table. *)
Theorem merge_data_count_bound_on_daily_news (self : Analyzer F) (news : NewsFrame F) :
  ready self = true ->
  news_df self = Some news ->
  (forall r, In r (n_rows news) ->
             n_date r = NaT \/ midnight (n_tz news) (n_date r)) ->
  NoDup (return_dates self) ->
  exists self' out,
    merge_data self = (self', out, inr tt)
    /\ (List.length (merged_rows self')
        <= Nat.min (List.length (daily_sentiment self))
                   (List.length (daily_return self)))%nat.
Proof.
  intros Hr Hn Hmid Hnd. apply merge_data_count_bound; [exact Hr | | exact Hnd].
  unfold sentiment_dates. rewrite Hn.
  rewrite (map_ext_in _ d_date).
  - apply groupby_date_mean_NoDup.
  - intros d Hd. apply normalize_of_midnight.
    destruct (groupby_date_mean_row _ _ Hd) as (k & Hk & Hin & _).
    apply in_map_iff in Hin as (r & Er & Hin).
    rewrite Hk, <- Er. now apply Hmid.
Qed.

End MergeMore.

(** [merge_data] on an object that holds no news frame. *)
Lemma merge_data_logs_aggregation_failure_twice_witness :
  let e := Exn AttributeError "'NoneType' object has no attribute 'groupby'" in
  aggregate_sentiment fresh
  = (fresh, ["[Error] Failed to aggregate sentiment: " ++ exn_str e], inl e)
  /\ merge_data fresh
     = (fresh,
        ["[Error] Failed to aggregate sentiment: " ++ exn_str e;
         "[Error] Failed to merge sentiment and stock return data: " ++ exn_str e],
        inl e).
Proof.
  split; [reflexivity|].
  exact (proj2 (proj2 (merge_data_logs_aggregation_failure_twice
                         fresh fresh _ _ eq_refl))).
Defined.

(** News dated with an offset and bars dated without; a headline that has
    no date and a bar dated with an offset. *)
Lemma merge_data_rejects_mixed_zones_witness :
  (exists msg,
      snd (merge_data aware_overlap_state) = inl (Exn ValueError msg)
      /\ snd (fst (merge_data aware_overlap_state))
         = ["[Error] Failed to merge sentiment and stock return data: " ++ msg])
  /\ option_map n_tz (news_df undated_state) = Some None
  /\ option_map s_tz (stock_df undated_state) = Some (Some est)
  /\ snd (merge_data undated_state) = inr tt
  /\ snd (fst (merge_data undated_state)) = [merge_warning]
  /\ merged_df (fst (fst (merge_data undated_state))) = Some [].
Proof.
  split.
  - destruct (proj1 (merge_data_rejects_mixed_zones aware_overlap_state _ _
                       eq_refl eq_refl eq_refl eq_refl) eq_refl)
      as (msg & E & _).
    exists msg. rewrite E. split; reflexivity.
  - do 2 (split; [reflexivity|]).
    rewrite (proj2 (merge_data_rejects_mixed_zones undated_state _ _
                      eq_refl eq_refl eq_refl eq_refl) eq_refl).
    repeat split.
Defined.

Lemma merge_data_leaves_calendar_dates_witness :
  ready overlap_state = true
  /\ exists self' out news stock',
       merge_data overlap_state = (self', out, inr tt)
       /\ news_df overlap_state = Some news /\ stock_df self' = Some stock'
       /\ (forall m, In m (merged_rows self') -> midnight (n_tz news) (m_date m))
       /\ (forall r, In r (s_rows stock') ->
                     s_date r = NaT \/ midnight (s_tz stock') (s_date r)).
Proof.
  split; [reflexivity|].
  exact (merge_data_leaves_calendar_dates overlap_state eq_refl).
Defined.

Lemma merge_data_twice_witness :
  ready overlap_state = true
  /\ exists self' out,
       merge_data overlap_state = (self', out, inr tt)
       /\ merge_data self' = (self', out, inr tt).
Proof.
  split; [reflexivity|]. exact (merge_data_twice overlap_state eq_refl).
Defined.

(** Three headlines dated without a time of day, two of them on one day. *)
Lemma merge_data_count_bound_on_daily_news_witness :
  List.length (daily_sentiment date_only_state) = 2%nat
  /\ List.length (daily_return date_only_state) = 2%nat
  /\ exists self' out,
       merge_data date_only_state = (self', out, inr tt)
       /\ (List.length (merged_rows self')
           <= Nat.min (List.length (daily_sentiment date_only_state))
                      (List.length (daily_return date_only_state)))%nat.
Proof.
  split; [reflexivity|]. split; [reflexivity|].
  eapply (merge_data_count_bound_on_daily_news date_only_state);
    [reflexivity | reflexivity | | ].
  - intros r Hr. right. cbn [n_tz].
    vm_compute in Hr.
    destruct Hr as [<-|[<-|[<-|[]]]]; eexists; (split; [reflexivity|]);
      vm_compute; reflexivity.
  - vm_compute. repeat constructor; cbn; intuition discriminate.
Defined.

(** ** More on the daily returns *)

Section ReturnsMore.

Context {F : Type} {num : Number F}.

Lemma ffill_step (xs : list F) :
  forall (last : F) (i : nat) (v x : F),
    nth_error (ffill last xs) i = Some v ->
    nth_error xs (S i) = Some x ->
    nth_error (ffill last xs) (S i) = Some (if is_nan x then v else x).
Proof.
  induction xs as [|a xs IH]; intros last i v x Hv Hx; [destruct i; discriminate|].
  destruct i as [|i].
  - cbn in Hv. injection Hv as <-.
    destruct xs as [|b xs]; [discriminate|]. cbn in Hx. injection Hx as <-.
    reflexivity.
  - cbn [ffill nth_error] in *. now apply IH.
Qed.

Lemma pct_change_at (xs : list F) (i : nat) (a b : F) :
  nth_error (ffill nan xs) i = Some b ->
  nth_error (ffill nan xs) (S i) = Some a ->
  nth_error (pct_change xs) (S i) = Some (sub (div a b) (of_count 1)).
Proof.
  intros Hb Ha. unfold pct_change.
  assert (Hlen : (S i < List.length (ffill nan xs))%nat)
    by (apply nth_error_Some; rewrite Ha; discriminate).
  rewrite nth_error_map.
  rewrite (nth_error_combine _ _ (S i) a b Ha (shift1_nth _ i b Hb Hlen)).
  reflexivity.
Qed.

(** A missing close takes the last close before the change is computed. *)
Lemma pct_change_fill (closes : list F) (i : nat) (p x : F) :
  nth_error closes i = Some p -> is_nan p = false ->
  nth_error closes (S i) = Some x -> is_nan x = true ->
  nth_error (pct_change closes) (S i) = Some (sub (div p p) (of_count 1))
  /\ forall c, nth_error closes (S (S i)) = Some c -> is_nan c = false ->
               nth_error (pct_change closes) (S (S i))
               = Some (sub (div c p) (of_count 1)).
Proof.
  intros Hp Hpn Hx Hxn.
  destruct (ffill_next closes nan i p x Hp Hpn Hx) as [H0 H1].
  rewrite Hxn in H1. split.
  - now apply pct_change_at.
  - intros c Hc Hcn. apply pct_change_at; [exact H1|].
    rewrite (ffill_step closes nan (S i) p c H1 Hc). now rewrite Hcn.
Qed.

End ReturnsMore.

Lemma exact_unchanged (p : Qc) :
  p <> Q2Qc 0 ->
  sub (div (Some p) (Some p)) (of_count 1) = Some (Q2Qc 0) :> exact.
Proof.
  intros Hp. rewrite exact_change by exact Hp. f_equal.
  unfold Qcminus. rewrite Qcplus_opp_r. unfold Qcdiv. apply Qcmult_0_l.
Qed.

(** X12.  A missing close is filled with the last close before the change is
    taken ([pct_change] with the [fill_method] of pandas 1 and 2): the return
    of a bar whose close is missing, after a close [p] that is present, is
    [p / p - 1], not a missing value, and the return of the next bar is taken
    from [p].  In exact arithmetic, with [p] not zero, these are 0 and
    [(c - p) / p]. *)
Theorem pct_change_fills_missing_closes :
  (forall (F : Type) (num : Number F) (closes : list F) (i : nat) (p x : F),
      nth_error closes i = Some p -> is_nan p = false ->
      nth_error closes (S i) = Some x -> is_nan x = true ->
      nth_error (pct_change closes) (S i) = Some (sub (div p p) (of_count 1))
      /\ forall c, nth_error closes (S (S i)) = Some c -> is_nan c = false ->
                   nth_error (pct_change closes) (S (S i))
                   = Some (sub (div c p) (of_count 1)))
  /\ (forall (closes : list exact) (i : nat) (p : Qc),
        nth_error closes i = Some (Some p) -> p <> Q2Qc 0 ->
        nth_error closes (S i) = Some None ->
        nth_error (pct_change closes) (S i) = Some (Some (Q2Qc 0))
        /\ forall c : Qc,
             nth_error closes (S (S i)) = Some (Some c) ->
             nth_error (pct_change closes) (S (S i))
             = Some (Some ((c - p) / p)%Qc)).
Proof.
  split.
  - intros F num. apply pct_change_fill.
  - intros closes i p Hp Hnz Hx.
    assert (Hpn : is_nan (Some p : exact) = false) by reflexivity.
    assert (Hxn : is_nan (None : exact) = true) by reflexivity.
    destruct (pct_change_fill closes i (Some p) None Hp Hpn Hx Hxn) as [H1 H2].
    split.
    + rewrite H1. f_equal. now apply exact_unchanged.
    + intros c Hc. rewrite (H2 (Some c) Hc eq_refl). f_equal.
      now apply exact_change.
Qed.

(** Closes 100, missing, 110 in exact arithmetic: the returns are missing, 0
    and 10 %. *)
Lemma pct_change_fills_missing_closes_witness :
  nth_error (pct_change [exact_of 100; None; exact_of 110]) 1 = Some (Some (Q2Qc 0))
  /\ nth_error (pct_change [exact_of 100; None; exact_of 110]) 2
     = Some (Some ((Q2Qc (inject_Z 110) - Q2Qc (inject_Z 100))
                   / Q2Qc (inject_Z 100))%Qc).
Proof.
  destruct (proj2 pct_change_fills_missing_closes
              [exact_of 100; None; exact_of 110] 0%nat (Q2Qc (inject_Z 100))
              eq_refl ltac:(discriminate) eq_refl) as [H1 H2].
  split; [exact H1|]. exact (H2 (Q2Qc (inject_Z 110)) eq_refl).
Defined.

Section ReturnsWithoutClose.

Context {F : Type} {num : Number F} (X : Externals F).

(** X13.  [load_data] does not ask for the "close" column: when the two
    files are read and carry the columns it does ask for, and the news dates
    do not come out as an object column with an invalid date in it, a price
    file without "close" loads, and the [KeyError] comes from
    [calculate_returns] (lines 106-113), printed and raised again, once the
    bars are already sorted in place and with no "daily_return" column
    added. *)
Theorem calculate_returns_needs_close (self : Analyzer F) (news : RawNews)
                                      (stock : RawStock F) :
  read_news_csv X (news_path self) = inr news ->
  read_stock_csv X (stock_path self) = inr stock ->
  has_column (map lower (rn_columns news)) "stock" = true ->
  has_column (map lower (rn_columns news)) "date" = true ->
  has_column (map lower (rs_columns stock)) "date" = true ->
  has_column (map lower (rs_columns stock)) "close" = false ->
  let cleaned :=
    map (fun r => CText (clean_date (r_date r)))
        (filter (fun r => String.eqb (r_stock r) (stock_symbol self))
                (rn_rows news)) in
  mixed_offsets X cleaned && existsb isna (snd (parse_column X cleaned)) = false ->
  exists self1 out1 stock1 self2,
    load_data X self = (self1, out1, inr tt)
    /\ stock_df self1 = Some stock1
    /\ calculate_returns X self1
       = (self2, ["[Error] Failed to compute daily returns: 'close'"],
          inl (Exn KeyError "'close'"))
    /\ stock_df self2
       = Some (mkStockFrame (map lower (rs_columns stock)) (s_tz stock1)
                 (s_object stock1)
                 (sort_values_date (np_argsort X) (s_rows stock1))).
Proof.
  intros En Es H1 H2 H3 H4 cleaned Hm.
  destruct (load_data_frames X self news stock En Es H1 H2 H3)
    as (z & dates & _ & _ & E).
  { cbv zeta. rewrite map_map. exact Hm. }
  rewrite E. do 4 eexists. split; [reflexivity|]. split; [reflexivity|].
  unfold calculate_returns, calculate_returns_body, guarded, try_except,
    print_and_reraise, bind, get, lift, put, raise, print, attr_of, getitem.
  cbn [stock_df set_stock_df s_columns]. rewrite H3, H4.
  cbn -[sort_values_date]. split; reflexivity.
Qed.

End ReturnsWithoutClose.

(** ** [__repr__] *)

(** X14.  [__repr__] (lines 24-25) shows 0 records while nothing is merged,
    on every object.  From a state that holds both tables (the columns
    [merge_data] reads, datetime dates of one kind), [merge_data] returns and
    [__repr__] then shows the number of merged records, the one the "[Info]"
    line prints, and 0 again after an empty merge. *)
Theorem repr_counts_merged_records {F : Type} {num : Number F} (self : Analyzer F) :
  (merged_df self = None ->
   repr self = "<SentimentReturnAnalyzer stock=" ++ stock_symbol self
               ++ " records=0>")
  /\ (ready self = true ->
      exists self' out,
        merge_data self = (self', out, inr tt)
        /\ repr self'
           = "<SentimentReturnAnalyzer stock=" ++ stock_symbol self ++ " records="
             ++ string_of_nat (List.length (merged_rows self')) ++ ">"
        /\ out = [match merged_rows self' with
                  | [] => merge_warning
                  | _ => "[Info] Successfully merged data. Records: "
                         ++ string_of_nat (List.length (merged_rows self'))
                  end]).
Proof.
  split.
  - intros Hm. unfold repr. now rewrite Hm.
  - intros Hr. destruct (ready_frames self Hr) as (news & stock & Hn & Hs).
    rewrite (merge_data_ready self news stock Hn Hs Hr).
    do 2 eexists. split; [reflexivity|]. split; reflexivity.
Qed.

(** On the fresh object, and on the state of the example of the inner
    join. *)
Lemma repr_counts_merged_records_witness :
  repr fresh = "<SentimentReturnAnalyzer stock=AAPL records=0>"
  /\ repr overlap_state = "<SentimentReturnAnalyzer stock=AAPL records=0>"
  /\ exists self' out,
       merge_data overlap_state = (self', out, inr tt)
       /\ repr self' = "<SentimentReturnAnalyzer stock=AAPL records=2>"
       /\ out = ["[Info] Successfully merged data. Records: 2"].
Proof.
  split; [|split].
  - exact (proj1 (repr_counts_merged_records fresh) eq_refl).
  - exact (proj1 (repr_counts_merged_records overlap_state) eq_refl).
  - destruct (proj2 (repr_counts_merged_records overlap_state) eq_refl)
      as (self' & out & E & Hrepr & Hout).
    exists self', out. split; [exact E|].
    assert (Es : self' = fst (fst (merge_data overlap_state))) by now rewrite E.
    rewrite Hrepr, Hout, Es. split; vm_compute; reflexivity.
Defined.

(** On a price file with the columns "Date" and "Adj Close". *)
Lemma calculate_returns_needs_close_witness :
  let X := desk (inr (news_file [])) (inr no_close_file) stable_argsort in
  exists self1 out1 stock1 self2,
    load_data X fresh = (self1, out1, inr tt)
    /\ stock_df self1 = Some stock1
    /\ calculate_returns X self1
       = (self2, ["[Error] Failed to compute daily returns: 'close'"],
          inl (Exn KeyError "'close'"))
    /\ stock_df self2
       = Some (mkStockFrame (map lower (rs_columns no_close_file)) (s_tz stock1)
                 (s_object stock1)
                 (sort_values_date (np_argsort X) (s_rows stock1))).
Proof.
  apply (calculate_returns_needs_close
           (desk (inr (news_file [])) (inr no_close_file) stable_argsort)
           fresh (news_file []) no_close_file); reflexivity.
Defined.

(** ** The e-mail domain of a publisher ([extract_email_domains]) *)

Lemma string_forallb_app (p : ascii -> bool) (s t : string) :
  string_forallb p (s ++ t) = string_forallb p s && string_forallb p t.
Proof.
  induction s as [|c s IH]; [reflexivity|].
  cbn [String.append string_forallb]. now rewrite IH, andb_assoc.
Qed.

Lemma append_assoc (s t u : string) : (s ++ t) ++ u = s ++ t ++ u.
Proof. induction s as [|c s IH]; cbn; [reflexivity|now rewrite IH]. Qed.

Lemma append_nil_r (s : string) : s ++ "" = s.
Proof. induction s as [|c s IH]; cbn; [reflexivity|now rewrite IH]. Qed.

Lemma many1_stops (p : ascii -> bool) (t : string) : stops p t -> many1 p t = [].
Proof. destruct t as [|c t]; [reflexivity|]. cbn. now intros ->. Qed.

(** The greedy run: the longest match comes first. *)
Lemma many1_first (p : ascii -> bool) (u rest : string) :
  u <> "" -> string_forallb p u = true -> stops p rest ->
  exists l, many1 p (u ++ rest) = ([], u, rest) :: l.
Proof.
  induction u as [|c u IH]; [congruence|]. intros _ Hu Hrest.
  cbn [string_forallb] in Hu. apply andb_true_iff in Hu as [Hc Hu].
  cbn [String.append many1]. rewrite Hc.
  destruct u as [|c' u].
  - cbn [String.append]. rewrite (many1_stops p rest Hrest). eexists; reflexivity.
  - destruct (IH ltac:(discriminate) Hu Hrest) as (l & ->).
    cbn [map app]. eexists; reflexivity.
Qed.

(** Every way the run can match: a prefix of the run that is not empty. *)
Lemma many1_prefixes (p : ascii -> bool) (v rest : string) :
  string_forallb p v = true -> stops p rest ->
  forall m, In m (many1 p (v ++ rest)) ->
    exists v1 v2, v1 <> "" /\ v = v1 ++ v2 /\ m = ([], v1, v2 ++ rest).
Proof.
  induction v as [|c v IH]; intros Hv Hrest m Hm.
  - cbn [String.append] in Hm. now rewrite (many1_stops p rest Hrest) in Hm.
  - cbn [string_forallb] in Hv. apply andb_true_iff in Hv as [Hc Hv].
    cbn [String.append many1] in Hm. rewrite Hc in Hm.
    apply in_app_or in Hm as [Hm|[<-|[]]].
    + apply in_map_iff in Hm as ([[g t] r] & <- & Hm').
      destruct (IH Hv Hrest _ Hm') as (v1 & v2 & Hne & -> & E).
      inversion E; subst. exists (String c v1), v2.
      split; [discriminate|]. split; reflexivity.
    + exists (String c ""), v. split; [discriminate|]. split; reflexivity.
Qed.

(** Backing off a run [u ++ v] to its prefix [u]: the matches tried before
    are the longer prefixes. *)
Lemma many1_backtrack (p : ascii -> bool) (u v rest : string) :
  u <> "" -> string_forallb p u = true -> string_forallb p v = true ->
  stops p rest ->
  exists l1 l2,
    many1 p (u ++ v ++ rest) = (l1 ++ ([], u, (v ++ rest)%string) :: l2)%list
    /\ forall m, In m l1 ->
         exists v1 v2, v1 <> "" /\ v = v1 ++ v2 /\ m = ([], u ++ v1, v2 ++ rest).
Proof.
  induction u as [|c u IH]; [congruence|]. intros _ Hu Hv Hrest.
  cbn [string_forallb] in Hu. apply andb_true_iff in Hu as [Hc Hu].
  cbn [String.append many1]. rewrite Hc.
  destruct u as [|c' u].
  - cbn [String.append].
    exists (map (fun m : matching => let '(g, t, r) := m in (g, String c t, r))
                (many1 p (v ++ rest))), [].
    split; [reflexivity|]. intros m Hm.
    apply in_map_iff in Hm as ([[g t] r] & <- & Hm').
    destruct (many1_prefixes p v rest Hv Hrest _ Hm') as (v1 & v2 & Hne & -> & E).
    inversion E; subst. now exists v1, v2.
  - destruct (IH ltac:(discriminate) Hu Hv Hrest) as (l1 & l2 & E & Hl1).
    rewrite E.
    exists (map (fun m : matching => let '(g, t, r) := m in (g, String c t, r)) l1).
    eexists. split.
    + rewrite map_app. cbn [map]. rewrite <- app_assoc. cbn [app]. reflexivity.
    + intros m Hm. apply in_map_iff in Hm as ([[g t] r] & <- & Hm').
      destruct (Hl1 _ Hm') as (v1 & v2 & Hne & -> & E').
      inversion E'; subst. now exists v1, v2.
Qed.

(** The first match of [r1 r2] when the matches of [r1] tried first leave
    nothing [r2] can match. *)
Lemma first_Cat_backtrack (r1 r2 : regex) (s s1 s2 t1 t2 : string)
                          (g1 g2 : captures) (l1 l2 : list matching) :
  rmatch r1 s = (l1 ++ (g1, t1, s1) :: l2)%list ->
  (forall g t s', In (g, t, s') l1 -> rmatch r2 s' = []) ->
  first_match r2 s1 (g2, t2, s2) ->
  first_match (Cat r1 r2) s ((g1 ++ g2)%list, t1 ++ t2, s2).
Proof.
  intros H1 Hdead [k H2]. unfold first_match; cbn [rmatch]. rewrite H1.
  rewrite flat_map_app. cbn [flat_map]. rewrite H2. cbn [map app].
  assert (E : flat_map
                (fun m1 : matching =>
                   let '(g1, t1, s1) := m1 in
                   map (fun m2 : matching =>
                          let '(g2, t2, s2) := m2 in ((g1 ++ g2)%list, t1 ++ t2, s2))
                       (rmatch r2 s1)) l1 = []).
  { clear H1. induction l1 as [|[[g t] s'] l1 IH]; [reflexivity|].
    cbn [flat_map]. rewrite (Hdead g t s' (or_introl eq_refl)). cbn [map app].
    apply IH. intros g' t' s'' Hin. apply (Hdead g' t' s''). now right. }
  rewrite E. cbn [app]. eexists; reflexivity.
Qed.

Lemma is_letter_domain_char (c : ascii) : is_letter c = true -> is_domain_char c = true.
Proof. unfold is_domain_char. now intros ->. Qed.

Lemma is_letter_not_dot (c : ascii) : is_letter c = true -> Ascii.eqb "." c = false.
Proof.
  intros H. destruct (Ascii.eqb_spec "."%char c) as [<-|]; [discriminate H|reflexivity].
Qed.

Lemma stops_domain_not_dot (t : string) :
  stops is_domain_char t -> rmatch (exactly ".") t = [].
Proof.
  destruct t as [|c t]; [reflexivity|]. unfold exactly; cbn [rmatch stops].
  intros H. destruct (Ascii.eqb "." c) eqn:E; [|reflexivity].
  apply Ascii.eqb_eq in E. subst c. discriminate H.
Qed.

Lemma stops_weaken (t : string) : stops is_domain_char t -> stops is_letter t.
Proof.
  destruct t as [|c t]; [trivial|]. cbn [stops]. intros H.
  destruct (is_letter c) eqn:E; [|reflexivity].
  now rewrite (is_letter_domain_char c E) in H.
Qed.

(** A suffix of ".tld" that is not all of it begins with a letter of the tld
    or is empty. *)
Lemma after_dot (tld v1 v2 : string) :
  string_forallb is_letter tld = true ->
  v1 <> "" -> String "." tld = v1 ++ v2 ->
  string_forallb is_letter v2 = true.
Proof.
  intros Ht Hne E. destruct v1 as [|c v1]; [congruence|].
  cbn [String.append] in E. injection E as _ E. subst tld.
  rewrite string_forallb_app in Ht. now apply andb_true_iff in Ht as [_ Ht].
Qed.

Lemma letters_then_stop_not_dot (v2 rest : string) :
  string_forallb is_letter v2 = true -> stops is_domain_char rest ->
  rmatch (exactly ".") (v2 ++ rest) = [].
Proof.
  intros Hv Hrest. destruct v2 as [|c v2].
  - now apply stops_domain_not_dot.
  - cbn [string_forallb] in Hv. apply andb_true_iff in Hv as [Hc _].
    unfold exactly; cbn [String.append rmatch]. now rewrite (is_letter_not_dot c Hc).
Qed.

(** The match of the pattern right after the "@". *)
Lemma first_match_domain (body tld rest : string) (c : ascii) :
  body <> "" -> string_forallb is_domain_char body = true ->
  is_letter c = true -> tld <> "" -> string_forallb is_letter tld = true ->
  stops is_domain_char rest ->
  first_match
    (Cat (Plus is_domain_char)
         (Cat (exactly ".") (Cat (Class is_letter) (Plus is_letter))))
    (body ++ String "." (String c tld) ++ rest)
    ([], body ++ String "." (String c tld), rest).
Proof.
  intros Hb Hbody Hc Ht Htld Hrest.
  assert (Hv : string_forallb is_domain_char (String "." (String c tld)) = true).
  { cbn [string_forallb]. rewrite (is_letter_domain_char c Hc). cbn.
    clear - Htld. induction tld as [|x tld IH]; [reflexivity|].
    cbn [string_forallb] in *. apply andb_true_iff in Htld as [Hx Htld].
    now rewrite (is_letter_domain_char x Hx), IH. }
  destruct (many1_backtrack is_domain_char body (String "." (String c tld)) rest
              Hb Hbody Hv Hrest) as (l1 & l2 & E & Hl1).
  assert (Hlet : string_forallb is_letter (String c tld) = true)
    by (cbn [string_forallb]; now rewrite Hc, Htld).
  eapply (first_Cat_backtrack _ _ _ _ _ body (String "." (String c tld)) [] []);
    [exact E | | ].
  - intros g t s' Hin. destruct (Hl1 _ Hin) as (v1 & v2 & Hne & Ev & Em).
    inversion Em; subst. cbn [rmatch].
    change (rmatch (Class (Ascii.eqb ".")) (v2 ++ rest))
      with (rmatch (exactly ".") (v2 ++ rest)).
    rewrite (letters_then_stop_not_dot v2 rest); [reflexivity| |exact Hrest].
    now apply (after_dot (String c tld) v1 v2).
  - eapply (first_Cat (exactly ".") _ _ _ _ (String "." "") _ _ [] []);
      [eexists; reflexivity | | reflexivity | reflexivity].
    eapply (first_Cat (Class is_letter) _ _ _ _ (String c "") _ _ [] []);
      [cbn [String.append]; unfold first_match; cbn [rmatch]; rewrite Hc;
       eexists; reflexivity
      | | reflexivity | reflexivity].
    destruct (many1_first is_letter tld rest Ht Htld (stops_weaken rest Hrest))
      as (l & El).
    exists l. exact El.
Qed.

Lemma first_match_after_at (R : regex) (u t rest : string) (g : captures) :
  first_match R u (g, t, rest) ->
  first_match (Cat (exactly "@") (Group "1" R)) (String "@" u)
              (("1"%char, t) :: g, String "@" t, rest).
Proof.
  intros [l Hl]. unfold first_match, exactly. cbn [rmatch].
  change (Ascii.eqb "@" "@") with true. cbv iota.
  cbn [flat_map]. rewrite Hl. cbn [map app].
  eexists; reflexivity.
Qed.

Lemma re_match_needs_at (s : string) :
  match s with String c _ => Ascii.eqb "@" c = false | EmptyString => True end ->
  re_match email_domain s = None.
Proof.
  destruct s as [|c s]; [reflexivity|]. intros H.
  unfold re_match, email_domain, exactly; cbn [rmatch]. now rewrite H.
Qed.

Lemma re_search_skips (local s : string) :
  string_forallb (fun c => negb (Ascii.eqb "@" c)) local = true ->
  re_search email_domain (local ++ s) = re_search email_domain s.
Proof.
  induction local as [|c local IH]; [reflexivity|].
  cbn [string_forallb]. intros H. apply andb_true_iff in H as [Hc H].
  apply negb_true_iff in Hc.
  cbn [String.append re_search].
  rewrite (re_match_needs_at (String c (local ++ s)) Hc). now apply IH.
Qed.

Lemma re_search_found (r : regex) (s : string) (m : matching) :
  first_match r s m -> re_search r s = Some m.
Proof.
  intros [l H]. destruct s; cbn [re_search]; unfold re_match; now rewrite H.
Qed.

(** X15.  For a publisher written "local@body.tld" (no "@" in the local
    part, a body of letters, digits, dots and hyphens, a tld of two letters
    or more, and then the end or a character that cannot be part of a
    domain), the lambda of [extract_email_domains] (lines 115-118) returns
    "body.tld". *)
Theorem publisher_domain_of_address (local body tld rest : string) :
  string_forallb (fun c => negb (Ascii.eqb "@" c)) local = true ->
  body <> "" -> string_forallb is_domain_char body = true ->
  (2 <= String.length tld)%nat -> string_forallb is_letter tld = true ->
  stops is_domain_char rest ->
  Exploration.publisher_domain
    (CText (local ++ "@" ++ body ++ "." ++ tld ++ rest))
  = Some (body ++ "." ++ tld).
Proof.
  intros Hlocal Hb Hbody Hlen Htld Hrest.
  destruct tld as [|c tld]; [cbn in Hlen; lia|].
  destruct tld as [|c' tld']; [cbn in Hlen; lia|].
  set (tld := String c' tld') in *.
  cbn [string_forallb] in Htld. apply andb_true_iff in Htld as [Hc Htld].
  unfold Exploration.publisher_domain; cbn [astype_str].
  rewrite (re_search_skips local _ Hlocal).
  change ("@" ++ body ++ "." ++ String c tld ++ rest)
    with (String "@" (body ++ String "." (String c tld) ++ rest)).
  rewrite (re_search_found email_domain _
             ([("1"%char, body ++ String "." (String c tld))],
              String "@" (body ++ String "." (String c tld)), rest)).
  - reflexivity.
  - apply (first_match_after_at _ _ _ _ []).
    now apply (first_match_domain body tld rest c).
Qed.

Lemma publisher_domain_of_address_witness :
  Exploration.publisher_domain (CText "jane.doe@mail.example.com (Jane)")
  = Some "mail.example.com".
Proof.
  apply (publisher_domain_of_address "jane.doe" "mail.example" "com" " (Jane)");
    first [reflexivity | discriminate | cbn; lia].
Defined.

(** What a match is made of. *)
Lemma many1_sound (p : ascii -> bool) (s : string) :
  forall g t r, In (g, t, r) (many1 p s) ->
    g = [] /\ t <> "" /\ string_forallb p t = true /\ s = t ++ r.
Proof.
  induction s as [|c s IH]; intros g t r H; [destruct H|].
  cbn [many1] in H. destruct (p c) eqn:Hc; [|destruct H].
  apply in_app_or in H as [H|[H|[]]].
  - apply in_map_iff in H as ([[g' t'] r'] & E & H'). inversion E; subst.
    destruct (IH _ _ _ H') as (-> & _ & Ht & ->).
    repeat split; [discriminate|]. cbn [string_forallb]. now rewrite Hc, Ht.
  - inversion H; subst. repeat split; [discriminate|].
    cbn [string_forallb]. now rewrite Hc.
Qed.

Lemma rmatch_Cat_In (r1 r2 : regex) (s : string) (m : matching) :
  In m (rmatch (Cat r1 r2) s) ->
  exists g1 t1 s1 g2 t2 s2,
    In (g1, t1, s1) (rmatch r1 s) /\ In (g2, t2, s2) (rmatch r2 s1)
    /\ m = ((g1 ++ g2)%list, t1 ++ t2, s2).
Proof.
  cbn [rmatch]. intros H. apply in_flat_map in H as ([[g1 t1] s1] & H1 & H).
  apply in_map_iff in H as ([[g2 t2] s2] & <- & H2).
  now exists g1, t1, s1, g2, t2, s2.
Qed.

Lemma rmatch_Class_In (p : ascii -> bool) (s : string) (m : matching) :
  In m (rmatch (Class p) s) ->
  exists c s', s = String c s' /\ p c = true /\ m = ([], String c "", s').
Proof.
  destruct s as [|c s]; cbn [rmatch]; [intros []|].
  destruct (p c) eqn:Hc; [|intros []]. intros [<-|[]]. now exists c, s.
Qed.

Lemma rmatch_Group_In (name : ascii) (r : regex) (s : string) (m : matching) :
  In m (rmatch (Group name r) s) ->
  exists g t rest, In (g, t, rest) (rmatch r s) /\ m = ((name, t) :: g, t, rest).
Proof.
  cbn [rmatch]. intros H. apply in_map_iff in H as ([[g t] rest] & <- & H).
  now exists g, t, rest.
Qed.

Lemma rmatch_email_domain_In (s : string) (m : matching) :
  In m (rmatch email_domain s) ->
  exists body tld rest,
    s = "@" ++ body ++ "." ++ tld ++ rest
    /\ m = ([("1"%char, body ++ "." ++ tld)], "@" ++ body ++ "." ++ tld, rest)
    /\ body <> "" /\ string_forallb is_domain_char body = true
    /\ (2 <= String.length tld)%nat /\ string_forallb is_letter tld = true.
Proof.
  unfold email_domain. intros H.
  apply rmatch_Cat_In in H as (g1 & t1 & s1 & g2 & t2 & s2 & Hat & H & ->).
  apply rmatch_Class_In in Hat as (c & sa & -> & Hc & E). inversion E; subst. clear E.
  apply Ascii.eqb_eq in Hc. subst c.
  apply rmatch_Group_In in H as (g & t & r & H & E').
  inversion E'; subst. clear E'.
  apply rmatch_Cat_In in H as (gb & body & sb & g3 & t3 & s3 & Hbody & H & E).
  inversion E; subst. clear E.
  apply many1_sound in Hbody as (-> & Hne & Hb & ->).
  apply rmatch_Cat_In in H as (gd & td & sd & g4 & t4 & s4 & Hdot & H & E).
  inversion E; subst. clear E.
  apply rmatch_Class_In in Hdot as (c & sd' & -> & Hc & E). inversion E; subst. clear E.
  apply Ascii.eqb_eq in Hc. subst c.
  apply rmatch_Cat_In in H as (gl & tl & sl & g5 & t5 & s5 & Hfirst & H & E).
  inversion E; subst. clear E.
  apply rmatch_Class_In in Hfirst as (c & sl' & -> & Hc & E). inversion E; subst. clear E.
  apply many1_sound in H as (-> & Hne5 & Ht5 & ->).
  exists body, (String c t5), s5.
  cbn [String.append app]. split; [|split; [reflexivity|]].
  - reflexivity.
  - split; [exact Hne|]. split; [exact Hb|]. split.
    + destruct t5; [congruence|]. cbn [String.length]. lia.
    + cbn [string_forallb]. now rewrite Hc, Ht5.
Qed.

Lemma re_search_sound (r : regex) (s : string) (m : matching) :
  re_search r s = Some m ->
  exists pre s', s = pre ++ s' /\ In m (rmatch r s').
Proof.
  induction s as [|c s IH]; cbn [re_search]; unfold re_match;
    destruct (rmatch r _) as [|m' l] eqn:E.
  - discriminate.
  - intros H; injection H as <-. exists "", "". split; [reflexivity|].
    rewrite E. now left.
  - intros H. destruct (IH H) as (pre & s' & -> & Hin).
    now exists (String c pre), s'.
  - intros H; injection H as <-. exists "", (String c s). split; [reflexivity|].
    rewrite E. now left.
Qed.

(** X16.  Whatever the publisher cell holds, a domain the lambda of
    [extract_email_domains] returns stands in the text right after an "@" and
    is made of a body of letters, digits, dots and hyphens, a dot, and two
    letters or more. *)
Theorem publisher_domain_shape (pub : csv_cell) (domain : string) :
  Exploration.publisher_domain pub = Some domain ->
  exists pre body tld post,
    astype_str pub = pre ++ "@" ++ domain ++ post
    /\ domain = body ++ "." ++ tld
    /\ body <> "" /\ string_forallb is_domain_char body = true
    /\ (2 <= String.length tld)%nat /\ string_forallb is_letter tld = true.
Proof.
  unfold Exploration.publisher_domain.
  destruct (re_search email_domain (astype_str pub)) as [[[g t] r]|] eqn:E;
    [|discriminate].
  apply re_search_sound in E as (pre & s' & Es & Hin).
  apply rmatch_email_domain_In in Hin as (body & tld & rest & -> & Em & H).
  inversion Em; subst. cbn [found]. change (Ascii.eqb "1" "1") with true. cbv iota.
  intros Hd; injection Hd as <-.
  exists pre, body, tld, rest. split; [|split; [reflexivity|exact H]].
  rewrite Es. f_equal. cbn [String.append]. f_equal.
  now rewrite !append_assoc.
Qed.

Lemma publisher_domain_shape_witness :
  exists pre body tld post,
    astype_str (CText "desk@news.example.org1") = pre ++ "@" ++ "news.example.org" ++ post
    /\ "news.example.org" = body ++ "." ++ tld
    /\ body <> "" /\ string_forallb is_domain_char body = true
    /\ (2 <= String.length tld)%nat /\ string_forallb is_letter tld = true.
Proof.
  apply (publisher_domain_shape (CText "desk@news.example.org1") "news.example.org").
  reflexivity.
Defined.

Lemma publisher_domain_without_at (pub : csv_cell) :
  string_forallb (fun c => negb (Ascii.eqb "@" c)) (astype_str pub) = true ->
  Exploration.publisher_domain pub = None.
Proof.
  intros H. unfold Exploration.publisher_domain.
  rewrite <- (append_nil_r (astype_str pub)).
  now rewrite (re_search_skips _ "" H).
Qed.

(** X17.  When no publisher cell holds an "@" (a missing cell reads "nan"),
    [extract_email_domains] (lines 114-132) adds a "publisher_domain" column
    of [None], prints the one line "No email-format publishers were found."
    and returns without plotting. *)
Theorem extract_email_domains_without_addresses
        (V : Exploration.Views) (df : Exploration.Frame) :
  has_column (Exploration.columns df) "publisher" = true ->
  Forall (fun a => string_forallb (fun c => negb (Ascii.eqb "@" c))
                     (astype_str (Exploration.a_publisher a)) = true)
         (Exploration.articles df) ->
  exists df',
    Exploration.extract_email_domains V df
    = (df', ["No email-format publishers were found."], inr tt)
    /\ Exploration.columns df'
       = add_column (Exploration.columns df) "publisher_domain"
    /\ map Exploration.a_publisher_domain (Exploration.articles df')
       = map (fun _ => None) (Exploration.articles df)
    /\ map Exploration.a_publisher (Exploration.articles df')
       = map Exploration.a_publisher (Exploration.articles df).
Proof.
  intros Hc Hall.
  assert (Hd : map (fun a => Exploration.publisher_domain (Exploration.a_publisher a))
                   (Exploration.articles df)
               = map (fun _ => None) (Exploration.articles df)).
  { induction Hall as [|a l Ha _ IH]; [reflexivity|].
    cbn [map]. now rewrite (publisher_domain_without_at _ Ha), IH. }
  eexists. split; [|split; [|split]].
  - unfold Exploration.extract_email_domains, bind, get, lift, put, print, getitem.
    rewrite Hc. cbn [Exploration.articles]. rewrite !map_map.
    cbn [Exploration.a_publisher_domain Exploration.set_publisher_domain].
    rewrite Hd.
    assert (E : Exploration.dropna
                  (map (fun _ => None) (Exploration.articles df)) = []).
    { clear. generalize (Exploration.articles df) as l.
      induction l as [|a l IH]; [reflexivity|exact IH]. }
    rewrite E. reflexivity.
  - reflexivity.
  - cbn [Exploration.articles]. rewrite map_map.
    cbn [Exploration.a_publisher_domain Exploration.set_publisher_domain].
    exact Hd.
  - cbn [Exploration.articles]. rewrite map_map. reflexivity.
Qed.

(** ** Counting articles by day and by hour *)

Lemma list_sum_cons (n : nat) (l : list nat) :
  list_sum (n :: l) = (n + list_sum l)%nat.
Proof. reflexivity. Qed.

Lemma list_sum_zero {A} (l : list A) : list_sum (map (fun _ => 0%nat) l) = 0%nat.
Proof. induction l as [|a l IH]; [reflexivity|exact IH]. Qed.

Lemma list_sum_plus {A} (f g : A -> nat) (l : list A) :
  list_sum (map (fun a => (f a + g a)%nat) l)
  = (list_sum (map f l) + list_sum (map g l))%nat.
Proof.
  induction l as [|a l IH]; [reflexivity|]. cbn [map].
  rewrite !list_sum_cons, IH. lia.
Qed.

Lemma indicator_sum (x : Z) (ks : list Z) :
  NoDup ks -> In x ks ->
  list_sum (map (fun k => if k =? x then 1%nat else 0%nat) ks) = 1%nat.
Proof.
  induction 1 as [|k ks Hk Hnd IH]; [intros []|].
  cbn [map]. rewrite list_sum_cons. intros [->|Hin].
  - rewrite Z.eqb_refl.
    rewrite (map_ext_in _ (fun _ => 0%nat)); [now rewrite list_sum_zero|].
    intros k Hin. destruct (Z.eqb_spec k x) as [->|]; [contradiction|reflexivity].
  - destruct (Z.eqb_spec k x) as [->|]; [contradiction|]. now rewrite IH.
Qed.

Lemma count_key_cons (k : Z) (t : option Z) (keys : list (option Z)) :
  Exploration.count_key k (t :: keys)
  = ((match t with
      | Some x => if (k =? x)%Z then 1 else 0
      | None => 0
      end) + Exploration.count_key k keys)%nat.
Proof.
  unfold Exploration.count_key. cbn [filter timestamp_eqb].
  destruct t as [x|]; [|reflexivity]. destruct (k =? x); reflexivity.
Qed.

Lemma count_key_total (ks : list Z) (keys : list (option Z)) :
  NoDup ks -> (forall k, In (Some k) keys -> In k ks) ->
  list_sum (map (fun k => Exploration.count_key k keys) ks)
  = List.length (non_nans keys).
Proof.
  intros Hnd. induction keys as [|t keys IH]; intros Hall.
  - cbn. apply list_sum_zero.
  - rewrite (map_ext _ _ (fun k => count_key_cons k t keys)), list_sum_plus.
    rewrite IH by (intros k Hk; apply Hall; now right).
    destruct t as [x|]; cbn [non_nans flat_map app List.length].
    + rewrite indicator_sum; [reflexivity|exact Hnd|]. apply Hall. now left.
    + now rewrite list_sum_zero.
Qed.

Lemma count_key_positive (k : Z) (keys : list (option Z)) :
  In (Some k) keys -> (1 <= Exploration.count_key k keys)%nat.
Proof.
  induction keys as [|t keys IH]; [intros []|].
  rewrite count_key_cons. intros [->|Hin]; [rewrite Z.eqb_refl; lia|].
  specialize (IH Hin). lia.
Qed.

Lemma count_key_In (k : Z) (keys : list (option Z)) :
  (1 <= Exploration.count_key k keys)%nat -> In (Some k) keys.
Proof.
  induction keys as [|t keys IH]; [cbn; lia|].
  rewrite count_key_cons. destruct t as [x|].
  - destruct (Z.eqb_spec k x) as [->|]; [now left|]. intros H. right. apply IH. lia.
  - intros H. right. apply IH. lia.
Qed.

(** The table [size_by_key] makes: keys strictly increasing, each with the
    number of its rows, which is not zero, and every row with a key counted
    once. *)
Lemma size_by_key_spec (keys : list (option Z)) :
  let counts := Exploration.size_by_key keys in
  StronglySorted Z.lt (map fst counts)
  /\ (forall k c, In (k, c) counts
                  <-> In (Some k) keys /\ c = Exploration.count_key k keys)
  /\ Forall (fun kc : Z * nat => (1 <= snd kc)%nat) counts
  /\ list_sum (map snd counts) = List.length (non_nans keys).
Proof.
  cbv zeta. unfold Exploration.size_by_key.
  split; [|split; [|split]].
  - rewrite map_map; cbn [fst]. rewrite map_id. apply group_keys_sorted.
  - intros k c. rewrite in_map_iff. split.
    + intros (k' & E & Hin). inversion E; subst.
      split; [now apply group_keys_In|reflexivity].
    + intros [Hin ->]. exists k. split; [reflexivity|now apply group_keys_In].
  - apply Forall_forall. intros [k c] Hin.
    apply in_map_iff in Hin as (k' & E & Hin). inversion E; subst. cbn [snd].
    apply count_key_positive. now apply group_keys_In.
  - rewrite map_map; cbn [snd]. apply count_key_total.
    + apply StronglySorted_lt_NoDup, group_keys_sorted.
    + intros k. apply group_keys_In.
Qed.

Lemma hour_of_day_range (t : timestamp) (h : Z) :
  Exploration.hour_of_day t = Some h -> 0 <= h < 24.
Proof.
  destruct t as [ns|]; [|discriminate]. cbn [Exploration.hour_of_day option_map].
  intros E; injection E as <-.
  pose proof (Z.mod_pos_bound ns NS_PER_DAY eq_refl) as Hm.
  unfold NS_PER_DAY, NS_PER_SECOND in *.
  split; [apply Z.div_pos; lia | apply Z.div_lt_upper_bound; lia].
Qed.

Lemma non_nans_map_length {A} (f : A -> timestamp) (g : timestamp -> option Z)
                          (l : list A) :
  (forall t, isna (g t) = isna t) ->
  List.length (non_nans (map (fun a => g (f a)) l))
  = List.length (filter (fun a => negb (isna (f a))) l).
Proof.
  intros Hg. induction l as [|a l IH]; [reflexivity|].
  cbn [map non_nans flat_map filter]. rewrite length_app.
  fold (non_nans (map (fun a => g (f a)) l)). rewrite IH.
  specialize (Hg (f a)). destruct (f a) as [ns|], (g _) as [x|];
    cbn in *; try discriminate; reflexivity.
Qed.

Section ExplorationFacts.

Context (V : Exploration.Views).

(** X18.  [article_hour_distribution] (lines 89-99) wants "date" parsed: on
    a frame whose "date" is still text it raises the [AttributeError] of
    [.dt] and changes nothing.  On a parsed column it adds "hour" and plots
    a table whose hours are distinct, increasing and between 0 and 23, each
    with at least one article, the counts adding up to the articles that have
    a date. *)
Theorem article_hour_distribution_counts (df : Exploration.Frame) :
  has_column (Exploration.columns df) "date" = true ->
  (Exploration.date_parsed df = false ->
   Exploration.article_hour_distribution V df
   = (df, [],
      inl (Exn AttributeError "Can only use .dt accessor with datetimelike values")))
  /\ (Exploration.date_parsed df = true ->
      exists df' counts,
        Exploration.article_hour_distribution V df
        = (df', [], Exploration.bar_plot V counts)
        /\ Exploration.columns df' = add_column (Exploration.columns df) "hour"
        /\ counts = Exploration.size_by_key
                      (map Exploration.a_hour (Exploration.articles df'))
        /\ StronglySorted Z.lt (map fst counts)
        /\ Forall (fun kc : Z * nat => 0 <= fst kc < 24 /\ (1 <= snd kc)%nat) counts
        /\ list_sum (map snd counts)
           = List.length (filter (fun a => negb (isna (Exploration.a_date a)))
                                 (Exploration.articles df))).
Proof.
  intros Hc. split; intros Hp.
  - unfold Exploration.article_hour_distribution, bind, get, lift, raise, getitem.
    now rewrite Hc, Hp.
  - set (keys := map (fun a => Exploration.hour_of_day (Exploration.a_date a))
                     (Exploration.articles df)).
    destruct (size_by_key_spec keys) as (Hs & Hin & Hpos & Hsum).
    exists (Exploration.mkFrame
              (add_column (Exploration.columns df) "hour")
              (Exploration.date_parsed df)
              (map (fun a => Exploration.set_hour a
                               (Exploration.hour_of_day (Exploration.a_date a)))
                   (Exploration.articles df))),
           (Exploration.size_by_key keys).
    assert (Hkeys : map Exploration.a_hour
                     (map (fun a => Exploration.set_hour a
                                      (Exploration.hour_of_day (Exploration.a_date a)))
                          (Exploration.articles df)) = keys)
      by (rewrite map_map; reflexivity).
    split; [|split; [reflexivity|split; [cbn [Exploration.articles]; now rewrite Hkeys|]]].
    + unfold Exploration.article_hour_distribution, bind, get, lift, put, getitem.
      rewrite Hc, Hp. cbn [Exploration.articles]. rewrite Hkeys.
      destruct (Exploration.bar_plot V (Exploration.size_by_key keys)); reflexivity.
    + split; [exact Hs|]. split.
      * apply Forall_forall. intros [k c] Hkc. cbn [fst snd]. split.
        -- apply Hin in Hkc as [Hk _]. unfold keys in Hk.
           apply in_map_iff in Hk as (a & E & _).
           now apply (hour_of_day_range _ _ E).
        -- rewrite Forall_forall in Hpos. exact (Hpos _ Hkc).
      * rewrite Hsum. unfold keys.
        apply (non_nans_map_length Exploration.a_date Exploration.hour_of_day).
        now intros [ns|].
Qed.

(** X19.  [daily_article_trend] (lines 71-87) parses "date" in UTC when it
    is still text, adds "date_only" and plots one count per calendar day:
    days distinct and increasing, each with the number of articles whose date
    falls on it, whatever their time of day, and every article with a date
    counted once. *)
Theorem daily_article_trend_counts_by_day (df : Exploration.Frame) :
  has_column (Exploration.columns df) "date" = true ->
  exists df' counts,
    Exploration.daily_article_trend V df = (df', [], Exploration.line_plot V counts)
    /\ Exploration.date_parsed df' = true
    /\ counts = Exploration.size_by_key
                  (map Exploration.a_date_only (Exploration.articles df'))
    /\ map Exploration.a_date_only (Exploration.articles df')
       = map (fun a => Exploration.day_of (Exploration.a_date a))
             (Exploration.articles df')
    /\ StronglySorted Z.lt (map fst counts)
    /\ (forall k c,
          In (k, c) counts
          <-> (1 <= c)%nat
              /\ c = List.length
                       (filter (fun a => timestamp_eqb (Some k)
                                           (Exploration.day_of (Exploration.a_date a)))
                               (Exploration.articles df')))
    /\ list_sum (map snd counts)
       = List.length (filter (fun a => negb (isna (Exploration.a_date a)))
                             (Exploration.articles df')).
Proof.
  intros Hc.
  set (parsed := Exploration.parse_date_column V df).
  set (df' := Exploration.add_date_only parsed).
  set (keys := map Exploration.a_date_only (Exploration.articles df')).
  assert (Hkeys : keys = map (fun a => Exploration.day_of (Exploration.a_date a))
                             (Exploration.articles df')).
  { unfold keys, df', Exploration.add_date_only. cbn [Exploration.articles].
    rewrite !map_map. reflexivity. }
  assert (Hcount : forall k,
             Exploration.count_key k keys
             = List.length
                 (filter (fun a => timestamp_eqb (Some k)
                                     (Exploration.day_of (Exploration.a_date a)))
                         (Exploration.articles df'))).
  { intros k. rewrite Hkeys. unfold Exploration.count_key.
    generalize (Exploration.articles df') as l.
    induction l as [|a l IH]; [reflexivity|]. cbn [map filter].
    destruct (timestamp_eqb _ _); cbn [List.length]; now rewrite IH. }
  destruct (size_by_key_spec keys) as (Hs & Hin & Hpos & Hsum).
  exists df', (Exploration.size_by_key keys).
  split; [|split; [|split; [reflexivity|split; [exact Hkeys|split; [exact Hs|split]]]]].
  - unfold Exploration.daily_article_trend, bind, get, lift, put, getitem.
    rewrite Hc. fold parsed. fold df'. fold keys.
    destruct (Exploration.line_plot V (Exploration.size_by_key keys)); reflexivity.
  - unfold df', parsed, Exploration.add_date_only, Exploration.parse_date_column.
    cbn [Exploration.date_parsed].
    destruct (Exploration.date_parsed df) eqn:E; [exact E|reflexivity].
  - intros k c. rewrite Hin. split.
    + intros [Hk ->]. split; [now apply count_key_positive|apply Hcount].
    + intros [Hpos' ->]. rewrite <- Hcount in *. split; [|reflexivity].
      now apply count_key_In.
  - rewrite Hsum, Hkeys.
    apply (non_nans_map_length Exploration.a_date Exploration.day_of).
    now intros [ns|].
Qed.

End ExplorationFacts.

Section ExplorationEdges.

Context (V : Exploration.Views).

(** X20.  On a frame of fewer than five rows (the empty frame [__init__]
    makes, or what a small file gives) [dataset_overview] (lines 29-41) raises
    the [ValueError] of [sample(5)]: the head and the tail are printed, the
    shape, the description and the missing values are not, and nothing
    catches the exception. *)
Theorem dataset_overview_wants_five_rows (df : Exploration.Frame) :
  (List.length (Exploration.articles df) < 5)%nat ->
  exists msg,
    Exploration.dataset_overview V df
    = (df,
       [nl ++ " =================== Dataset Overview:===================================";
        Exploration.show V (Exploration.head 10 df);
        nl ++ " ============================== Last 5 Rows of the Dataset:========================";
        Exploration.show V (Exploration.tail 5 df);
        nl ++ " ================================ Random Sample of 5 Rows:============================="],
       inl (Exn ValueError msg)).
Proof.
  intros Hlt.
  unfold Exploration.dataset_overview, Exploration.sample, bind, get, lift, print.
  destruct (List.length (Exploration.articles df) =? 0)%nat eqn:E0.
  - eexists. reflexivity.
  - apply Nat.ltb_lt in Hlt. rewrite Hlt. eexists. reflexivity.
Qed.

Lemma apply_each_py_len (cells : list csv_cell) :
  (In CMissing cells ->
   apply_each Exploration.py_len cells
   = inl (Exn TypeError "object of type 'float' has no len()"))
  /\ (~ In CMissing cells ->
      apply_each Exploration.py_len cells
      = inr (map (fun c => code_points (astype_str c)) cells)).
Proof.
  induction cells as [|c cells [IH1 IH2]]; [split; [intros []|reflexivity]|].
  destruct c as [s|]; cbn [apply_each Exploration.py_len].
  - split.
    + intros [E|Hin]; [discriminate|]. now rewrite (IH1 Hin).
    + intros Hn. rewrite IH2; [reflexivity|]. intros Hin. apply Hn. now right.
  - split; [reflexivity|]. intros Hn. exfalso. apply Hn. now left.
Qed.

(** The characters of a text of ASCII characters are its bytes. *)
Lemma code_points_ascii (s : string) :
  string_forallb (fun c => (code c <? 128)%N) s = true ->
  code_points s = String.length s.
Proof.
  induction s as [|c s IH]; [reflexivity|]. cbn [string_forallb code_points String.length].
  intros H. apply andb_true_iff in H as [Hc Hs]. rewrite (IH Hs).
  unfold is_continuation. apply N.ltb_lt in Hc.
  destruct (128 <=? code c)%N eqn:E; [apply N.leb_le in E; lia | reflexivity].
Qed.

(** X21.  [analyze_headline_lengths] (lines 43-46) raises the [TypeError] of
    [len] as soon as one headline is missing, before anything is printed or
    added; when every headline is there it adds "headline_length", the number
    of characters of each headline (of its bytes when the headline is ASCII,
    one for each character of several bytes otherwise), and prints its two
    lines. *)
Theorem analyze_headline_lengths_wants_text (df : Exploration.Frame) :
  has_column (Exploration.columns df) "headline" = true ->
  (In CMissing (map Exploration.a_headline (Exploration.articles df)) ->
   Exploration.analyze_headline_lengths V df
   = (df, [], inl (Exn TypeError "object of type 'float' has no len()")))
  /\ (~ In CMissing (map Exploration.a_headline (Exploration.articles df)) ->
      let lengths :=
        map (fun a => code_points (astype_str (Exploration.a_headline a)))
            (Exploration.articles df) in
      exists df',
        Exploration.analyze_headline_lengths V df
        = (df',
           [nl ++ "Headline length statistics:";
            Exploration.describe_lengths V lengths],
           inr tt)
        /\ map Exploration.a_headline_length (Exploration.articles df') = lengths
        /\ map Exploration.a_headline (Exploration.articles df')
           = map Exploration.a_headline (Exploration.articles df))
  /\ (forall s, string_forallb (fun c => (code c <? 128)%N) s = true ->
                Exploration.py_len (CText s) = inr (String.length s))
  /\ Exploration.py_len (CText ("caf" ++ String (ascii_of_nat 195)
                                          (String (ascii_of_nat 169) EmptyString)))
     = inr 4%nat.
Proof.
  intros Hc.
  destruct (apply_each_py_len (map Exploration.a_headline (Exploration.articles df)))
    as [H1 H2].
  split; [|split; [|split]].
  - intros Hm.
    unfold Exploration.analyze_headline_lengths, bind, get, lift, getitem.
    now rewrite Hc, (H1 Hm).
  - intros Hm. cbv zeta. specialize (H2 Hm). rewrite map_map in H2.
    set (lengths := map (fun a => code_points (astype_str (Exploration.a_headline a)))
                        (Exploration.articles df)) in *.
    assert (Hl : List.length lengths = List.length (Exploration.articles df))
      by (unfold lengths; apply length_map).
    eexists. split; [|split].
    + unfold Exploration.analyze_headline_lengths, bind, get, lift, put, print,
        getitem.
      rewrite Hc, H2. reflexivity.
    + cbn [Exploration.articles]. rewrite map_map.
      cbn [Exploration.a_headline_length Exploration.set_headline_length].
      now apply map_snd_combine.
    + cbn [Exploration.articles]. rewrite map_map.
      cbn [Exploration.a_headline Exploration.set_headline_length].
      rewrite <- (map_map fst Exploration.a_headline).
      now rewrite map_fst_combine.
  - intros s Hs. cbn [Exploration.py_len]. now rewrite code_points_ascii.
  - reflexivity.
Qed.

End ExplorationEdges.

(** The sample frame has three rows. *)
Lemma dataset_overview_wants_five_rows_witness :
  exists msg,
    snd (Exploration.dataset_overview quiet_views newsroom)
    = inl (Exn ValueError msg)
    /\ List.length (snd (fst (Exploration.dataset_overview quiet_views newsroom)))
       = 5%nat.
Proof.
  destruct (dataset_overview_wants_five_rows quiet_views newsroom) as (msg & E);
    [cbn; lia|].
  exists msg. rewrite E. split; reflexivity.
Defined.

(** The sample frame, whose last headline is missing, and its first two rows. *)
Lemma analyze_headline_lengths_wants_text_witness :
  Exploration.analyze_headline_lengths quiet_views newsroom
  = (newsroom, [], inl (Exn TypeError "object of type 'float' has no len()"))
  /\ exists df',
       Exploration.analyze_headline_lengths quiet_views (Exploration.head 2 newsroom)
       = (df', [nl ++ "Headline length statistics:"; ""], inr tt)
       /\ map Exploration.a_headline_length (Exploration.articles df') = [11; 11]%nat.
Proof.
  split.
  - apply (proj1 (analyze_headline_lengths_wants_text quiet_views newsroom eq_refl)).
    cbn. tauto.
  - destruct (proj1 (proj2 (analyze_headline_lengths_wants_text quiet_views
                              (Exploration.head 2 newsroom) eq_refl)))
      as (df' & E & Hl & _).
    + cbn. intros [H|[H|[]]]; discriminate.
    + exists df'. split; [exact E | exact Hl].
Defined.

(** No publisher of the sample frame is an address; one cell is missing. *)
Lemma extract_email_domains_without_addresses_witness :
  exists df',
    Exploration.extract_email_domains quiet_views newsroom
    = (df', ["No email-format publishers were found."], inr tt)
    /\ Exploration.columns df'
       = add_column (Exploration.columns newsroom) "publisher_domain"
    /\ map Exploration.a_publisher_domain (Exploration.articles df')
       = map (fun _ => None) (Exploration.articles newsroom)
    /\ map Exploration.a_publisher (Exploration.articles df')
       = map Exploration.a_publisher (Exploration.articles newsroom).
Proof.
  apply (extract_email_domains_without_addresses quiet_views newsroom);
    [reflexivity|]. repeat constructor.
Defined.

(** Before and after [parse_dates] on the sample frame: the hours are 8, 9
    and 15. *)
Lemma article_hour_distribution_counts_witness :
  Exploration.article_hour_distribution quiet_views newsroom
  = (newsroom, [],
     inl (Exn AttributeError "Can only use .dt accessor with datetimelike values"))
  /\ exists df' counts,
       Exploration.article_hour_distribution quiet_views newsroom_parsed
       = (df', [], Exploration.bar_plot quiet_views counts)
       /\ counts = [(8, 1%nat); (9, 1%nat); (15, 1%nat)]
       /\ list_sum (map snd counts) = 3%nat.
Proof.
  destruct (article_hour_distribution_counts quiet_views newsroom eq_refl)
    as [H _].
  split; [exact (H eq_refl)|].
  destruct (article_hour_distribution_counts quiet_views newsroom_parsed eq_refl)
    as [_ H'].
  destruct (H' eq_refl) as (df' & counts & E & _ & Ec & _).
  exists df', counts. split; [exact E|].
  assert (Ed : df' = fst (fst (Exploration.article_hour_distribution
                                 quiet_views newsroom_parsed)))
    by now rewrite E.
  rewrite Ed in Ec. split; [exact Ec|]. now rewrite Ec.
Defined.

(** The sample frame: two articles on 4 January 2021, one on the 5th. *)
Lemma daily_article_trend_counts_by_day_witness :
  exists df' counts,
    Exploration.daily_article_trend quiet_views newsroom
    = (df', [], Exploration.line_plot quiet_views counts)
    /\ counts = [(days_from_civil 2021 1 4, 2%nat); (days_from_civil 2021 1 5, 1%nat)]
    /\ list_sum (map snd counts) = 3%nat.
Proof.
  destruct (daily_article_trend_counts_by_day quiet_views newsroom eq_refl)
    as (df' & counts & E & _ & Ec & _).
  exists df', counts. split; [exact E|].
  assert (Ed : df' = fst (fst (Exploration.daily_article_trend quiet_views newsroom)))
    by now rewrite E.
  rewrite Ed in Ec. split; [exact Ec|]. now rewrite Ec.
Defined.

(** ** [PortfolioAnalyzer] *)

Lemma dict_get_set_same {V} (d : list (string * V)) (key : string) (value : V) :
  dict_get (dict_set d key value) key = Some value.
Proof.
  induction d as [|[k v] d IH]; cbn [dict_set dict_get].
  - now rewrite String.eqb_refl.
  - destruct (String.eqb k key) eqn:E; cbn [dict_get]; now rewrite E.
Qed.

Lemma dict_get_set_other {V} (d : list (string * V)) (key t : string) (value : V) :
  t <> key -> dict_get (dict_set d key value) t = dict_get d t.
Proof.
  intros Hne. induction d as [|[k v] d IH]; cbn [dict_set dict_get].
  - destruct (String.eqb_spec key t); [congruence|reflexivity].
  - destruct (String.eqb_spec k key) as [->|]; cbn [dict_get].
    + destruct (String.eqb_spec key t); [congruence|reflexivity].
    + now rewrite IH.
Qed.

Lemma dict_set_not_empty {V} (d : list (string * V)) (key : string) (value : V) :
  dict_set d key value <> [].
Proof.
  destruct d as [|[k v] d]; cbn [dict_set]; [discriminate|].
  destruct (String.eqb k key); discriminate.
Qed.

Section PortfolioFacts.

Context {F T : Type} (R : PortfolioAnalyzer.Market F T).

Import PortfolioAnalyzer.

Lemma load_ticker_spec (ticker path : string) (self : Portfolio F T) :
  exists d line,
    load_ticker R ticker path self = (set_data self d, [line], inr tt)
    /\ dict_get d ticker = after_try R (dict_get (data self) ticker) path
    /\ (forall t, t <> ticker -> dict_get d t = dict_get (data self) t)
    /\ (data self <> [] -> d <> []).
Proof.
  unfold load_ticker, after_try, try_except, bind, get, lift, put, print, getitem.
  destruct (read_csv R path) as [e|table].
  - exists (data self). eexists. destruct self; repeat split; auto.
  - destruct (has_column (pt_columns table) "Close").
    + exists (dict_set (data self) ticker (pt_rows table)). eexists.
      split; [reflexivity|]. split; [apply dict_get_set_same|]. split.
      * intros t Hne. now apply dict_get_set_other.
      * intros _. apply dict_set_not_empty.
    + exists (data self). eexists. destruct self; repeat split; auto.
Qed.

Lemma load_ticker_fails (ticker path : string) (self : Portfolio F T) :
  after_try R None path = None ->
  exists line, load_ticker R ticker path self = (self, [line], inr tt).
Proof.
  unfold load_ticker, after_try, try_except, bind, get, lift, put, print, getitem.
  destruct (read_csv R path) as [e|table]; [eexists; reflexivity|].
  destruct (has_column (pt_columns table) "Close"); [discriminate|].
  eexists; reflexivity.
Qed.

Lemma load_tickers_spec (items : list (string * string)) :
  NoDup (map fst items) ->
  forall self : Portfolio F T,
  exists d lines,
    for_each (fun item : string * string => load_ticker R (fst item) (snd item))
             items self
    = (set_data self d, lines, inr tt)
    /\ List.length lines = List.length items
    /\ (forall t path, In (t, path) items ->
                       dict_get d t = after_try R (dict_get (data self) t) path)
    /\ (forall t, ~ In t (map fst items) -> dict_get d t = dict_get (data self) t)
    /\ (data self <> [] -> d <> []).
Proof.
  induction items as [|[ticker path] items IH]; intros Hnd self.
  - exists (data self), []. destruct self; repeat split; auto. intros t p [].
  - cbn [map fst] in Hnd. inversion Hnd as [|? ? Hfresh Hnd']; subst.
    destruct (load_ticker_spec ticker path self) as (d1 & line & E1 & Hs & Ho & Hn1).
    destruct (IH Hnd' (set_data self d1)) as (d & lines & E & Hl & Hin & Hout & Hn).
    exists d, (line :: lines).
    split; [|split; [|split; [|split]]].
    + cbn [for_each fst snd]. unfold bind. rewrite E1, E.
      destruct self; reflexivity.
    + cbn [List.length]. now rewrite Hl.
    + intros t p [Eq|Hi].
      * inversion Eq; subst. rewrite (Hout t Hfresh). exact Hs.
      * rewrite (Hin t p Hi). cbn [data set_data]. f_equal. apply Ho.
        intros ->. apply Hfresh. apply in_map_iff. now exists (ticker, p).
    + intros t Ht. cbn [map fst] in Ht.
      rewrite Hout by (intros Hi; apply Ht; now right).
      cbn [data set_data]. apply Ho. intros ->. apply Ht. now left.
    + intros Hne. apply Hn. exact (Hn1 Hne).
Qed.

(** X22.  [PortfolioAnalyzer.load_data] (lines 102-115) tries every ticker,
    whatever happens to the others: it prints its header and one line per
    ticker.  A ticker whose file is read and has a "Close" column gets that
    column; a ticker whose file fails keeps the series an earlier load left;
    the other entries of the dict are not touched.  When the dict is still
    empty it prints that nothing was loaded and returns.  Otherwise it builds
    the frame from the dict, outside every [try]: it returns with the frame
    in [df], or raises what [pd.DataFrame] raises, the dict already
    updated. *)
Theorem portfolio_load_data_tries_every_ticker (self : Portfolio F T) :
  NoDup (map fst (ticker_file_map self)) ->
  exists d lines,
    (forall t path, In (t, path) (ticker_file_map self) ->
                    dict_get d t = after_try R (dict_get (data self) t) path)
    /\ (forall t, ~ In t (map fst (ticker_file_map self)) ->
                  dict_get d t = dict_get (data self) t)
    /\ List.length lines = List.length (ticker_file_map self)
    /\ load_data R self
       = match d with
         | [] =>
             (set_data self [],
              ("Fetching data from CSV files..." :: lines
               ++ [" No valid data loaded from CSV files."])%list,
              inr tt)
         | _ =>
             match data_frame R d with
             | inr frame =>
                 (set_df (set_data self d) frame,
                  "Fetching data from CSV files..." :: lines, inr tt)
             | inl e =>
                 (set_data self d, "Fetching data from CSV files..." :: lines, inl e)
             end
         end.
Proof.
  intros Hnd.
  destruct (load_tickers_spec (ticker_file_map self) Hnd self)
    as (d & lines & E & Hl & Hin & Hout & _).
  exists d, lines. split; [exact Hin|]. split; [exact Hout|]. split; [exact Hl|].
  unfold load_data, bind, get, print, lift, put. rewrite E.
  cbn [data set_data]. destruct d as [|item d]; [reflexivity|].
  destruct (data_frame R (item :: d)) as [e|frame]; cbn [app];
    now rewrite ?app_nil_r.
Qed.

(** X23.  When no file can be loaded and nothing was loaded before, the four
    methods of [PortfolioAnalyzer] run one after the other without raising
    and leave the object as it was: [load_data] reports every ticker,
    [calculate_metrics] prints the [AttributeError] of the missing [df], and
    [print_summary] and [plot_performance] print that the metrics are not
    calculated. *)
Theorem portfolio_without_data_never_raises (self : Portfolio F T) :
  data self = [] -> df self = None ->
  annual_returns self = None -> portfolio_value self = None ->
  (forall t path, In (t, path) (ticker_file_map self) ->
                  after_try R None path = None) ->
  exists lines,
    (load_data R ;; calculate_metrics R ;; print_summary R ;;
     plot_performance R)%py self
    = (self,
       ("Fetching data from CSV files..." :: lines
        ++ [" No valid data loaded from CSV files.";
            " Error calculating metrics: 'PortfolioAnalyzer' object has no attribute 'df'";
            " Metrics not calculated. Please run `calculate_metrics()` first.";
            " Portfolio value not calculated. Please run `calculate_metrics()` first."])%list,
       inr tt)
    /\ List.length lines = List.length (ticker_file_map self).
Proof.
  intros Hd Hdf Ha Hp Hfail.
  assert (Hloop : forall items : list (string * string),
             (forall t path, In (t, path) items -> after_try R None path = None) ->
             exists lines,
               for_each (fun item : string * string =>
                           load_ticker R (fst item) (snd item)) items self
               = (self, lines, inr tt)
               /\ List.length lines = List.length items).
  { induction items as [|[t path] items IH]; intros Hall.
    - exists []. split; reflexivity.
    - destruct IH as (lines & E & Hl); [intros t' p' Hi; apply (Hall t' p'); now right|].
      destruct (load_ticker_fails t path self (Hall t path (or_introl eq_refl)))
        as (line & E1).
      exists (line :: lines). split; [|cbn [List.length]; now rewrite Hl].
      cbn [for_each fst snd]. unfold bind. now rewrite E1, E. }
  destruct (Hloop (ticker_file_map self) Hfail) as (lines & E & Hl).
  exists lines. split; [|exact Hl].
  unfold load_data, calculate_metrics, print_summary, plot_performance,
    try_except, bind, get, lift, put, print, attribute.
  rewrite E, Hd, Hdf, Ha, Hp. cbn [app]. rewrite <- !app_assoc. reflexivity.
Qed.

End PortfolioFacts.

Section PortfolioMetrics.

Context {F T : Type} (R : PortfolioAnalyzer.Market F T).

Import PortfolioAnalyzer.

Lemma not_the_success_line (msg : string) :
  ~ In (check_mark ++ " Metrics calculated successfully.")
       [" Error calculating metrics: " ++ msg].
Proof. intros [E|[]]. cbn in E. discriminate E. Qed.

(** X24.  [calculate_metrics] (lines 117-128) never raises.  When it prints
    its line of success, the five attributes are set, so that [print_summary]
    (lines 130-136) prints its three tables and returns, and
    [plot_performance] (lines 138-155) returns too. *)
Theorem portfolio_summary_after_metrics
        (self self' : Portfolio F T) (out : list string) (r : exn + unit) :
  calculate_metrics R self = (self', out, r) ->
  r = inr tt
  /\ (In (check_mark ++ " Metrics calculated successfully.") out ->
      (exists a v s p,
          annual_returns self' = Some a /\ volatility self' = Some v
          /\ sharpe_ratio self' = Some s /\ portfolio_value self' = Some p
          /\ print_summary R self'
             = (self',
                ["Annual Returns:" ++ nl ++ " " ++ show_round4 R a;
                 nl ++ "Volatility:" ++ nl ++ " " ++ show_round4 R v;
                 nl ++ "Sharpe Ratio:" ++ nl ++ " " ++ show R s],
                inr tt))
      /\ exists out', plot_performance R self' = (self', out', inr tt)).
Proof.
  unfold calculate_metrics, try_except, bind, get, lift, put, print, attribute.
  destruct (df self) as [prices|];
    [|intros E; inversion E; split; [reflexivity|];
      intros H; now apply (not_the_success_line _) in H].
  destruct (pct_change_dropna R prices) as [e|r0];
    [intros E; inversion E; split; [reflexivity|];
     intros H; now apply (not_the_success_line _) in H|].
  destruct (annualised_mean R r0) as [e|a];
    [intros E; inversion E; split; [reflexivity|];
     intros H; now apply (not_the_success_line _) in H|].
  destruct (annualised_std R r0) as [e|v];
    [intros E; inversion E; split; [reflexivity|];
     intros H; now apply (not_the_success_line _) in H|].
  destruct (rounded_ratio R a v) as [e|s];
    [intros E; inversion E; split; [reflexivity|];
     intros H; now apply (not_the_success_line _) in H|].
  destruct (cumulative_growth R r0) as [e|p];
    [intros E; inversion E; split; [reflexivity|];
     intros H; now apply (not_the_success_line _) in H|].
  destruct (with_total R p) as [e|p'];
    [intros E; inversion E; split; [reflexivity|];
     intros H; now apply (not_the_success_line _) in H|].
  intros E; inversion E; subst. split; [reflexivity|]. intros _. split.
  - exists a, v, s, p'. do 4 (split; [reflexivity|]).
    unfold print_summary, bind, get, lift, print, attribute.
    cbn [annual_returns volatility sharpe_ratio set_portfolio_value
         set_sharpe_ratio set_volatility set_annual_returns set_returns].
    reflexivity.
  - unfold plot_performance, try_except, bind, get, lift, print.
    cbn [portfolio_value set_portfolio_value ticker_file_map].
    destruct (plot R _ p') as [e|[]]; eexists; reflexivity.
Qed.

End PortfolioMetrics.

(** AAPL loads, the file of TSLA has no "Close" column, that of MSFT is not
    there. *)
Lemma portfolio_load_data_tries_every_ticker_witness :
  exists self' lines,
    PortfolioAnalyzer.load_data street three_tickers
    = (self', "Fetching data from CSV files..." :: lines, inr tt)
    /\ List.length lines = 3%nat
    /\ map fst (PortfolioAnalyzer.data self') = ["AAPL"]
    /\ PortfolioAnalyzer.df self' = Some (PortfolioAnalyzer.data self').
Proof.
  destruct (portfolio_load_data_tries_every_ticker street three_tickers)
    as (d & lines & Hin & _ & Hl & E).
  - vm_compute. repeat constructor; cbn; intuition discriminate.
  - pose proof (Hin "AAPL" "aapl.csv" (or_introl eq_refl)) as Ha.
    destruct d as [|item d]; [discriminate Ha|].
    cbn [street PortfolioAnalyzer.data_frame] in E.
    eexists. exists lines. split; [exact E|]. split; [exact Hl|].
    assert (Es : PortfolioAnalyzer.set_df
                   (PortfolioAnalyzer.set_data three_tickers (item :: d)) (item :: d)
                 = fst (fst (PortfolioAnalyzer.load_data street three_tickers)))
      by now rewrite E.
    rewrite Es. split; reflexivity.
Defined.

Lemma portfolio_without_data_never_raises_witness :
  exists lines,
    (PortfolioAnalyzer.load_data street ;; PortfolioAnalyzer.calculate_metrics street ;;
     PortfolioAnalyzer.print_summary street ;;
     PortfolioAnalyzer.plot_performance street)%py two_lost_tickers
    = (two_lost_tickers,
       ("Fetching data from CSV files..." :: lines
        ++ [" No valid data loaded from CSV files.";
            " Error calculating metrics: 'PortfolioAnalyzer' object has no attribute 'df'";
            " Metrics not calculated. Please run `calculate_metrics()` first.";
            " Portfolio value not calculated. Please run `calculate_metrics()` first."])%list,
       inr tt)
    /\ List.length lines = 2%nat.
Proof.
  apply (portfolio_without_data_never_raises street two_lost_tickers);
    try reflexivity.
  intros t path [E|[E|[]]]; inversion E; reflexivity.
Defined.

(** On the state [load_data] leaves with the sample files. *)
Lemma portfolio_summary_after_metrics_witness :
  let loaded := fst (fst (PortfolioAnalyzer.load_data street three_tickers)) in
  let run := PortfolioAnalyzer.calculate_metrics street loaded in
  snd run = inr tt
  /\ exists out',
       PortfolioAnalyzer.plot_performance street (fst (fst run))
       = (fst (fst run), out', inr tt).
Proof.
  cbv zeta.
  destruct (portfolio_summary_after_metrics street
              (fst (fst (PortfolioAnalyzer.load_data street three_tickers)))
              _ _ _ eq_refl) as [Hr H].
  split; [exact Hr|]. apply H. left. reflexivity.
Defined.

(** ** [EdaAnalysis.load_data] when the file is read *)

(** X25.  When the file is read and has a "stock" column, [EdaAnalysis.load_data]
    (lines 15-27) keeps the rows whose stock is one of [selected_stocks] and
    prints the two shapes, the second after the selection, which is written
    as [repr] writes a list of ASCII strings.  With the default
    [selected_stocks=None] the filter raises, the handler prints
    "An unexpected error occurred: ..." and the method returns with the whole
    file in [df]. *)
Theorem eda_load_data_filters_by_stock
        (read_csv : string -> exn + RawNews) (self : EdaAnalysis.Eda)
        (frame : RawNews) :
  read_csv (EdaAnalysis.input_path self) = inr frame ->
  has_column (rn_columns frame) "stock" = true ->
  match EdaAnalysis.selected_stocks self with
  | Some selected =>
      let kept :=
        mkRawNews (rn_columns frame)
          (filter (fun r => existsb (String.eqb (r_stock r)) selected)
                  (rn_rows frame)) in
      exists line,
        EdaAnalysis.load_data read_csv self
        = (EdaAnalysis.set_df self kept,
           ["File loaded successfully. Shape: " ++ EdaAnalysis.shape frame; line],
           inr tt)
        /\ (forallb is_ascii selected = true ->
            line = "Filtered DataFrame shape of " ++ EdaAnalysis.repr_list selected
                   ++ ": " ++ EdaAnalysis.shape kept)
  | None =>
      exists msg,
        EdaAnalysis.load_data read_csv self
        = (EdaAnalysis.set_df self frame,
           ["File loaded successfully. Shape: " ++ EdaAnalysis.shape frame;
            "An unexpected error occurred: " ++ msg],
           inr tt)
  end.
Proof.
  intros Er Hc.
  unfold EdaAnalysis.load_data, try_except, bind, get, lift, put, print, getitem,
    EdaAnalysis.list_like.
  rewrite Er, Hc.
  destruct (EdaAnalysis.selected_stocks self) as [selected|].
  - eexists. split; [reflexivity|]. intros _. reflexivity.
  - eexists. reflexivity.
Qed.

(** The sample news file, filtered on AAPL, on two symbols of which one holds
    an apostrophe, and with no selection. *)
Lemma eda_load_data_filters_by_stock_witness :
  (exists self',
      EdaAnalysis.load_data (fun _ => inr fallback_news)
                            (EdaAnalysis.init "news.csv" (Some ["AAPL"]))
      = (self',
         ["File loaded successfully. Shape: (3, 5)";
          "Filtered DataFrame shape of ['AAPL']: (2, 5)"],
         inr tt))
  /\ (exists self',
        EdaAnalysis.load_data (fun _ => inr fallback_news)
                              (EdaAnalysis.init "news.csv" (Some ["TSLA"; "O'R"]))
        = (self',
           ["File loaded successfully. Shape: (3, 5)";
            "Filtered DataFrame shape of ['TSLA', " ++ double_quote ++ "O'R"
            ++ double_quote ++ "]: (1, 5)"],
           inr tt))
  /\ exists msg,
       EdaAnalysis.load_data (fun _ => inr fallback_news)
                             (EdaAnalysis.init "news.csv" None)
       = (EdaAnalysis.set_df (EdaAnalysis.init "news.csv" None) fallback_news,
          ["File loaded successfully. Shape: (3, 5)";
           "An unexpected error occurred: " ++ msg],
          inr tt).
Proof.
  split; [|split].
  - destruct (eda_load_data_filters_by_stock (fun _ => inr fallback_news)
                (EdaAnalysis.init "news.csv" (Some ["AAPL"])) fallback_news
                eq_refl eq_refl) as (line & E & Hline).
    eexists. rewrite E, (Hline eq_refl). reflexivity.
  - destruct (eda_load_data_filters_by_stock (fun _ => inr fallback_news)
                (EdaAnalysis.init "news.csv" (Some ["TSLA"; "O'R"])) fallback_news
                eq_refl eq_refl) as (line & E & Hline).
    eexists. rewrite E, (Hline eq_refl). reflexivity.
  - exact (eda_load_data_filters_by_stock (fun _ => inr fallback_news)
             (EdaAnalysis.init "news.csv" None) fallback_news eq_refl eq_refl).
Defined.

(** ** [parse_dates] *)

Lemma has_column_add_column (columns : list string) (name other : string) :
  has_column columns name = true -> has_column (add_column columns other) name = true.
Proof.
  intros H. unfold add_column. destruct (has_column columns other); [exact H|].
  unfold has_column in *. rewrite existsb_app. now rewrite H.
Qed.

Lemma add_column_twice (columns : list string) (name : string) :
  add_column (add_column columns name) name = add_column columns name.
Proof.
  unfold add_column at 2 3. destruct (has_column columns name) eqn:E.
  - unfold add_column. now rewrite E.
  - unfold add_column. unfold has_column. rewrite existsb_app. cbn [existsb].
    now rewrite String.eqb_refl, orb_true_r.
Qed.

(** X26.  On a frame with a "date" column [parse_dates] (lines 67-69) returns
    without printing, leaves "date" a UTC column and "date_only" the calendar
    day of each date; run again it changes nothing, and after it
    [article_hour_distribution] does not raise the [AttributeError] of
    [.dt]. *)
Theorem parse_dates_can_be_repeated (V : Exploration.Views) (df : Exploration.Frame) :
  has_column (Exploration.columns df) "date" = true ->
  exists df',
    Exploration.parse_dates V df = (df', [], inr tt)
    /\ Exploration.date_parsed df' = true
    /\ Exploration.columns df' = add_column (Exploration.columns df) "date_only"
    /\ map Exploration.a_date_only (Exploration.articles df')
       = map (fun a => Exploration.day_of (Exploration.a_date a))
             (Exploration.articles df')
    /\ Exploration.parse_dates V df' = (df', [], inr tt)
    /\ exists df'' counts,
         Exploration.article_hour_distribution V df'
         = (df'', [], Exploration.bar_plot V counts).
Proof.
  intros Hc.
  set (parsed := Exploration.parse_date_column V df).
  set (df' := Exploration.add_date_only parsed).
  assert (Hp : Exploration.date_parsed df' = true).
  { unfold df', parsed, Exploration.add_date_only, Exploration.parse_date_column.
    cbn [Exploration.date_parsed].
    destruct (Exploration.date_parsed df) eqn:E; [exact E|reflexivity]. }
  assert (Hcols : Exploration.columns df'
                  = add_column (Exploration.columns df) "date_only").
  { unfold df', parsed, Exploration.add_date_only, Exploration.parse_date_column.
    cbn [Exploration.columns]. now destruct (Exploration.date_parsed df). }
  assert (Hc' : has_column (Exploration.columns df') "date" = true)
    by (rewrite Hcols; now apply has_column_add_column).
  exists df'. split; [|split; [exact Hp|split; [exact Hcols|split; [|split]]]].
  - unfold Exploration.parse_dates, bind, get, lift, put, getitem.
    now rewrite Hc.
  - unfold df', Exploration.add_date_only. cbn [Exploration.articles].
    rewrite !map_map. reflexivity.
  - unfold Exploration.parse_dates, bind, get, lift, put, getitem.
    rewrite Hc'. cbn [app].
    assert (E1 : Exploration.parse_date_column V df' = df')
      by (unfold Exploration.parse_date_column; now rewrite Hp).
    rewrite E1.
    assert (E2 : Exploration.add_date_only df' = df').
    { unfold df' at 1. unfold Exploration.add_date_only at 1 2.
      cbn [Exploration.columns Exploration.date_parsed Exploration.articles].
      rewrite add_column_twice, map_map. unfold df', Exploration.add_date_only.
      reflexivity. }
    now rewrite E2.
  - unfold Exploration.article_hour_distribution, bind, get, lift, put, getitem.
    rewrite Hc', Hp.
    set (counts := Exploration.size_by_key _).
    eexists. exists counts.
    destruct (Exploration.bar_plot V counts); reflexivity.
Qed.

Lemma parse_dates_can_be_repeated_witness :
  Exploration.parse_dates quiet_views newsroom = (newsroom_parsed, [], inr tt)
  /\ Exploration.parse_dates quiet_views newsroom_parsed
     = (newsroom_parsed, [], inr tt)
  /\ map Exploration.a_date_only (Exploration.articles newsroom_parsed)
     = [Some (days_from_civil 2021 1 4); Some (days_from_civil 2021 1 4);
        Some (days_from_civil 2021 1 5)].
Proof.
  destruct (parse_dates_can_be_repeated quiet_views newsroom eq_refl)
    as (df' & E & _ & _ & _ & E' & _).
  assert (Ed : df' = newsroom_parsed) by (unfold newsroom_parsed; now rewrite E).
  rewrite Ed in *. split; [exact E|]. split; [exact E'|]. reflexivity.
Defined.

(** ** [StockAnalyzer] *)

Section StockFacts.

Context {D : Type} (L : StockAnalyzer.Library D).

Import StockAnalyzer.

Lemma plotting_without_frame (prefix : string) (draw : D -> exn + unit)
                             (self : Stock D) :
  df self = None -> figure L = inr tt ->
  plotting L prefix draw self
  = (self, [prefix ++ "'NoneType' object is not subscriptable"], inr tt).
Proof.
  intros Hd Hf.
  unfold plotting, print_and_go_on, try_except, bind, get, lift, print, ret,
    subscript.
  now rewrite Hf, Hd.
Qed.

(** X27.  When the price file cannot be read, [StockAnalyzer.load_data]
    (lines 15-26) prints the failure and returns, leaving [df] at [None];
    [calculate_indicators] and the four plots (lines 28-94) run after it
    print, each under its own prefix, the [TypeError] of subscripting [None],
    and none of the six raises or changes the object. *)
Theorem stock_analyzer_goes_on_without_data (self : Stock D) (e : exn) :
  df self = None ->
  read_csv L (filepath self) = inl e ->
  figure L = inr tt ->
  let not_subscriptable := "'NoneType' object is not subscriptable" in
  (load_data L ;; calculate_indicators L ;; plot_sma L ;; plot_rsi L ;;
   plot_macd L ;; plot_daily_return L)%py self
  = (self,
     ["[Error] Failed to load data: " ++ exn_str e;
      "[Error] Failed to calculate indicators: " ++ not_subscriptable;
      "[Error] Failed to plot SMA: " ++ not_subscriptable;
      "[Error] Failed to plot RSI: " ++ not_subscriptable;
      "[Error] Failed to plot MACD: " ++ not_subscriptable;
      "[Error] Failed to plot daily return: " ++ not_subscriptable],
     inr tt).
Proof.
  intros Hd Hr Hf. cbv zeta.
  assert (E1 : load_data L self
               = (self, ["[Error] Failed to load data: " ++ exn_str e], inr tt)).
  { unfold load_data, print_and_go_on, try_except, bind, get, lift, print, ret.
    now rewrite Hr. }
  assert (E2 : calculate_indicators L self
               = (self,
                  ["[Error] Failed to calculate indicators: "
                   ++ "'NoneType' object is not subscriptable"], inr tt)).
  { unfold calculate_indicators, step, print_and_go_on, try_except, bind, get,
      lift, print, ret, subscript.
    now rewrite Hd. }
  unfold bind at 1. rewrite E1.
  unfold bind at 1. rewrite E2.
  unfold bind at 1. unfold plot_sma at 1. unfold bind at 1, get at 1.
  rewrite (plotting_without_frame _ _ self Hd Hf).
  unfold bind at 1. unfold plot_rsi.
  rewrite (plotting_without_frame _ _ self Hd Hf).
  unfold bind at 1. unfold plot_macd, plot_daily_return.
  rewrite !(plotting_without_frame _ _ self Hd Hf).
  reflexivity.
Qed.

End StockFacts.

Lemma stock_analyzer_goes_on_without_data_witness :
  let self := StockAnalyzer.init "AAPL" "aapl.csv" in
  exists out,
    (StockAnalyzer.load_data no_price_file ;;
     StockAnalyzer.calculate_indicators no_price_file ;;
     StockAnalyzer.plot_sma no_price_file ;; StockAnalyzer.plot_rsi no_price_file ;;
     StockAnalyzer.plot_macd no_price_file ;;
     StockAnalyzer.plot_daily_return no_price_file)%py self
    = (self, out, inr tt)
    /\ List.length out = 6%nat.
Proof.
  cbv zeta. eexists. split.
  - apply (stock_analyzer_goes_on_without_data no_price_file
             (StockAnalyzer.init "AAPL" "aapl.csv")
             (Exn FileNotFoundError
                "[Errno 2] No such file or directory: 'aapl.csv'"));
      reflexivity.
  - reflexivity.
Defined.

(** ** The five stages in a row *)

Section Pipeline.

Context {F : Type} {num : Number F} (X : Externals F).

Lemma has_column_added (columns : list string) (name : string) :
  has_column (add_column columns name) name = true.
Proof.
  unfold add_column. destruct (has_column columns name) eqn:E; [exact E|].
  unfold has_column. rewrite existsb_app. cbn [existsb].
  now rewrite String.eqb_refl, orb_true_r.
Qed.


Lemma apply_each_get_sentiment (cells : list csv_cell) :
  (In CMissing cells ->
   exists msg, apply_each (get_sentiment X) cells = inl (Exn TypeError msg))
  /\ (~ In CMissing cells ->
      apply_each (get_sentiment X) cells
      = inr (map (fun c => polarity X (astype_str c)) cells)).
Proof.
  induction cells as [|c cells [IH1 IH2]]; [split; [intros []|reflexivity]|].
  destruct c as [s|]; cbn [apply_each get_sentiment].
  - split.
    + intros [E|Hin]; [discriminate|]. destruct (IH1 Hin) as (msg & ->). eauto.
    + intros Hn. rewrite IH2; [reflexivity|]. intros Hin. apply Hn. now right.
  - split; [eauto|]. intros Hn. exfalso. apply Hn. now left.
Qed.

Lemma analyze_sentiment_ok (self : Analyzer F) (df : NewsFrame F) :
  news_df self = Some df ->
  has_column (n_columns df) "headline" = true ->
  ~ In CMissing (map n_headline (n_rows df)) ->
  analyze_sentiment X self
  = (set_news_df self
       (mkNewsFrame (add_column (n_columns df) "sentiment") (n_tz df) (n_object df)
          (set_sentiment (n_rows df)
             (map (fun r => polarity X (astype_str (n_headline r))) (n_rows df)))),
     [], inr tt).
Proof.
  intros Hn Hc Hm.
  unfold analyze_sentiment, analyze_sentiment_body, guarded, try_except, bind,
    get, lift, put, subscript, getitem.
  rewrite Hn, Hc, (proj2 (apply_each_get_sentiment _) Hm), map_map. reflexivity.
Qed.

Lemma analyze_sentiment_missing (self : Analyzer F) (df : NewsFrame F) :
  news_df self = Some df ->
  has_column (n_columns df) "headline" = true ->
  In CMissing (map n_headline (n_rows df)) ->
  exists msg,
    analyze_sentiment X self
    = (self, ["[Error] Sentiment analysis failed: " ++ msg],
       inl (Exn TypeError msg)).
Proof.
  intros Hn Hc Hm.
  destruct (proj1 (apply_each_get_sentiment _) Hm) as (msg & E).
  exists msg.
  unfold analyze_sentiment, analyze_sentiment_body, guarded, try_except,
    print_and_reraise, bind, get, lift, put, raise, print, subscript, getitem.
  now rewrite Hn, Hc, E.
Qed.

Lemma set_sentiment_dates (rows : list (NewsRow F)) (scores : list F) :
  List.length scores = List.length rows ->
  map n_date (set_sentiment rows scores) = map n_date rows
  /\ map n_headline (set_sentiment rows scores) = map n_headline rows
  /\ map n_sentiment (set_sentiment rows scores) = scores.
Proof.
  intros Hl. unfold set_sentiment. rewrite !map_map.
  cbn [n_date n_headline n_sentiment]. split; [|split].
  - rewrite <- (map_map fst n_date). now rewrite map_fst_combine.
  - rewrite <- (map_map fst n_headline). now rewrite map_fst_combine.
  - now apply map_snd_combine.
Qed.



(** X30.  [analyze_sentiment] (lines 86-96) on a news frame that has its
    "headline" column: when every headline is there it scores each one,
    leaves the dates and the headlines as they are and returns without
    printing; when a headline is missing (an empty field of the file, read as
    NaN) [TextBlob] raises a [TypeError], which is printed under the prefix
    and raised again, the frame left without the "sentiment" column. *)
Theorem analyze_sentiment_wants_every_headline (self : Analyzer F)
                                               (df : NewsFrame F) :
  news_df self = Some df ->
  has_column (n_columns df) "headline" = true ->
  (~ In CMissing (map n_headline (n_rows df)) ->
   exists self' df',
     analyze_sentiment X self = (self', [], inr tt)
     /\ news_df self' = Some df'
     /\ stock_df self' = stock_df self /\ merged_df self' = merged_df self
     /\ has_column (n_columns df') "sentiment" = true
     /\ map n_date (n_rows df') = map n_date (n_rows df)
     /\ map n_headline (n_rows df') = map n_headline (n_rows df)
     /\ map n_sentiment (n_rows df')
        = map (fun r => polarity X (astype_str (n_headline r))) (n_rows df))
  /\ (In CMissing (map n_headline (n_rows df)) ->
      exists msg,
        analyze_sentiment X self
        = (self, ["[Error] Sentiment analysis failed: " ++ msg],
           inl (Exn TypeError msg))).
Proof.
  intros Hn Hc. split.
  - intros Hm. rewrite (analyze_sentiment_ok self df Hn Hc Hm).
    do 2 eexists. split; [reflexivity|].
    cbn [news_df stock_df merged_df set_news_df n_columns n_rows].
    do 3 (split; [reflexivity|]). split; [apply has_column_added|].
    apply set_sentiment_dates. now rewrite length_map.
  - intros Hm. exact (analyze_sentiment_missing self df Hn Hc Hm).
Qed.

End Pipeline.

(** The two headlines of the example are scored; the file of which a
    record has no headline is refused. *)
Lemma analyze_sentiment_wants_every_headline_witness :
  let X := desk (inr fallback_news) (inr one_bar) stable_argsort in
  (exists self' df',
     analyze_sentiment X (loaded fallback_news one_bar) = (self', [], inr tt)
     /\ news_df self' = Some df'
     /\ map n_sentiment (n_rows df') = [f64_of_Z 0; f64_of_Z 0])
  /\ (exists msg,
        analyze_sentiment X (loaded headless_news one_bar)
        = (loaded headless_news one_bar,
           ["[Error] Sentiment analysis failed: " ++ msg],
           inl (Exn TypeError msg))).
Proof.
  cbv zeta. split.
  - destruct (proj1 (analyze_sentiment_wants_every_headline
                       (desk (inr fallback_news) (inr one_bar) stable_argsort)
                       (loaded fallback_news one_bar) _ eq_refl eq_refl))
      as (self' & df' & E & Hn & _ & _ & _ & _ & _ & Hs).
    + cbn. intros [H|[H|[]]]; discriminate H.
    + exists self', df'. split; [exact E|]. split; [exact Hn|].
      rewrite Hs. reflexivity.
  - apply (proj2 (analyze_sentiment_wants_every_headline
                    (desk (inr fallback_news) (inr one_bar) stable_argsort)
                    (loaded headless_news one_bar) _ eq_refl eq_refl)).
    cbn. right. left. reflexivity.
Defined.


(** ** Letter case in the fallback format *)

Lemma lower_char_idem : forall c, lower_char (lower_char c) = lower_char c.
Proof. each_char. Qed.

Lemma is_digit_lower : forall c, is_digit (lower_char c) = is_digit c.
Proof. each_char. Qed.

Lemma is_space_lower : forall c, is_space (lower_char c) = is_space c.
Proof. each_char. Qed.

Lemma digit_is_lower : forall c, is_digit c = true -> lower_char c = c.
Proof. each_char. Qed.

Lemma lower_app (s t : string) : lower (s ++ t) = lower s ++ lower t.
Proof. induction s as [|c s IH]; cbn; [reflexivity|now rewrite IH]. Qed.

Lemma lower_idem (s : string) : lower (lower s) = lower s.
Proof.
  induction s as [|c s IH]; cbn; [reflexivity|]. now rewrite lower_char_idem, IH.
Qed.

Lemma lower_empty (s : string) : String.eqb (lower s) "" = String.eqb s "".
Proof. destruct s; reflexivity. Qed.

Lemma int_acc_lower (s : string) : forall acc, int_acc acc (lower s) = int_acc acc s.
Proof.
  induction s as [|c s IH]; intros acc; [reflexivity|].
  cbn [lower int_acc]. rewrite is_digit_lower.
  destruct (is_digit c) eqn:E; [|apply IH].
  rewrite (digit_is_lower c E). apply IH.
Qed.

Lemma many1_lower (p : ascii -> bool) (s : string) :
  (forall c, p (lower_char c) = p c) ->
  many1 p (lower s) = map lower_matching (many1 p s).
Proof.
  intros Hp. induction s as [|c s IH]; [reflexivity|].
  cbn [lower many1]. rewrite Hp. destruct (p c); [|reflexivity].
  rewrite IH, map_app, !map_map. cbn [map lower_matching lower_captures lower].
  f_equal. apply map_ext. now intros [[g t] rest].
Qed.

(** Matching the text in small letters gives the same matches, in small
    letters. *)
Lemma rmatch_lower (r : regex) :
  case_blind r ->
  forall s, rmatch r (lower s) = map lower_matching (rmatch r s).
Proof.
  induction r as [|p|r1 IH1 r2 IH2|r1 IH1 r2 IH2|p|name r IH]; cbn [case_blind];
    intros Hb s.
  - reflexivity.
  - destruct s as [|c s]; [reflexivity|]. cbn [lower rmatch]. rewrite Hb.
    now destruct (p c).
  - destruct Hb as [H1 H2]. cbn [rmatch]. rewrite (IH1 H1).
    generalize (rmatch r1 s) as l. induction l as [|[[g1 t1] s1] l IHl];
      [reflexivity|].
    cbn [map flat_map lower_matching]. rewrite map_app, IHl. f_equal.
    rewrite (IH2 H2), !map_map. apply map_ext. intros [[g2 t2] s2].
    cbn [lower_matching]. unfold lower_captures. now rewrite map_app, lower_app.
  - destruct Hb as [H1 H2]. cbn [rmatch]. now rewrite map_app, (IH1 H1), (IH2 H2).
  - now apply many1_lower.
  - cbn [rmatch]. rewrite (IH Hb), !map_map. apply map_ext. now intros [[g t] rest].
Qed.

Lemma lit_case_blind (c x : ascii) :
  Ascii.eqb (lower_char (lower_char x)) (lower_char c)
  = Ascii.eqb (lower_char x) (lower_char c).
Proof. now rewrite lower_char_idem. Qed.

Lemma digits_case_blind (lo hi : ascii) :
  (code hi < 65)%N -> forall c, in_range lo hi (lower_char c) = in_range lo hi c.
Proof.
  intros Hhi c. unfold in_range, lower_char.
  destruct ((65 <=? code c) && (code c <=? 90))%N eqn:E; [|reflexivity].
  apply andb_true_iff in E as [E1 E2].
  apply N.leb_le in E1. apply N.leb_le in E2.
  assert (Ec : code (ascii_of_N (code c + 32)) = (code c + 32)%N)
    by (unfold code in *; apply N_ascii_embedding; lia).
  rewrite Ec.
  replace (code c + 32 <=? code hi)%N with false
    by (symmetry; apply N.leb_gt; lia).
  replace (code c <=? code hi)%N with false
    by (symmetry; apply N.leb_gt; lia).
  now rewrite !andb_false_r.
Qed.

Lemma custom_regex_case_blind : case_blind custom_regex.
Proof.
  unfold custom_regex, dir. cbn [directive Ascii.eqb Bool.eqb alts word case_blind].
  unfold lit, digit, range. cbn [case_blind].
  repeat split;
    first [ intros x; apply lit_case_blind
          | apply digits_case_blind; reflexivity
          | apply is_digit_lower
          | apply is_space_lower ].
Qed.

Lemma found_lower (g : captures) (name : ascii) :
  found (lower_captures g) name = option_map lower (found g name).
Proof.
  induction g as [|[n t] g IH]; [reflexivity|].
  cbn [lower_captures map found fst snd]. destruct (Ascii.eqb n name); [reflexivity|].
  exact IH.
Qed.

Lemma group_int_lower (g : captures) (name : ascii) (default : Z) :
  group_int (lower_captures g) name default = group_int g name default.
Proof.
  unfold group_int. rewrite found_lower.
  destruct (found g name) as [t|]; [|reflexivity]. apply int_acc_lower.
Qed.

Lemma hour_of_lower (g : captures) : hour_of (lower_captures g) = hour_of g.
Proof.
  unfold hour_of. rewrite !found_lower.
  destruct (found g "H") as [h|]; cbn [option_map]; [apply int_acc_lower|].
  destruct (found g "I") as [i|]; cbn [option_map]; [|reflexivity].
  unfold int_of. rewrite int_acc_lower.
  destruct (found g "p") as [p|]; cbn [option_map]; [|reflexivity].
  now rewrite lower_idem.
Qed.

(** X29.  The fallback parser (lines 77-84) does not look at the letter
    case: a text in small letters is read as the text itself is, so that
    "am" and "pm" are accepted as "AM" and "PM" are. *)
Theorem try_parse_custom_date_ignores_case (s : string) :
  try_parse_custom_date (PStr (lower s)) = try_parse_custom_date (PStr s).
Proof.
  unfold try_parse_custom_date, strptime. rewrite pattern_custom_format.
  unfold re_match. rewrite (rmatch_lower _ custom_regex_case_blind).
  destruct (rmatch custom_regex s) as [|[[g t] rest] l]; [reflexivity|].
  cbn [map lower_matching]. rewrite lower_empty.
  destruct (negb (String.eqb rest "")); [reflexivity|].
  now rewrite !group_int_lower, hour_of_lower.
Qed.
